(** * Cron to EventBridge converter: the conversion and validation rules

    A shallow embedding of the two pure functions of the page component
    [Index]: [convertCronToEventBridge] and [validateCronExpression]
    (with its helper [isValidCronField]), together with the JavaScript
    string primitives they are written with.

    Strings are sequences of code units; the model covers the code units
    0..255 (Latin-1), on which the regular expressions and [parseInt]
    of the source behave exactly as written below.  Numbers are modelled
    by [Z]: every number the source compares or prints comes from
    [parseInt] on a field of the input, and the comparisons against
    bounds below 2^53 (the validator passes 0, 1, 7, 12, 23, 31 and 59)
    are the same on [Z] and on doubles.  Printing a number is exact up
    to 2^53; above that JavaScript rounds and, from 10^21 on, switches
    to exponent notation, which the model does not follow. *)

From Stdlib Require Import ZArith List Bool Ascii String Lia.
From Stdlib Require Import Numbers.DecimalString.
From Stdlib Require Numbers.DecimalPos.
Import ListNotations.

Open Scope string_scope.

(** ** JavaScript string primitives *)

Module JS.

Definition code (c : ascii) : N := N_of_ascii c.

Definition inRange (lo hi : N) (c : ascii) : bool :=
  ((lo <=? code c) && (code c <=? hi))%N.

(** [\s], [String.prototype.trim] and the prefix [parseInt] skips:
    TAB, LF, VT, FF, CR, SPACE and NBSP are the white space and line
    terminator code units below 256. *)
Definition isWhiteSpace (c : ascii) : bool :=
  inRange 9 13 c || (code c =? 32)%N || (code c =? 160)%N.

(** [\d] *)
Definition isDigit (c : ascii) : bool := inRange 48 57 c.

Definition isUpper (c : ascii) : bool := inRange 65 90 c.
Definition isLower (c : ascii) : bool := inRange 97 122 c.
Definition isLetter (c : ascii) : bool := isUpper c || isLower c.

(** [\w], the class [\b] is defined from *)
Definition isWordChar (c : ascii) : bool :=
  isLetter c || isDigit c || (code c =? 95)%N.

(** Case folding of the [i] flag on ASCII letters; without the [u] flag
    no code unit above 127 folds onto an ASCII letter. *)
Definition toUpper (c : ascii) : ascii :=
  if isLower c then ascii_of_N (code c - 32) else c.

Definition toLower (c : ascii) : ascii :=
  if isUpper c then ascii_of_N (code c + 32) else c.

Fixpoint map (f : ascii -> ascii) (s : string) : string :=
  match s with
  | "" => ""
  | String c s' => String (f c) (map f s')
  end.

(** [s.toUpperCase()] and [s.toLowerCase()] on strings whose letters
    are ASCII letters, as the fields that match a name pattern are. *)
Definition toUpperCase : string -> string := map toUpper.
Definition toLowerCase : string -> string := map toLower.

Fixpoint every (p : ascii -> bool) (s : string) : bool :=
  match s with
  | "" => true
  | String c s' => p c && every p s'
  end.

(** [s.includes(c)] for a one-character needle *)
Fixpoint includes (c : ascii) (s : string) : bool :=
  match s with
  | "" => false
  | String d s' => Ascii.eqb d c || includes c s'
  end.

Fixpoint trimStart (s : string) : string :=
  match s with
  | "" => ""
  | String c s' => if isWhiteSpace c then trimStart s' else s
  end.

Fixpoint trimEnd (s : string) : string :=
  match s with
  | "" => ""
  | String c s' =>
      match trimEnd s' with
      | "" => if isWhiteSpace c then "" else String c ""
      | r => String c r
      end
  end.

Definition trim (s : string) : string := trimEnd (trimStart s).

(** [s.split(/\s+/)]: a run of white space closes the current piece;
    a leading or trailing run leaves an empty piece, and the empty
    string splits into one empty piece. *)
Fixpoint splitWhiteSpace (s : string) : list string :=
  match s with
  | "" => [""]
  | String c s' =>
      if isWhiteSpace c then
        match s' with
        | String c' _ =>
            if isWhiteSpace c' then splitWhiteSpace s'
            else "" :: splitWhiteSpace s'
        | "" => "" :: splitWhiteSpace s'
        end
      else
        match splitWhiteSpace s' with
        | piece :: pieces => String c piece :: pieces
        | [] => [String c ""]
        end
  end.

(** [s.split(sep)] for a one-character separator *)
Fixpoint split (sep : ascii) (s : string) : list string :=
  match s with
  | "" => [""]
  | String c s' =>
      if Ascii.eqb c sep then "" :: split sep s'
      else
        match split sep s' with
        | piece :: pieces => String c piece :: pieces
        | [] => [String c ""]
        end
  end.

(** Array destructuring [const [a, b] = xs]: a missing element is
    [undefined]; the source only destructures arrays that are long
    enough, so the default is never read. *)
Definition item (i : nat) (xs : list string) : string := nth i xs "".

(** Value of a digit in the given radix (10 or 16). *)
Definition digitValue (radix : Z) (c : ascii) : option Z :=
  let v :=
    if isDigit c then Some (Z.of_N (code c) - 48)%Z
    else if inRange 97 122 c then Some (Z.of_N (code c) - 87)%Z
    else if inRange 65 90 c then Some (Z.of_N (code c) - 55)%Z
    else None in
  match v with
  | Some d => if (d <? radix)%Z then Some d else None
  | None => None
  end.

(** The longest prefix of digits, read in the radix; [None] when the
    prefix is empty. *)
Fixpoint digits (radix : Z) (acc : option Z) (s : string) : option Z :=
  match s with
  | "" => acc
  | String c s' =>
      match digitValue radix c with
      | Some d =>
          digits radix
            (Some (match acc with
                   | Some a => a * radix + d
                   | None => d
                   end)%Z) s'
      | None => acc
      end
  end.

(** [parseInt(s)] with no radix argument; [None] is [NaN].  The result
    is the integer the digits write.  The source holds the nearest
    double, which is that integer up to 2^53 and, beyond, compares
    with a bound below 2^53 as the integer does; statements about
    arbitrary bounds therefore ask for [safeBound]. *)
Definition parseInt (s : string) : option Z :=
  let s0 := trimStart s in
  let '(sign, s1) :=
    match s0 with
    | String "-" r => ((-1)%Z, r)
    | String "+" r => (1%Z, r)
    | _ => (1%Z, s0)
    end in
  let '(radix, s2) :=
    match s1 with
    | String "0" (String "x" r) => (16%Z, r)
    | String "0" (String "X" r) => (16%Z, r)
    | _ => (10%Z, s1)
    end in
  option_map (Z.mul sign) (digits radix None s2).

(** [String(n)] and template interpolation of an integer: its decimal
    digits, which is what the source prints for an integer that a
    double holds exactly and that is below 10^21. *)
Definition numberToString (n : Z) : string :=
  NilZero.string_of_int (Z.to_int n).

(** A regular expression as [replace] sees it: at a position, given
    the code unit before it ([None] at the start) and the rest of the
    string, either no match or the length of the match together with
    its replacement text. *)
Definition Matcher : Type := option ascii -> string -> option (nat * string).

(** [s.replace(re, f)] for a global [re] whose matches are never
    empty: scan from the left; at a match emit the replacement and
    resume after it, otherwise copy one code unit.  [skip] counts the
    code units of the current match that remain to be passed over. *)
Fixpoint replaceFrom (m : Matcher) (skip : nat) (prev : option ascii)
    (s : string) : string :=
  match s with
  | "" => ""
  | String c s' =>
      match skip with
      | S k => replaceFrom m k (Some c) s'
      | O =>
          match m prev s with
          | Some (n, r) => r ++ replaceFrom m (pred n) (Some c) s'
          | None => String c (replaceFrom m 0 (Some c) s')
          end
      end
  end.

Definition replaceAll (m : Matcher) (s : string) : string :=
  replaceFrom m 0 None s.

(** A number as the source holds it: [None] is [NaN]. *)
Definition toString (x : option Z) : string :=
  match x with
  | Some n => numberToString n
  | None => "NaN"
  end.

(** [s.startsWith(p)] up to the case of ASCII letters: how a literal
    pattern matches under the [i] flag. *)
Fixpoint startsWithIgnoreCase (p s : string) : bool :=
  match p, s with
  | "", _ => true
  | String a p', String b s' =>
      Ascii.eqb (toUpper a) (toUpper b) && startsWithIgnoreCase p' s'
  | String _ _, "" => false
  end.

(** [s.slice(n)] *)
Fixpoint drop (n : nat) (s : string) : string :=
  match n, s with
  | O, _ => s
  | S k, String _ s' => drop k s'
  | S _, "" => ""
  end.

(** [s.includes(needle)] *)
Fixpoint includesString (needle s : string) : bool :=
  String.prefix needle s
  || match s with
     | "" => false
     | String _ s' => includesString needle s'
     end.

Definition head (s : string) : option ascii :=
  match s with
  | "" => None
  | String c _ => Some c
  end.

(** [\b] next to a word character: the neighbour is absent or is not
    a word character. *)
Definition boundary (neighbour : option ascii) : bool :=
  match neighbour with
  | None => true
  | Some c => negb (isWordChar c)
  end.

(** [xs.join(" ")], the shape of the template that builds the result *)
Fixpoint join (sep : string) (xs : list string) : string :=
  match xs with
  | [] => ""
  | [x] => x
  | x :: rest => x ++ sep ++ join sep rest
  end.

End JS.

(** ** The converter (first file of the unnamed sources, lines 18-95) *)

(** What a call does: return a string or throw an [Error]. *)
Inductive Outcome : Type :=
| Returned (value : string)
| Thrown (message : string).

Definition fieldCountMessage : string :=
  "Unix cron must have exactly 5 fields: minute hour day-of-month month day-of-week".

(** [/SUN/gi] and its six siblings, each with its replacement digit *)
Definition dayName (name digit : string) : JS.Matcher :=
  fun _ s =>
    if JS.startsWithIgnoreCase name s then Some (String.length name, digit)
    else None.

Definition replaceDayNames (dayOfWeek : string) : string :=
  JS.replaceAll (dayName "SAT" "7")
    (JS.replaceAll (dayName "FRI" "6")
      (JS.replaceAll (dayName "THU" "5")
        (JS.replaceAll (dayName "WED" "4")
          (JS.replaceAll (dayName "TUE" "3")
            (JS.replaceAll (dayName "MON" "2")
              (JS.replaceAll (dayName "SUN" "1") dayOfWeek)))))).

(** [n === 0 ? 1 : n + 1], the shift of a range bound *)
Definition shiftBound (x : option Z) : option Z :=
  match x with
  | Some n => Some (if (n =? 0)%Z then 1 else n + 1)%Z
  | None => None
  end.

(** [/(\d)-(\d)/g] with its callback *)
Definition dayRange : JS.Matcher :=
  fun _ s =>
    match s with
    | String a (String "-" (String b _)) =>
        if JS.isDigit a && JS.isDigit b then
          let startNum := JS.parseInt (String a "") in
          let endNum := JS.parseInt (String b "") in
          let newStart := shiftBound startNum in
          let newEnd := shiftBound endNum in
          Some (3, JS.toString newStart ++ "-" ++ JS.toString newEnd)
        else None
    | _ => None
    end.

(** The callback of the single-digit pass. *)
Definition shiftDigit (matched num : string) : string :=
  match JS.parseInt num with
  | Some numVal =>
      if (numVal =? 0)%Z then "1"
      else if ((1 <=? numVal) && (numVal <=? 6))%Z
           then JS.numberToString (numVal + 1)
           else matched
  | None => matched
  end.

(** [/\b(\d)\b/g] with its callback *)
Definition dayDigit : JS.Matcher :=
  fun prev s =>
    match s with
    | String d rest =>
        if JS.isDigit d && JS.boundary prev && JS.boundary (JS.head rest)
        then Some (1, shiftDigit (String d "") (String d ""))
        else None
    | "" => None
    end.

(** The step block: [if (dayOfWeek.includes("/")) { ... }] *)
Definition convertStep (dayOfWeek : string) : string :=
  if JS.includes "/" dayOfWeek then
    let pieces := JS.split "/" dayOfWeek in
    let range := JS.item 0 pieces in
    let step := JS.item 1 pieces in
    if String.eqb range "*" then "*/" ++ step
    else if JS.includes "-" range then dayOfWeek
    else
      match JS.parseInt range with
      | Some baseNum =>
          let convertedBase :=
            if (baseNum =? 0)%Z then 1%Z
            else if ((1 <=? baseNum) && (baseNum <=? 6))%Z then (baseNum + 1)%Z
            else baseNum in
          JS.numberToString convertedBase ++ "/" ++ step
      | None => dayOfWeek
      end
  else dayOfWeek.

(** The whole [if (dayOfWeek !== "*") { ... }] block. *)
Definition convertDayOfWeek (dayOfWeek : string) : string :=
  if String.eqb dayOfWeek "*" then dayOfWeek
  else
    convertStep
      (JS.replaceAll dayDigit
         (JS.replaceAll dayRange (replaceDayNames dayOfWeek))).

(** Mutual exclusivity of day-of-month and day-of-week; the result is
    the pair (dayOfMonth, dayOfWeek) after the three-way [if]. *)
Definition resolveDays (dayOfMonth dayOfWeek : string) : string * string :=
  if negb (String.eqb dayOfMonth "*") && negb (String.eqb dayOfWeek "*")
  then (dayOfMonth, "?")
  else if String.eqb dayOfMonth "*" && String.eqb dayOfWeek "*"
  then (dayOfMonth, "?")
  else if String.eqb dayOfMonth "*" && negb (String.eqb dayOfWeek "*")
  then ("?", dayOfWeek)
  else (dayOfMonth, dayOfWeek).

(** The six fields of the result, for an input of five fields. *)
Definition convertFields (minute hour dayOfMonth month dayOfWeek : string)
  : list string :=
  let dayOfWeek1 := convertDayOfWeek dayOfWeek in
  let '(dayOfMonth2, dayOfWeek2) := resolveDays dayOfMonth dayOfWeek1 in
  [minute; hour; dayOfMonth2; month; dayOfWeek2; "*"].

Definition convertCronToEventBridge (cronExpression : string) : Outcome :=
  let parts := JS.splitWhiteSpace (JS.trim cronExpression) in
  match parts with
  | [minute; hour; dayOfMonth; month; dayOfWeek] =>
      Returned (JS.join " " (convertFields minute hour dayOfMonth month dayOfWeek))
  | _ => Thrown fieldCountMessage
  end.

(** ** The validator (same file, lines 97-181) *)

(** The [fieldType] argument; the source passes these five strings. *)
Inductive FieldType : Type :=
| minute | hour | dayOfMonth | month | dayOfWeek.

Definition isDayOfMonth (t : FieldType) : bool :=
  match t with dayOfMonth => true | _ => false end.
Definition isDayOfWeek (t : FieldType) : bool :=
  match t with dayOfWeek => true | _ => false end.
Definition isMonth (t : FieldType) : bool :=
  match t with month => true | _ => false end.

Definition dayNames : list string :=
  ["SUN"; "MON"; "TUE"; "WED"; "THU"; "FRI"; "SAT"].

Definition monthNames : list string :=
  ["JAN"; "FEB"; "MAR"; "APR"; "MAY"; "JUN";
   "JUL"; "AUG"; "SEP"; "OCT"; "NOV"; "DEC"].

(** The class [[A-Z0-9,\-\/]] under the [i] flag. *)
Definition nameTailChar (c : ascii) : bool :=
  JS.isLetter c || JS.isDigit c
  || Ascii.eqb c "," || Ascii.eqb c "-" || Ascii.eqb c "/".

(** [/^(N1|N2|...)(-|,|\/)*[A-Z0-9,\-\/]*$/i]: the group [(-|,|\/)*]
    matches only code units of the class that follows it, so the
    expression matches exactly the strings made of one of the names, in
    any case, followed by code units of the class. *)
Definition matchesNamed (names : list string) (field : string) : bool :=
  existsb (fun name => JS.startsWithIgnoreCase name field) names
  && JS.every nameTailChar (JS.drop 3 field).

(** [!isNaN(x) && x >= min && x <= max] *)
Definition within (x : option Z) (min max : Z) : bool :=
  match x with
  | Some n => ((min <=? n) && (n <=? max))%Z
  | None => false
  end.

(** [const [start, end] = s.split("-").map(n => parseInt(n));
     return !isNaN(start) && !isNaN(end) && start >= min && end <= max
            && start <= end] *)
Definition validRange (s : string) (min max : Z) : bool :=
  let pieces := JS.split "-" s in
  match JS.parseInt (JS.item 0 pieces), JS.parseInt (JS.item 1 pieces) with
  | Some start, Some end_ =>
      ((min <=? start) && (end_ <=? max) && (start <=? end_))%Z
  | _, _ => false
  end.

Definition isValidCronField (field : string) (min max : Z)
    (fieldType : FieldType) : bool :=
  if String.eqb field "*" then true
  else if isDayOfMonth fieldType && String.eqb field "L" then false
  else if isDayOfMonth fieldType && JS.includes "W" field then false
  else if isDayOfWeek fieldType && JS.includes "#" field then false
  else if isDayOfWeek fieldType && JS.includes "L" field then false
  else if isDayOfWeek fieldType && matchesNamed dayNames field then true
  else if isMonth fieldType && matchesNamed monthNames field then true
  else if JS.includes "/" field then
    let pieces := JS.split "/" field in
    let range := JS.item 0 pieces in
    let step := JS.item 1 pieces in
    match JS.parseInt step with
    | None => false
    | Some stepNum =>
        if (stepNum <=? 0)%Z then false
        else if String.eqb range "*" then true
        else if JS.includes "-" range then validRange range min max
        else within (JS.parseInt range) min max
    end
  else if JS.includes "-" field then validRange field min max
  else if JS.includes "," field then
    forallb (fun val => within (JS.parseInt val) min max)
            (List.map JS.trim (JS.split "," field))
  else within (JS.parseInt field) min max.

Definition validateCronExpression (cronExpression : string) : bool :=
  let parts := JS.splitWhiteSpace (JS.trim cronExpression) in
  match parts with
  | [minute_; hour_; dayOfMonth_; month_; dayOfWeek_] =>
      if negb (isValidCronField minute_ 0 59 minute) then false
      else if negb (isValidCronField hour_ 0 23 hour) then false
      else if negb (isValidCronField dayOfMonth_ 1 31 dayOfMonth) then false
      else if negb (isValidCronField month_ 1 12 month) then false
      else if negb (isValidCronField dayOfWeek_ 0 7 dayOfWeek) then false
      else true
  | _ => false
  end.

(** ** The page's update (the [useEffect] that runs on every edit) *)

(** The three state variables the effect sets. *)
Record PageState : Type := {
  eventBridgeCron : string;
  isValid : bool;
  error : string
}.

Definition invalidMessage : string :=
  "Invalid Unix cron expression. Check field values, ranges, and note that L, W, and # wildcards are not supported in Unix cron.".

(** Blank input clears the page; otherwise the validator runs first,
    then the converter, and whatever is thrown ends in the [catch]. *)
Definition update (unixCron : string) : PageState :=
  if String.eqb (JS.trim unixCron) "" then
    {| eventBridgeCron := ""; isValid := true; error := "" |}
  else if negb (validateCronExpression unixCron) then
    {| eventBridgeCron := ""; isValid := false; error := invalidMessage |}
  else
    match convertCronToEventBridge unixCron with
    | Returned converted =>
        {| eventBridgeCron := converted; isValid := true; error := "" |}
    | Thrown message =>
        {| eventBridgeCron := ""; isValid := false; error := message |}
    end.

(** ** The other two files *)

(** [/\b0\b/g] with a fixed replacement *)
Definition zeroDigit (digit : string) : JS.Matcher :=
  fun prev s =>
    match s with
    | String d rest =>
        if Ascii.eqb d "0" && JS.boundary prev && JS.boundary (JS.head rest)
        then Some (1%nat, digit)
        else None
    | "" => None
    end.

(** [/\b([1-6])\b/g] with the callback [String(parseInt(num) + 1)] *)
Definition lowDigit : JS.Matcher :=
  fun prev s =>
    match s with
    | String d rest =>
        if JS.inRange 49 54 d && JS.boundary prev && JS.boundary (JS.head rest)
        then Some (1%nat,
                   JS.toString
                     (option_map (fun n => (n + 1)%Z)
                                 (JS.parseInt (String d ""))))
        else None
    | "" => None
    end.

(** The second file of the unnamed sources (lines 535-680 of
    [part_000]): no field types, case-sensitive day names. *)
Module Unnamed2.

(** [/SUN/g] and its siblings *)
Definition dayName (name digit : string) : JS.Matcher :=
  fun _ s =>
    if String.prefix name s then Some (String.length name, digit)
    else None.

Definition replaceDayNames (dayOfWeek : string) : string :=
  JS.replaceAll (dayName "SAT" "7")
    (JS.replaceAll (dayName "FRI" "6")
      (JS.replaceAll (dayName "THU" "5")
        (JS.replaceAll (dayName "WED" "4")
          (JS.replaceAll (dayName "TUE" "3")
            (JS.replaceAll (dayName "MON" "2")
              (JS.replaceAll (dayName "SUN" "1") dayOfWeek)))))).

(** [/^\d/.test(s)] *)
Definition startsWithDigit (s : string) : bool :=
  match s with
  | String d _ => JS.isDigit d
  | "" => false
  end.

Definition convertDayOfWeek (dayOfWeek : string) : string :=
  if String.eqb dayOfWeek "*" then dayOfWeek
  else if negb (startsWithDigit dayOfWeek)
          && JS.includesString "MON" dayOfWeek
  then replaceDayNames dayOfWeek
  else
    JS.replaceAll lowDigit
      (JS.replaceAll dayRange
         (JS.replaceAll (zeroDigit "1") dayOfWeek)).

Definition convertCronToEventBridge (cronExpression : string) : Outcome :=
  let parts := JS.splitWhiteSpace (JS.trim cronExpression) in
  match parts with
  | [minute_; hour_; dayOfMonth_; month_; dayOfWeek_] =>
      let '(dayOfMonth2, dayOfWeek2) :=
        resolveDays dayOfMonth_ (convertDayOfWeek dayOfWeek_) in
      Returned (JS.join " " [minute_; hour_; dayOfMonth2; month_; dayOfWeek2; "*"])
  | _ => Thrown fieldCountMessage
  end.

Definition isDayName (a b c : ascii) : bool :=
  existsb (String.eqb (String a (String b (String c "")))) dayNames.

Fixpoint dropSeparators (s : string) : string :=
  match s with
  | String c s' =>
      if Ascii.eqb c "-" || Ascii.eqb c "," then dropSeparators s' else s
  | "" => ""
  end.

Fixpoint onlyDayNames (s : string) : bool :=
  match s with
  | "" => true
  | String a (String b (String c rest)) =>
      isDayName a b c && onlyDayNames rest
  | _ => false
  end.

(** [/^(SUN|...|SAT)(-|,)*(SUN|...|SAT)*$/]: a day name, then
    separators, then day names to the end; no name starts with a
    separator, so the separators are taken greedily. *)
Definition matchesDayNames (field : string) : bool :=
  match field with
  | String a (String b (String c rest)) =>
      isDayName a b c && onlyDayNames (dropSeparators rest)
  | _ => false
  end.

Definition isValidCronField (field : string) (min max : Z) : bool :=
  if String.eqb field "*" then true
  else if matchesDayNames field then true
  else if JS.includes "/" field then
    let pieces := JS.split "/" field in
    let range := JS.item 0 pieces in
    let step := JS.item 1 pieces in
    if String.eqb range "*" then
      match JS.parseInt step with
      | Some stepNum => (0 <? stepNum)%Z
      | None => false
      end
    else if JS.includes "-" range then validRange range min max
    else within (JS.parseInt range) min max
  else if JS.includes "-" field then validRange field min max
  else if JS.includes "," field then
    forallb (fun val => within val min max)
            (List.map (fun n => JS.parseInt (JS.trim n)) (JS.split "," field))
  else within (JS.parseInt field) min max.

Definition validateCronExpression (cronExpression : string) : bool :=
  let parts := JS.splitWhiteSpace (JS.trim cronExpression) in
  match parts with
  | [minute_; hour_; dayOfMonth_; month_; dayOfWeek_] =>
      if negb (isValidCronField minute_ 0 59) then false
      else if negb (isValidCronField hour_ 0 23) then false
      else if negb (isValidCronField dayOfMonth_ 1 31) then false
      else if negb (isValidCronField month_ 1 12) then false
      else if negb (isValidCronField dayOfWeek_ 0 7) then false
      else true
  | _ => false
  end.

(** The [useEffect] of the second file (lines 668-690). *)
Definition invalidMessage : string :=
  "Invalid cron expression format. Please check field values and ranges.".

Definition update (unixCron : string) : PageState :=
  if String.eqb (JS.trim unixCron) "" then
    {| eventBridgeCron := ""; isValid := true; error := "" |}
  else if negb (validateCronExpression unixCron) then
    {| eventBridgeCron := ""; isValid := false; error := invalidMessage |}
  else
    match convertCronToEventBridge unixCron with
    | Returned converted =>
        {| eventBridgeCron := converted; isValid := true; error := "" |}
    | Thrown message =>
        {| eventBridgeCron := ""; isValid := false; error := message |}
    end.

End Unnamed2.

(** [src/pages/Index.tsx] (lines 19-54): digits renumbered with Sunday
    as 7, no resolution of the two day fields, a validator of
    characters only. *)
Module IndexPage.

Definition fieldCountMessage : string :=
  "Unix cron must have exactly 5 fields: minute hour day month day-of-week".

Definition convertCronToEventBridge (cronExpression : string) : Outcome :=
  let parts := JS.splitWhiteSpace (JS.trim cronExpression) in
  match parts with
  | [minute_; hour_; dayOfMonth_; month_; dayOfWeek_] =>
      let convertedDayOfWeek :=
        if negb (String.eqb dayOfWeek_ "*") && negb (String.eqb dayOfWeek_ "?")
        then JS.replaceAll lowDigit (JS.replaceAll (zeroDigit "7") dayOfWeek_)
        else dayOfWeek_ in
      Returned (JS.join " "
                  [minute_; hour_; dayOfMonth_; month_; convertedDayOfWeek; "*"])
  | _ => Thrown fieldCountMessage
  end.

(** The class of [/^[\d\*\-\,\/\?]+$/] *)
Definition cronChar (c : ascii) : bool :=
  JS.isDigit c || Ascii.eqb c "*" || Ascii.eqb c "-" || Ascii.eqb c ","
  || Ascii.eqb c "/" || Ascii.eqb c "?".

Definition validateCronExpression (cronExpression : string) : bool :=
  let parts := JS.splitWhiteSpace (JS.trim cronExpression) in
  match parts with
  | [_; _; _; _; _] =>
      forallb (fun part => negb (String.eqb part "") && JS.every cronChar part)
              parts
  | _ => false
  end.

(** The [useEffect] of the page file (lines 56-78). *)
Definition invalidMessage : string := "Invalid cron expression format".

Definition update (unixCron : string) : PageState :=
  if String.eqb (JS.trim unixCron) "" then
    {| eventBridgeCron := ""; isValid := true; error := "" |}
  else if negb (validateCronExpression unixCron) then
    {| eventBridgeCron := ""; isValid := false; error := invalidMessage |}
  else
    match convertCronToEventBridge unixCron with
    | Returned converted =>
        {| eventBridgeCron := converted; isValid := true; error := "" |}
    | Thrown message =>
        {| eventBridgeCron := ""; isValid := false; error := message |}
    end.

End IndexPage.

(** * Vocabulary of the statements *)

(** The fields of an input, as the converter and the validator both
    compute them. *)
Definition fieldsOf (cronExpression : string) : list string :=
  JS.splitWhiteSpace (JS.trim cronExpression).

Definition notSpace (c : ascii) : bool := negb (JS.isWhiteSpace c).

(** A field as the splitting leaves it: not empty, no white space. *)
Definition Token (t : string) : Prop :=
  t <> "" /\ JS.every notSpace t = true.

(** A day field that names days: neither [*] nor [?]. *)
Definition specific (field : string) : bool :=
  negb (String.eqb field "*") && negb (String.eqb field "?").

(** The field types in the order of the fields. *)
Definition fieldTypes : list FieldType :=
  [minute; hour; dayOfMonth; month; dayOfWeek].

(** The bounds the validator passes for each field. *)
Definition bounds (fieldType : FieldType) : Z * Z :=
  match fieldType with
  | minute => (0, 59)
  | hour => (0, 23)
  | dayOfMonth => (1, 31)
  | month => (1, 12)
  | dayOfWeek => (0, 7)
  end%Z.

(** The fields that are accepted on their name alone. *)
Definition acceptedByName (field : string) (fieldType : FieldType) : bool :=
  (isDayOfWeek fieldType && matchesNamed dayNames field)
  || (isMonth fieldType && matchesNamed monthNames field).

(** The step of a step expression: what follows the first [/]. *)
Definition stepOf (field : string) : string :=
  JS.item 1 (JS.split "/" field).

(** The callback of the single-digit pass, read on numbers. *)
Definition remapDay (n : Z) : Z :=
  if (n =? 0)%Z then 1%Z
  else if ((1 <=? n) && (n <=? 6))%Z then (n + 1)%Z
  else n.

(** [ds.join(",")] for a list of numbers *)
Definition dayList (ds : list Z) : string :=
  JS.join "," (List.map JS.numberToString ds).

(** A day-of-week number of Unix cron. *)
Definition weekDay (d : Z) : Prop := (0 <= d <= 7)%Z.

(** The code units of a comma list of digits. *)
Definition plainChar (c : ascii) : bool := JS.isDigit c || Ascii.eqb c ",".

(** A string that begins, or ends, with a code unit that is not white
    space. *)
Definition startsClean (s : string) : bool :=
  match s with
  | String c _ => notSpace c
  | "" => false
  end.

Fixpoint endsClean (s : string) : bool :=
  match s with
  | "" => false
  | String c "" => notSpace c
  | String _ s' => endsClean s'
  end.

(** What every replacement text of the converter is made of: digits
    and the dash of a range, starting with a digit. *)
Definition benignChar (c : ascii) : bool := JS.isDigit c || Ascii.eqb c "-".

Definition startsDigit (s : string) : bool :=
  match s with
  | String d _ => JS.isDigit d
  | "" => false
  end.

Definition Benign (r : string) : Prop :=
  startsDigit r = true /\ JS.every benignChar r = true.

Definition BenignMatcher (m : JS.Matcher) : Prop :=
  forall prev s n r, m prev s = Some (n, r) -> Benign r.

(** A name of three capital letters. *)
Definition upperName (name : string) : Prop :=
  match name with
  | String x (String y (String z "")) =>
      JS.isUpper x = true /\ JS.isUpper y = true /\ JS.isUpper z = true
  | _ => False
  end.

(** A change of case, as the name patterns and the [#] test see it. *)
Definition keepsCase (g : ascii -> ascii) : Prop :=
  forall c,
    JS.toUpper (g c) = JS.toUpper c /\
    nameTailChar (g c) = nameTailChar c /\
    Ascii.eqb (g c) "#" = Ascii.eqb c "#".

(** The code units of an expression without names. *)
Definition numChar (c : ascii) : bool :=
  JS.isDigit c || Ascii.eqb c "-" || Ascii.eqb c "," || Ascii.eqb c "/"
  || Ascii.eqb c "*".

(** The rules of [isValidCronField] that follow the name patterns. *)
Definition numericRule (field : string) (min max : Z) : bool :=
  if JS.includes "/" field then
    let pieces := JS.split "/" field in
    let range := JS.item 0 pieces in
    let step := JS.item 1 pieces in
    match JS.parseInt step with
    | None => false
    | Some stepNum =>
        if (stepNum <=? 0)%Z then false
        else if String.eqb range "*" then true
        else if JS.includes "-" range then validRange range min max
        else within (JS.parseInt range) min max
    end
  else if JS.includes "-" field then validRange field min max
  else if JS.includes "," field then
    forallb (fun val => within (JS.parseInt val) min max)
            (List.map JS.trim (JS.split "," field))
  else within (JS.parseInt field) min max.

(** The separators of a day-of-week expression. *)
Definition sepChar (c : ascii) : bool :=
  Ascii.eqb c "," || Ascii.eqb c "-" || Ascii.eqb c "/".

(** A number followed by separators and numbers: [d s1 d1 s2 d2 ...]. *)
Fixpoint sepList (d : Z) (rest : list (ascii * Z)) : string :=
  match rest with
  | [] => JS.numberToString d
  | (sep, e) :: rest' => JS.numberToString d ++ String sep (sepList e rest')
  end.

(** The two digit passes of the page file, read on numbers. *)
Definition remapPage (n : Z) : Z :=
  if (n =? 0)%Z then 7%Z
  else if ((1 <=? n) && (n <=? 6))%Z then (n + 1)%Z
  else n.

(** The zero pass and the digit pass of the second file, one after the
    other, read on numbers. *)
Definition remapSecond (n : Z) : Z :=
  if (n =? 0)%Z then 2%Z
  else if ((1 <=? n) && (n <=? 6))%Z then (n + 1)%Z
  else n.

(** A renumbering applied to the numbers after the separators. *)
Definition mapDays (f : Z -> Z) (rest : list (ascii * Z)) : list (ascii * Z) :=
  List.map (fun p => (fst p, f (snd p))) rest.

(** Separators and day numbers throughout. *)
Definition dayTail (rest : list (ascii * Z)) : Prop :=
  Forall (fun p => sepChar (fst p) = true /\ weekDay (snd p)) rest.

(** The digit of a day number. *)
Definition digitChar (d : Z) : ascii := ascii_of_N (48 + Z.to_N d).

(** The zero pass alone and the digit pass alone, read on numbers. *)
Definition zeroTo (k n : Z) : Z := if (n =? 0)%Z then k else n.

Definition lowUp (n : Z) : Z :=
  if ((1 <=? n) && (n <=? 6))%Z then (n + 1)%Z else n.

(** What a matcher does at a digit that stands between boundaries:
    replace it by the digit of [f d], or leave it when [f d] is [d]. *)
Definition DigitPass (m : JS.Matcher) (f : Z -> Z) : Prop :=
  (forall d prev rest,
     weekDay d -> JS.boundary prev = true ->
     JS.boundary (JS.head rest) = true ->
     m prev (String (digitChar d) rest) = Some (1%nat, JS.numberToString (f d))
     \/ (m prev (String (digitChar d) rest) = None /\ f d = d)) /\
  (forall prev c rest, sepChar c = true -> m prev (String c rest) = None).

(** Bounds that a double holds exactly, with their neighbours: against
    such bounds the comparisons of the source, made on doubles, are
    the comparisons on [Z] made here ([Number.isSafeInteger]). *)
Definition safeBound (b : Z) : Prop := (Z.abs b < 2 ^ 53)%Z.

(** Fields written one after the other, each later one behind a gap of
    its own. *)
Fixpoint spaced (first : string) (rest : list (string * string)) : string :=
  match rest with
  | [] => first
  | (gap, field) :: rest' => first ++ gap ++ spaced field rest'
  end.

(** A gap between two fields: a run of white space, not empty. *)
Definition gapBefore (p : string * string) : Prop :=
  fst p <> "" /\ JS.every JS.isWhiteSpace (fst p) = true /\ Token (snd p).

(** * Properties of the string primitives *)

Ltac each_ascii c := destruct c as [[] [] [] [] [] [] [] []].

Lemma every_app (p : ascii -> bool) (s t : string) :
  JS.every p (s ++ t) = JS.every p s && JS.every p t.
Proof.
  induction s as [|c s IH]; simpl; [reflexivity|].
  rewrite IH. now rewrite andb_assoc.
Qed.

Lemma every_weaken (p q : ascii -> bool) (s : string) :
  (forall c, p c = true -> q c = true) ->
  JS.every p s = true -> JS.every q s = true.
Proof.
  intros Hpq. induction s as [|c s IH]; simpl; [reflexivity|].
  intros H. apply andb_true_iff in H as [Hc Hs].
  now rewrite (Hpq c Hc), IH.
Qed.

Lemma every_excludes (p : ascii -> bool) (c : ascii) (s : string) :
  p c = false -> JS.every p s = true -> JS.includes c s = false.
Proof.
  intros Hc. induction s as [|d s IH]; simpl; [reflexivity|].
  intros H. apply andb_true_iff in H as [Hd Hs].
  rewrite (IH Hs), orb_false_r.
  destruct (Ascii.eqb_spec d c) as [->|]; congruence.
Qed.

Lemma app_not_empty (s t : string) : s <> "" -> s ++ t <> "".
Proof. destruct s; simpl; congruence. Qed.

(** ** Splitting on one code unit undoes joining *)

Lemma split_not_nil (sep : ascii) (s : string) : JS.split sep s <> [].
Proof.
  induction s as [|c s IH]; simpl; [discriminate|].
  destruct (Ascii.eqb c sep); [discriminate|].
  destruct (JS.split sep s); [congruence | discriminate].
Qed.

Lemma split_piece_then (sep : ascii) (t r : string) :
  JS.includes sep t = false ->
  JS.split sep (t ++ String sep r) = t :: JS.split sep r.
Proof.
  induction t as [|c t IH]; simpl; intros H.
  - now rewrite Ascii.eqb_refl.
  - apply orb_false_iff in H as [Hc Ht].
    rewrite Hc, (IH Ht). reflexivity.
Qed.

Lemma split_single (sep : ascii) (t : string) :
  JS.includes sep t = false -> JS.split sep t = [t].
Proof.
  induction t as [|c t IH]; simpl; intros H; [reflexivity|].
  apply orb_false_iff in H as [Hc Ht].
  now rewrite Hc, (IH Ht).
Qed.

Lemma split_join (sep : ascii) (xs : list string) :
  xs <> [] ->
  Forall (fun x => JS.includes sep x = false) xs ->
  JS.split sep (JS.join (String sep "") xs) = xs.
Proof.
  induction xs as [|x xs IH]; [congruence|].
  intros _ H. inversion H as [|? ? Hx Hxs]; subst.
  destruct xs as [|y ys].
  - simpl. now apply split_single.
  - change (JS.join (String sep "") (x :: y :: ys))
      with (x ++ String sep (JS.join (String sep "") (y :: ys))).
    rewrite (split_piece_then _ _ _ Hx), IH; [reflexivity|discriminate|assumption].
Qed.

Lemma token_no_blank (t : string) : Token t -> JS.includes " " t = false.
Proof. intros [_ H]. now apply (every_excludes notSpace). Qed.

(** ** The pieces of a trimmed string *)

Lemma splitWhiteSpace_pieces (s : string) :
  Forall (fun t => JS.every notSpace t = true) (JS.splitWhiteSpace s).
Proof.
  induction s as [|c s IH]; [repeat constructor|].
  cbn [JS.splitWhiteSpace].
  destruct (JS.isWhiteSpace c) eqn:Hc.
  - destruct s as [|c' s']; [repeat constructor|].
    destruct (JS.isWhiteSpace c'); [assumption|].
    constructor; [reflexivity|assumption].
  - destruct (JS.splitWhiteSpace s) as [|t ts]; [repeat constructor; simpl|].
    + unfold notSpace. now rewrite Hc.
    + inversion IH; subst. constructor; [|assumption].
      simpl. unfold notSpace at 1. now rewrite Hc.
Qed.

Lemma splitWhiteSpace_inner (s : string) :
  endsClean s = true ->
  match JS.splitWhiteSpace s with
  | [] => False
  | t :: ts => (startsClean s = true -> t <> "") /\ Forall (fun x => x <> "") ts
  end.
Proof.
  induction s as [|c s IH]; [discriminate|].
  intros He. cbn [JS.splitWhiteSpace].
  destruct (JS.isWhiteSpace c) eqn:Hc.
  - destruct s as [|c' s'].
    + simpl in He. unfold notSpace in He. rewrite Hc in He. discriminate.
    + assert (He' : endsClean (String c' s') = true) by exact He.
      specialize (IH He').
      destruct (JS.isWhiteSpace c') eqn:Hc'.
      * destruct (JS.splitWhiteSpace (String c' s')) as [|t ts]; [assumption|].
        split; [|apply IH]. simpl. unfold notSpace. rewrite Hc. discriminate.
      * destruct (JS.splitWhiteSpace (String c' s')) as [|t ts]; [contradiction|].
        split; [simpl; unfold notSpace; rewrite Hc; discriminate|].
        constructor; [|apply IH]. apply IH. simpl. unfold notSpace. now rewrite Hc'.
  - destruct s as [|c' s'].
    + simpl. split; [discriminate|constructor].
    + assert (He' : endsClean (String c' s') = true) by exact He.
      specialize (IH He').
      destruct (JS.splitWhiteSpace (String c' s')) as [|t ts]; [contradiction|].
      split; [discriminate|apply IH].
Qed.

Lemma trimStart_clean (s : string) :
  JS.trimStart s = "" \/ startsClean (JS.trimStart s) = true.
Proof.
  induction s as [|c s IH]; [now left|]. simpl.
  destruct (JS.isWhiteSpace c) eqn:Hc; [assumption|].
  right. simpl. unfold notSpace. now rewrite Hc.
Qed.

Lemma trimEnd_clean (s : string) :
  JS.trimEnd s = "" \/ endsClean (JS.trimEnd s) = true.
Proof.
  induction s as [|c s IH]; [now left|]. simpl.
  destruct (JS.trimEnd s) as [|d r] eqn:Hr.
  - destruct (JS.isWhiteSpace c) eqn:Hc; [now left|].
    right. simpl. unfold notSpace. now rewrite Hc.
  - right. destruct IH as [IH|IH]; [discriminate|exact IH].
Qed.

Lemma trimEnd_keeps_start (s : string) :
  startsClean s = true -> startsClean (JS.trimEnd s) = true.
Proof.
  destruct s as [|c s]; [discriminate|]. simpl. intros Hc.
  destruct (JS.trimEnd s).
  - unfold notSpace in Hc.
    destruct (JS.isWhiteSpace c) eqn:E; [discriminate|].
    simpl. unfold notSpace. now rewrite E.
  - exact Hc.
Qed.

Lemma trim_clean (s : string) :
  JS.trim s = "" \/
  (startsClean (JS.trim s) = true /\ endsClean (JS.trim s) = true).
Proof.
  unfold JS.trim.
  destruct (trimStart_clean s) as [H|H].
  - left. now rewrite H.
  - destruct (trimEnd_clean (JS.trimStart s)) as [H'|H']; [now left|].
    right. split; [now apply trimEnd_keeps_start|assumption].
Qed.

(** Two fields or more: every field is a token. *)
Lemma fieldsOf_tokens (input : string) :
  (2 <= List.length (fieldsOf input))%nat -> Forall Token (fieldsOf input).
Proof.
  unfold fieldsOf. intros Hlen.
  destruct (trim_clean input) as [H|[Hs He]].
  - rewrite H in Hlen. simpl in Hlen. lia.
  - pose proof (splitWhiteSpace_inner _ He) as Hin.
    pose proof (splitWhiteSpace_pieces (JS.trim input)) as Hp.
    destruct (JS.splitWhiteSpace (JS.trim input)) as [|t ts]; [contradiction|].
    destruct Hin as [Ht Hts]. inversion Hp as [|? ? Hpt Hpts]; subst.
    constructor; [split; auto|].
    clear - Hts Hpts. induction ts as [|x xs IH]; constructor.
    + inversion Hts; inversion Hpts; subst. split; assumption.
    + inversion Hts; inversion Hpts; subst. now apply IH.
Qed.

(** ** Global replacement *)

Lemma benign_notSpace (c : ascii) : benignChar c = true -> notSpace c = true.
Proof. each_ascii c; vm_compute; congruence. Qed.

Lemma digit_cases (c : ascii) :
  JS.isDigit c = true ->
  In c ["0"; "1"; "2"; "3"; "4"; "5"; "6"; "7"; "8"; "9"]%char.
Proof.
  each_ascii c; vm_compute; intros H; try discriminate H; tauto.
Qed.

Section Replace.

Variable m : JS.Matcher.
Hypothesis m_benign : BenignMatcher m.

Lemma replaceFrom_every (p : ascii -> bool) :
  (forall c, benignChar c = true -> p c = true) ->
  forall s skip prev,
    JS.every p s = true -> JS.every p (JS.replaceFrom m skip prev s) = true.
Proof.
  intros Hp. induction s as [|c s IH]; intros skip prev H; [reflexivity|].
  simpl in H. apply andb_true_iff in H as [Hc Hs].
  cbn [JS.replaceFrom]. destruct skip as [|k]; [|now apply IH].
  destruct (m prev (String c s)) as [[n r]|] eqn:Hm.
  - rewrite every_app, (IH _ _ Hs), andb_true_r.
    apply (every_weaken benignChar); [exact Hp|].
    exact (proj2 (m_benign _ _ _ _ Hm)).
  - simpl. now rewrite Hc, IH.
Qed.

Lemma replaceFrom_not_empty (c : ascii) (s : string) (prev : option ascii) :
  JS.replaceFrom m 0 prev (String c s) <> "".
Proof.
  cbn [JS.replaceFrom].
  destruct (m prev (String c s)) as [[n r]|] eqn:Hm; [|discriminate].
  apply app_not_empty. destruct (m_benign _ _ _ _ Hm) as [Hd _].
  destruct r; [discriminate|congruence].
Qed.

Lemma replaceAll_token (s : string) : Token s -> Token (JS.replaceAll m s).
Proof.
  intros [Hne Hs]. unfold JS.replaceAll. split.
  - destruct s as [|c s]; [congruence|apply replaceFrom_not_empty].
  - apply replaceFrom_every; [exact benign_notSpace|exact Hs].
Qed.

Lemma replaceAll_star (s : string) : JS.replaceAll m s = "*" -> s = "*".
Proof.
  unfold JS.replaceAll. destruct s as [|c s]; [discriminate|].
  cbn [JS.replaceFrom].
  destruct (m None (String c s)) as [[n r]|] eqn:Hm.
  - destruct (m_benign _ _ _ _ Hm) as [Hd _].
    destruct r as [|d r]; [discriminate|]. simpl in Hd.
    simpl. intros H. injection H as -> _. discriminate Hd.
  - intros H. injection H as -> H.
    destruct s as [|c' s']; [reflexivity|].
    now apply replaceFrom_not_empty in H.
Qed.

End Replace.

Lemma dayName_benign (name digit : string) :
  Benign digit -> BenignMatcher (dayName name digit).
Proof.
  intros Hd prev s n r. unfold dayName.
  destruct (JS.startsWithIgnoreCase name s); [|discriminate].
  intros H. now injection H as _ <-.
Qed.

Lemma shifted_bound_benign (a : ascii) :
  JS.isDigit a = true ->
  Benign (JS.toString (shiftBound (JS.parseInt (String a "")))).
Proof.
  intros H. apply digit_cases in H. simpl in H.
  repeat (destruct H as [<-|H]; [split; reflexivity|]). contradiction.
Qed.

Lemma benign_range (x y : string) : Benign x -> Benign y -> Benign (x ++ "-" ++ y).
Proof.
  intros [Hx1 Hx2] [Hy1 Hy2]. split.
  - destruct x; [discriminate|exact Hx1].
  - rewrite every_app, Hx2. simpl. now rewrite Hy2.
Qed.

Lemma dayRange_benign : BenignMatcher dayRange.
Proof.
  intros prev s n r. unfold dayRange.
  destruct s as [|a [|d [|b rest]]]; try discriminate;
    each_ascii d; try discriminate.
  destruct (JS.isDigit a) eqn:Ha; [|discriminate].
  destruct (JS.isDigit b) eqn:Hb; [|discriminate].
  cbn [andb]. intros H. injection H as _ <-.
  apply benign_range; now apply shifted_bound_benign.
Qed.

Lemma shiftDigit_benign (d : ascii) :
  JS.isDigit d = true -> Benign (shiftDigit (String d "") (String d "")).
Proof.
  intros H. apply digit_cases in H. simpl in H.
  repeat (destruct H as [<-|H]; [split; reflexivity|]). contradiction.
Qed.

Lemma dayDigit_benign : BenignMatcher dayDigit.
Proof.
  intros prev s n r. unfold dayDigit.
  destruct s as [|d rest]; [discriminate|].
  destruct (JS.isDigit d) eqn:Hd; [|discriminate].
  destruct (JS.boundary prev); [|discriminate].
  destruct (JS.boundary (JS.head rest)); [|discriminate].
  cbn [andb]. intros H. injection H as _ <-.
  now apply shiftDigit_benign.
Qed.

Lemma digit_benign (d : ascii) : JS.isDigit d = true -> Benign (String d "").
Proof.
  intros H. split; [exact H|]. simpl. unfold benignChar. now rewrite H.
Qed.

(** ** Printing numbers *)

Lemma uint_chars (d : Decimal.uint) :
  JS.every benignChar (NilEmpty.string_of_uint d) = true.
Proof. induction d; simpl; auto. Qed.

Lemma numberToString_chars (n : Z) :
  JS.every benignChar (JS.numberToString n) = true.
Proof.
  unfold JS.numberToString, NilZero.string_of_int, NilZero.string_of_uint.
  destruct (Z.to_int n) as [d|d]; destruct d; try reflexivity;
    apply (uint_chars (_ d)) || (simpl; apply (uint_chars d)).
Qed.

Lemma numberToString_not_empty (n : Z) : JS.numberToString n <> "".
Proof.
  unfold JS.numberToString, NilZero.string_of_int, NilZero.string_of_uint.
  destruct (Z.to_int n) as [d|d]; destruct d; discriminate.
Qed.

(** ** The step block and the day-of-week block *)

Lemma split_pieces_every (p : ascii -> bool) (sep : ascii) (s : string) :
  JS.every p s = true ->
  Forall (fun t => JS.every p t = true) (JS.split sep s).
Proof.
  induction s as [|c s IH]; intros H; [repeat constructor|].
  simpl in H. apply andb_true_iff in H as [Hc Hs]. specialize (IH Hs).
  cbn [JS.split]. destruct (Ascii.eqb c sep).
  - constructor; [reflexivity|assumption].
  - destruct (JS.split sep s) as [|t ts]; [repeat constructor; simpl; now rewrite Hc|].
    inversion IH; subst. constructor; [|assumption]. simpl. now rewrite Hc.
Qed.

Lemma item_every (p : ascii -> bool) (xs : list string) (i : nat) :
  Forall (fun t => JS.every p t = true) xs -> JS.every p (JS.item i xs) = true.
Proof.
  unfold JS.item. intros H. revert i.
  induction H as [|x xs Hx Hxs IH]; intros [|i]; simpl; auto.
Qed.

Lemma includes_app_sep (c : ascii) (s t : string) :
  JS.includes c (s ++ String c t) = true.
Proof.
  induction s as [|d s IH]; simpl.
  - now rewrite Ascii.eqb_refl.
  - rewrite IH. apply orb_true_r.
Qed.

Lemma convertStep_token (d : string) : Token d -> Token (convertStep d).
Proof.
  intros [Hne Hd]. unfold convertStep.
  destruct (JS.includes "/" d); [|now split].
  assert (Hstep : JS.every notSpace (JS.item 1 (JS.split "/" d)) = true)
    by now apply item_every, split_pieces_every.
  destruct (String.eqb _ "*").
  - split; [discriminate|]. simpl. exact Hstep.
  - destruct (JS.includes "-" _); [now split|].
    destruct (JS.parseInt _) as [baseNum|]; [|now split].
    split.
    + apply app_not_empty, numberToString_not_empty.
    + rewrite every_app. simpl. rewrite Hstep, andb_true_r.
      apply (every_weaken benignChar), numberToString_chars.
      exact benign_notSpace.
Qed.

Lemma convertStep_star (d : string) : convertStep d = "*" -> d = "*".
Proof.
  unfold convertStep.
  destruct (JS.includes "/" d); [|trivial].
  destruct (String.eqb _ "*"); [discriminate|].
  destruct (JS.includes "-" _); [trivial|].
  destruct (JS.parseInt _) as [baseNum|]; [|trivial].
  intros H.
  pose proof (includes_app_sep "/"
    (JS.numberToString
       (if (baseNum =? 0)%Z then 1%Z
        else if ((1 <=? baseNum) && (baseNum <=? 6))%Z then (baseNum + 1)%Z
        else baseNum))
    (JS.item 1 (JS.split "/" d))) as Hin.
  change (String "/" (JS.item 1 (JS.split "/" d)))
    with ("/" ++ JS.item 1 (JS.split "/" d)) in Hin.
  rewrite H in Hin. discriminate Hin.
Qed.

Lemma dayNames_benign :
  BenignMatcher (dayName "SUN" "1") /\ BenignMatcher (dayName "MON" "2") /\
  BenignMatcher (dayName "TUE" "3") /\ BenignMatcher (dayName "WED" "4") /\
  BenignMatcher (dayName "THU" "5") /\ BenignMatcher (dayName "FRI" "6") /\
  BenignMatcher (dayName "SAT" "7").
Proof.
  repeat apply conj; apply dayName_benign; now apply digit_benign.
Qed.

Lemma replaceDayNames_token (d : string) : Token d -> Token (replaceDayNames d).
Proof.
  intros H. unfold replaceDayNames.
  destruct dayNames_benign as (H1 & H2 & H3 & H4 & H5 & H6 & H7).
  repeat (apply replaceAll_token; [assumption|]). exact H.
Qed.

Lemma replaceDayNames_star (d : string) : replaceDayNames d = "*" -> d = "*".
Proof.
  unfold replaceDayNames. intros H.
  destruct dayNames_benign as (H1 & H2 & H3 & H4 & H5 & H6 & H7).
  apply (replaceAll_star _ H7) in H. apply (replaceAll_star _ H6) in H.
  apply (replaceAll_star _ H5) in H. apply (replaceAll_star _ H4) in H.
  apply (replaceAll_star _ H3) in H. apply (replaceAll_star _ H2) in H.
  now apply (replaceAll_star _ H1) in H.
Qed.

Lemma convertDayOfWeek_token (d : string) : Token d -> Token (convertDayOfWeek d).
Proof.
  intros H. unfold convertDayOfWeek.
  destruct (String.eqb d "*"); [exact H|].
  apply convertStep_token.
  apply replaceAll_token; [exact dayDigit_benign|].
  apply replaceAll_token; [exact dayRange_benign|].
  now apply replaceDayNames_token.
Qed.

(** The converted field is the wildcard exactly when the source field is. *)
Lemma convertDayOfWeek_star (d : string) :
  convertDayOfWeek d = "*" <-> d = "*".
Proof.
  split.
  - unfold convertDayOfWeek. destruct (String.eqb_spec d "*"); [trivial|].
    intros H. apply convertStep_star in H.
    apply (replaceAll_star _ dayDigit_benign) in H.
    apply (replaceAll_star _ dayRange_benign) in H.
    now apply replaceDayNames_star.
  - now intros ->.
Qed.

Lemma resolveDays_tokens (dom dow : string) :
  Token dom -> Token dow ->
  Token (fst (resolveDays dom dow)) /\ Token (snd (resolveDays dom dow)).
Proof.
  assert (Hq : Token "?") by (split; [discriminate|reflexivity]).
  intros Hm Hw. unfold resolveDays.
  destruct (String.eqb dom "*"), (String.eqb dow "*"); simpl; auto.
Qed.

Lemma convertFields_tokens (m h dom mo dow : string) :
  Token m -> Token h -> Token dom -> Token mo -> Token dow ->
  Forall Token (convertFields m h dom mo dow).
Proof.
  intros Hm Hh Hdom Hmo Hdow. unfold convertFields.
  pose proof (resolveDays_tokens dom (convertDayOfWeek dow) Hdom
                (convertDayOfWeek_token _ Hdow)) as [H1 H2].
  destruct (resolveDays dom (convertDayOfWeek dow)) as [dom2 dow2].
  simpl in H1, H2.
  repeat constructor; try assumption; try discriminate.
  - apply Hm. - apply Hm. - apply Hh. - apply Hh.
  - apply H1. - apply H1. - apply Hmo. - apply Hmo. - apply H2. - apply H2.
Qed.

(** * The converter on five fields *)

Lemma convert_five (input m h dom mo dow : string) :
  fieldsOf input = [m; h; dom; mo; dow] ->
  convertCronToEventBridge input
  = Returned (JS.join " " (convertFields m h dom mo dow)).
Proof.
  unfold convertCronToEventBridge, fieldsOf. now intros ->.
Qed.

Lemma five_fields (input : string) :
  List.length (fieldsOf input) = 5%nat ->
  exists m h dom mo dow, fieldsOf input = [m; h; dom; mo; dow].
Proof.
  destruct (fieldsOf input) as [|m [|h [|dom [|mo [|dow [|x xs]]]]]];
    simpl; intros H; try discriminate H.
  now exists m, h, dom, mo, dow.
Qed.

Lemma convert_throws (input : string) :
  List.length (fieldsOf input) <> 5%nat ->
  convertCronToEventBridge input = Thrown fieldCountMessage.
Proof.
  unfold convertCronToEventBridge, fieldsOf.
  destruct (JS.splitWhiteSpace (JS.trim input))
    as [|m [|h [|dom [|mo [|dow [|x xs]]]]]]; simpl; intros H;
    try reflexivity.
  now contradiction H.
Qed.

Lemma validate_five (input : string) :
  validateCronExpression input = true ->
  exists m h dom mo dow,
    fieldsOf input = [m; h; dom; mo; dow] /\
    isValidCronField m 0 59 minute = true /\
    isValidCronField h 0 23 hour = true /\
    isValidCronField dom 1 31 dayOfMonth = true /\
    isValidCronField mo 1 12 month = true /\
    isValidCronField dow 0 7 dayOfWeek = true.
Proof.
  unfold validateCronExpression, fieldsOf.
  destruct (JS.splitWhiteSpace (JS.trim input))
    as [|m [|h [|dom [|mo [|dow [|x xs]]]]]]; try discriminate.
  intros H. exists m, h, dom, mo, dow.
  destruct (isValidCronField m 0 59 minute); [|discriminate].
  destruct (isValidCronField h 0 23 hour); [|discriminate].
  destruct (isValidCronField dom 1 31 dayOfMonth); [|discriminate].
  destruct (isValidCronField mo 1 12 month); [|discriminate].
  destruct (isValidCronField dow 0 7 dayOfWeek); [|discriminate].
  repeat apply conj; reflexivity.
Qed.

(** The result for five fields, spelled out: the six fields are tokens,
    they are the pieces of the result between single blanks, and the
    days are the resolved pair. *)
Lemma convert_shape (input m h dom mo dow : string) :
  fieldsOf input = [m; h; dom; mo; dow] ->
  exists dom' dow',
    resolveDays dom (convertDayOfWeek dow) = (dom', dow') /\
    convertCronToEventBridge input
    = Returned (m ++ " " ++ h ++ " " ++ dom' ++ " " ++ mo ++ " " ++ dow' ++ " " ++ "*") /\
    JS.split " " (m ++ " " ++ h ++ " " ++ dom' ++ " " ++ mo ++ " " ++ dow' ++ " " ++ "*")
    = [m; h; dom'; mo; dow'; "*"] /\
    Forall Token [m; h; dom'; mo; dow'; "*"].
Proof.
  intros Hf.
  assert (Htok : Forall Token [m; h; dom; mo; dow]).
  { rewrite <- Hf. apply fieldsOf_tokens. rewrite Hf. simpl. lia. }
  inversion Htok as [|? ? Hm H1]; subst. inversion H1 as [|? ? Hh H2]; subst.
  inversion H2 as [|? ? Hdom H3]; subst. inversion H3 as [|? ? Hmo H4]; subst.
  inversion H4 as [|? ? Hdow _]; subst.
  pose proof (convertFields_tokens _ _ _ _ _ Hm Hh Hdom Hmo Hdow) as Hout.
  pose proof (convert_five _ _ _ _ _ _ Hf) as Hc.
  unfold convertFields in Hout, Hc.
  destruct (resolveDays dom (convertDayOfWeek dow)) as [dom' dow'].
  exists dom', dow'. split; [reflexivity|]. split; [exact Hc|]. split; [|exact Hout].
  apply (split_join " " [m; h; dom'; mo; dow'; "*"]); [discriminate|].
  eapply Forall_impl; [|exact Hout]. exact token_no_blank.
Qed.

(** * The claims about the converter *)

(** C9: for every input the validator accepts, the converter returns
    six fields joined by single blanks, in the order minute, hour,
    day-of-month, month, day-of-week, year; minute, hour and month are
    the input's own fields and the year is the literal [*]. *)
Theorem convert_six_fields (input : string) :
  validateCronExpression input = true ->
  exists m h dom mo dow dom' dow',
    fieldsOf input = [m; h; dom; mo; dow] /\
    resolveDays dom (convertDayOfWeek dow) = (dom', dow') /\
    convertCronToEventBridge input
    = Returned (m ++ " " ++ h ++ " " ++ dom' ++ " " ++ mo ++ " " ++ dow' ++ " " ++ "*") /\
    JS.split " " (m ++ " " ++ h ++ " " ++ dom' ++ " " ++ mo ++ " " ++ dow' ++ " " ++ "*")
    = [m; h; dom'; mo; dow'; "*"] /\
    Forall Token [m; h; dom'; mo; dow'; "*"].
Proof.
  intros Hv.
  destruct (validate_five _ Hv) as (m & h & dom & mo & dow & Hf & _).
  destruct (convert_shape _ _ _ _ _ _ Hf) as (dom' & dow' & H).
  exists m, h, dom, mo, dow, dom', dow'. split; [exact Hf|exact H].
Qed.

Lemma convert_six_fields_witness :
  exists m h dom mo dow dom' dow',
    fieldsOf "0 8 1 * *" = [m; h; dom; mo; dow] /\
    resolveDays dom (convertDayOfWeek dow) = (dom', dow') /\
    convertCronToEventBridge "0 8 1 * *"
    = Returned (m ++ " " ++ h ++ " " ++ dom' ++ " " ++ mo ++ " " ++ dow' ++ " " ++ "*") /\
    JS.split " " (m ++ " " ++ h ++ " " ++ dom' ++ " " ++ mo ++ " " ++ dow' ++ " " ++ "*")
    = [m; h; dom'; mo; dow'; "*"] /\
    Forall Token [m; h; dom'; mo; dow'; "*"].
Proof. apply (convert_six_fields "0 8 1 * *"). reflexivity. Defined.



(** The resolution of the two day fields, read as a table: both
    given: day-of-week is [?]; both [*]: day-of-week is [?]; only
    day-of-week given: day-of-month is [?]; only day-of-month given:
    both stay.  [dow1] is the day-of-week field after its renumbering,
    which is [*] exactly when the field itself is. *)
Lemma resolveDays_table (dom dow dow1 dom' dow' : string) :
  (dow1 = "*" <-> dow = "*") ->
  resolveDays dom dow1 = (dom', dow') ->
  specific dom' && specific dow' = false /\
  (dom <> "*" -> dow <> "*" -> dom' = dom /\ dow' = "?") /\
  (dom = "*" -> dow = "*" -> dom' = "*" /\ dow' = "?") /\
  (dom = "*" -> dow <> "*" -> dom' = "?" /\ dow' = dow1) /\
  (dom <> "*" -> dow = "*" -> dom' = dom /\ dow' = "*").
Proof.
  intros Hstar Hr. unfold resolveDays in Hr.
  destruct (String.eqb_spec dom "*") as [Hd|Hd];
    destruct (String.eqb_spec dow1 "*") as [Hw|Hw];
    simpl in Hr; injection Hr as <- <-.
  - pose proof (proj1 Hstar Hw). subst.
    repeat apply conj; solve [reflexivity | intros; congruence | auto].
  - assert (dow <> "*") by (intros E; apply Hw, Hstar, E). subst.
    repeat apply conj; solve [reflexivity | intros; congruence | auto].
  - pose proof (proj1 Hstar Hw). rewrite Hw.
    repeat apply conj;
      solve [apply andb_false_r | intros; congruence | auto].
  - assert (dow <> "*") by (intros E; apply Hw, Hstar, E).
    repeat apply conj;
      solve [apply andb_false_r | intros; congruence | auto].
Qed.

(** ** Single digits and comma lists of digits *)

Lemma weekDay_cases (d : Z) :
  weekDay d ->
  In d [0; 1; 2; 3; 4; 5; 6; 7]%Z.
Proof. unfold weekDay. simpl. lia. Qed.

Ltac each_weekDay H :=
  apply weekDay_cases in H; simpl in H;
  repeat (destruct H as [<-|H]); [..|contradiction].

Lemma plain_cases (c : ascii) :
  plainChar c = true ->
  In c [","; "0"; "1"; "2"; "3"; "4"; "5"; "6"; "7"; "8"; "9"]%char.
Proof.
  each_ascii c; vm_compute; intros H; try discriminate H; tauto.
Qed.

Ltac each_plain H :=
  apply plain_cases in H; simpl in H;
  repeat (destruct H as [<-|H]); [..|contradiction].

Lemma replaceFrom_no_match (m : JS.Matcher) :
  (forall prev s, JS.every plainChar s = true -> m prev s = None) ->
  forall s prev,
    JS.every plainChar s = true -> JS.replaceFrom m 0 prev s = s.
Proof.
  intros Hm. induction s as [|c s IH]; intros prev H; [reflexivity|].
  cbn [JS.replaceFrom]. rewrite (Hm _ _ H).
  simpl in H. apply andb_true_iff in H as [_ Hs]. now rewrite IH.
Qed.

Lemma dayName_no_match (name digit : string) :
  In name dayNames ->
  forall prev s, JS.every plainChar s = true -> dayName name digit prev s = None.
Proof.
  intros Hn prev s H. unfold dayName.
  destruct s as [|c s]; simpl in Hn;
    repeat (destruct Hn as [<-|Hn]; [try reflexivity|]); try contradiction;
    simpl in H; apply andb_true_iff in H as [Hc _];
    each_plain Hc; reflexivity.
Qed.

Lemma replaceDayNames_plain (s : string) :
  JS.every plainChar s = true -> replaceDayNames s = s.
Proof.
  intros H. unfold replaceDayNames, JS.replaceAll.
  repeat (rewrite replaceFrom_no_match;
          [|apply dayName_no_match; simpl; tauto|]); trivial.
Qed.

Lemma dayRange_no_match (prev : option ascii) (s : string) :
  JS.every plainChar s = true -> dayRange prev s = None.
Proof.
  intros H. unfold dayRange.
  destruct s as [|a [|d [|b rest]]]; try reflexivity;
    simpl in H; apply andb_true_iff in H as [_ H];
    apply andb_true_iff in H as [Hd _]; each_plain Hd; reflexivity.
Qed.

Lemma dayList_cons (d e : Z) (ds : list Z) :
  dayList (d :: e :: ds) = JS.numberToString d ++ "," ++ dayList (e :: ds).
Proof. reflexivity. Qed.

Lemma dayList_plain (ds : list Z) :
  Forall weekDay ds -> JS.every plainChar (dayList ds) = true.
Proof.
  induction ds as [|d ds IH]; intros H; [reflexivity|].
  inversion H as [|? ? Hd Hds]; subst. specialize (IH Hds).
  destruct ds as [|e ds].
  - each_weekDay Hd; reflexivity.
  - rewrite dayList_cons, every_app. simpl. rewrite IH.
    each_weekDay Hd; reflexivity.
Qed.

Lemma remapDay_weekDay (d : Z) : weekDay d -> weekDay (remapDay d).
Proof. intros H. each_weekDay H; vm_compute; intuition discriminate. Qed.

Lemma remapDay_all (ds : list Z) :
  Forall weekDay ds -> Forall weekDay (List.map remapDay ds).
Proof. induction 1; constructor; auto using remapDay_weekDay. Qed.

Lemma dayDigit_list (ds : list Z) :
  ds <> [] -> Forall weekDay ds ->
  forall prev, JS.boundary prev = true ->
    JS.replaceFrom dayDigit 0 prev (dayList ds)
    = dayList (List.map remapDay ds).
Proof.
  induction ds as [|d ds IH]; [congruence|].
  intros _ H prev Hp. inversion H as [|? ? Hd Hds]; subst.
  destruct ds as [|e ds].
  - each_weekDay Hd; cbn; rewrite Hp; reflexivity.
  - assert (IH' := IH ltac:(discriminate) Hds (Some ","%char) eq_refl).
    cbn [List.map]. rewrite !dayList_cons.
    cbn [List.map] in IH'. rewrite <- IH'.
    each_weekDay Hd; cbn; rewrite Hp; reflexivity.
Qed.

Lemma convertDayOfWeek_list (ds : list Z) :
  ds <> [] -> Forall weekDay ds ->
  convertDayOfWeek (dayList ds) = dayList (List.map remapDay ds).
Proof.
  intros Hne H.
  pose proof (dayList_plain _ H) as Hp.
  pose proof (dayList_plain _ (remapDay_all _ H)) as Hp'.
  unfold convertDayOfWeek.
  destruct (String.eqb_spec (dayList ds) "*") as [E|_].
  { rewrite E in Hp. discriminate Hp. }
  rewrite (replaceDayNames_plain _ Hp).
  unfold JS.replaceAll.
  rewrite (replaceFrom_no_match _ dayRange_no_match _ _ Hp).
  rewrite (dayDigit_list _ Hne H None eq_refl).
  unfold convertStep.
  now rewrite (every_excludes plainChar "/" _ eq_refl Hp').
Qed.

Lemma convert_day_list (input m h mo : string) (ds : list Z) :
  fieldsOf input = [m; h; "*"; mo; dayList ds] ->
  ds <> [] ->
  Forall weekDay ds ->
  convertCronToEventBridge input
  = Returned (m ++ " " ++ h ++ " ? " ++ mo ++ " "
                ++ dayList (List.map remapDay ds) ++ " *").
Proof.
  intros Hf Hne Hds.
  pose proof (convertDayOfWeek_list _ Hne Hds) as Hconv.
  rewrite (convert_five _ _ _ _ _ _ Hf).
  unfold convertFields, resolveDays. rewrite Hconv.
  destruct (String.eqb_spec (dayList (List.map remapDay ds)) "*") as [E|_].
  - pose proof (dayList_plain _ (remapDay_all _ Hds)) as Hp.
    rewrite E in Hp. discriminate Hp.
  - reflexivity.
Qed.

(** C1 as stated fails: on valid inputs 7 is kept rather than sent to
    8; a range is shifted twice; a step expression has its base shifted
    twice and its step once; and the second file sends 0 to 2 and
    shifts the step as well. *)
Lemma day_offset_not_applied_once :
  validateCronExpression "0 0 * * 7" = true /\
  convertCronToEventBridge "0 0 * * 7" = Returned "0 0 ? * 7 *" /\
  validateCronExpression "0 18 * * 1-5" = true /\
  convertCronToEventBridge "0 18 * * 1-5" = Returned "0 18 ? * 3-7 *" /\
  validateCronExpression "0 0 * * 1/2" = true /\
  convertCronToEventBridge "0 0 * * 1/2" = Returned "0 0 ? * 3/3 *" /\
  validateCronExpression "0 0 * * */2" = true /\
  convertCronToEventBridge "0 0 * * */2" = Returned "0 0 ? * */3 *" /\
  Unnamed2.validateCronExpression "0 0 * * 7" = true /\
  Unnamed2.convertCronToEventBridge "0 0 * * 7" = Returned "0 0 ? * 7 *" /\
  Unnamed2.validateCronExpression "0 0 * * 0" = true /\
  Unnamed2.convertCronToEventBridge "0 0 * * 0" = Returned "0 0 ? * 2 *" /\
  Unnamed2.validateCronExpression "0 0 * * 1/2" = true /\
  Unnamed2.convertCronToEventBridge "0 0 * * 1/2" = Returned "0 0 ? * 2/3 *".
Proof. repeat apply conj; reflexivity. Qed.

(** C3: the code at the input of the claim.  The range pass turns
    [1-5] into [2-6] and the single-digit pass that follows shifts both
    bounds again. *)
Theorem weekdays_example_shifted_twice :
  JS.replaceAll dayRange (replaceDayNames "1-5") = "2-6" /\
  JS.replaceAll dayDigit "2-6" = "3-7" /\
  convertCronToEventBridge "0 18 * * 1-5" = Returned "0 18 ? * 3-7 *".
Proof. repeat apply conj; reflexivity. Qed.

(** C4, as the code has it: a single digit 0..6 in the day-of-week
    field is sent to the next number and 7 stays 7. *)
Theorem single_day_renumbered (n : Z) (input m h mo : string) :
  (0 <= n <= 7)%Z ->
  fieldsOf input = [m; h; "*"; mo; JS.numberToString n] ->
  convertCronToEventBridge input
  = Returned (m ++ " " ++ h ++ " ? " ++ mo ++ " "
                ++ JS.numberToString (if (n =? 7)%Z then 7 else n + 1) ++ " *").
Proof.
  intros Hn Hf.
  assert (Hw : Forall weekDay [n]) by (constructor; [exact Hn|constructor]).
  rewrite (convert_day_list input m h mo [n] Hf ltac:(discriminate) Hw).
  unfold dayList. cbn [List.map JS.join].
  replace (remapDay n) with (if (n =? 7)%Z then 7%Z else (n + 1)%Z); [reflexivity|].
  each_weekDay Hn; reflexivity.
Qed.

Lemma single_day_renumbered_witness :
  convertCronToEventBridge "30 14 * * 0"
  = Returned ("30" ++ " " ++ "14" ++ " ? " ++ "*" ++ " "
                ++ JS.numberToString (if (0 =? 7)%Z then 7 else 0 + 1) ++ " *").
Proof.
  apply (single_day_renumbered 0 "30 14 * * 0" "30" "14" "*").
  - lia.
  - reflexivity.
Defined.

(** C4 as stated fails: 7 is not sent to 1. *)
Lemma seven_is_kept :
  convertCronToEventBridge "0 0 * * 7" = Returned "0 0 ? * 7 *" /\
  convertCronToEventBridge "0 0 * * 7" <> Returned "0 0 ? * 1 *".
Proof. split; [reflexivity|discriminate]. Qed.

(** C5, as the code has it: the converter throws exactly when the
    input does not split into five fields, so it throws only on inputs
    the validator rejects, and on every input the validator accepts it
    returns the six-field expression; rejecting a five-field input is
    left to the page's update, which runs the validator first and shows
    an error with no result exactly when the validator says no. *)
Theorem convert_throws_on_count_only (input : string) :
  ((exists message, convertCronToEventBridge input = Thrown message)
   <-> List.length (fieldsOf input) <> 5%nat) /\
  (validateCronExpression input = true ->
   exists out, convertCronToEventBridge input = Returned out /\
               List.length (JS.split " " out) = 6%nat) /\
  ((exists message, convertCronToEventBridge input = Thrown message) ->
   validateCronExpression input = false) /\
  (JS.trim input <> "" ->
   (isValid (update input) = false <-> validateCronExpression input = false)) /\
  (isValid (update input) = false -> eventBridgeCron (update input) = "").
Proof.
  assert (Hok : validateCronExpression input = true ->
                exists out, convertCronToEventBridge input = Returned out /\
                            List.length (JS.split " " out) = 6%nat).
  { intros Hv. destruct (validate_five _ Hv) as (m & h & dom & mo & dow & Hf & _).
    destruct (convert_shape _ _ _ _ _ _ Hf) as (dom' & dow' & _ & Hc & Hs & _).
    eexists. split; [exact Hc|]. now rewrite Hs. }
  assert (Hthrow : (exists message, convertCronToEventBridge input = Thrown message)
                   -> List.length (fieldsOf input) <> 5%nat).
  { intros [message Hm] Hlen.
    destruct (five_fields _ Hlen) as (m & h & dom & mo & dow & Hf).
    rewrite (convert_five _ _ _ _ _ _ Hf) in Hm. discriminate. }
  repeat apply conj.
  - exact Hthrow.
  - intros Hlen. eexists. now apply convert_throws.
  - exact Hok.
  - intros Ht. destruct (validateCronExpression input) eqn:Hv; [|reflexivity].
    destruct (Hok eq_refl) as (out & Hc & _). destruct Ht as [message Hm].
    congruence.
  - intros Hne. unfold update.
    destruct (String.eqb_spec (JS.trim input) "") as [E|_]; [contradiction|].
    destruct (validateCronExpression input) eqn:Hv; simpl; [|tauto].
    destruct (Hok eq_refl) as (out & Hc & _). rewrite Hc. simpl.
    split; discriminate.
  - unfold update.
    destruct (String.eqb (JS.trim input) ""); [discriminate|].
    destruct (negb (validateCronExpression input)); [reflexivity|].
    destruct (convertCronToEventBridge input); [discriminate|reflexivity].
Qed.

Lemma convert_throws_on_count_only_witness :
  exists out, convertCronToEventBridge "0 9 * * 1" = Returned out /\
              List.length (JS.split " " out) = 6%nat.
Proof.
  apply (proj1 (proj2 (convert_throws_on_count_only "0 9 * * 1"))).
  reflexivity.
Defined.

(** C5 as stated fails: a five-field input the validator rejects is
    still converted. *)
Lemma convert_accepts_rejected_input :
  validateCronExpression "99 99 99 99 99" = false /\
  convertCronToEventBridge "99 99 99 99 99" = Returned "99 99 99 99 ? *".
Proof. split; reflexivity. Qed.

(** * The claims about the validator *)

Lemma validate_fields (input m h dom mo dow : string) :
  fieldsOf input = [m; h; dom; mo; dow] ->
  validateCronExpression input
  = isValidCronField m 0 59 minute && isValidCronField h 0 23 hour
    && isValidCronField dom 1 31 dayOfMonth && isValidCronField mo 1 12 month
    && isValidCronField dow 0 7 dayOfWeek.
Proof.
  unfold validateCronExpression, fieldsOf. intros ->.
  destruct (isValidCronField m 0 59 minute); [|reflexivity].
  destruct (isValidCronField h 0 23 hour); [|reflexivity].
  destruct (isValidCronField dom 1 31 dayOfMonth); [|reflexivity].
  destruct (isValidCronField mo 1 12 month); [|reflexivity].
  destruct (isValidCronField dow 0 7 dayOfWeek); reflexivity.
Qed.

Lemma includes_star (c : ascii) (field : string) :
  JS.includes c "*" = false -> JS.includes c field = true ->
  String.eqb field "*" = false.
Proof.
  intros Hc H. destruct (String.eqb_spec field "*") as [->|]; congruence.
Qed.

(** C6, as the code has it: on five fields the validator says no when
    the day-of-month field is exactly [L] or contains [W], and when the
    day-of-week field contains [#] or [L]. *)
Theorem validate_rejects_eventbridge_wildcards (input m h dom mo dow : string) :
  fieldsOf input = [m; h; dom; mo; dow] ->
  dom = "L" \/ JS.includes "W" dom = true \/
  JS.includes "#" dow = true \/ JS.includes "L" dow = true ->
  validateCronExpression input = false.
Proof.
  intros Hf H. rewrite (validate_fields _ _ _ _ _ _ Hf).
  destruct H as [->|[H|[H|H]]].
  - now rewrite andb_false_r.
  - assert (isValidCronField dom 1 31 dayOfMonth = false) as ->.
    { unfold isValidCronField.
      rewrite (includes_star "W" dom eq_refl H), H. cbn.
      now destruct (String.eqb dom "L"). }
    now rewrite andb_false_r.
  - assert (isValidCronField dow 0 7 dayOfWeek = false) as ->.
    { unfold isValidCronField.
      now rewrite (includes_star "#" dow eq_refl H), H. }
    apply andb_false_r.
  - assert (isValidCronField dow 0 7 dayOfWeek = false) as ->.
    { unfold isValidCronField.
      rewrite (includes_star "L" dow eq_refl H), H. cbn.
      now destruct (JS.includes "#" dow). }
    apply andb_false_r.
Qed.

Lemma validate_rejects_eventbridge_wildcards_witness :
  validateCronExpression "0 9 * * 5L" = false.
Proof.
  apply (validate_rejects_eventbridge_wildcards "0 9 * * 5L" "0" "9" "*" "*" "5L").
  - reflexivity.
  - right. right. right. reflexivity.
Defined.

(** C6 as stated fails: a day-of-month field that contains [L] next to
    a number is accepted. *)
Lemma validate_accepts_L_after_day :
  JS.includes "L" "2L" = true /\
  validateCronExpression "0 0 2L * *" = true.
Proof. split; reflexivity. Qed.

Lemma valid_step_positive (field : string) (min max : Z) (fieldType : FieldType) :
  JS.includes "/" field = true ->
  acceptedByName field fieldType = false ->
  isValidCronField field min max fieldType = true ->
  exists stepNum, JS.parseInt (stepOf field) = Some stepNum /\ (0 < stepNum)%Z.
Proof.
  intros Hs Hn. unfold isValidCronField, stepOf.
  rewrite (includes_star "/" field eq_refl Hs), Hs.
  unfold acceptedByName in Hn. apply orb_false_iff in Hn as [-> ->].
  destruct (isDayOfMonth fieldType && String.eqb field "L"); [discriminate|].
  destruct (isDayOfMonth fieldType && JS.includes "W" field); [discriminate|].
  destruct (isDayOfWeek fieldType && JS.includes "#" field); [discriminate|].
  destruct (isDayOfWeek fieldType && JS.includes "L" field); [discriminate|].
  destruct (JS.parseInt _) as [stepNum|]; [|discriminate].
  destruct (Z.leb_spec stepNum 0); [discriminate|].
  intros _. exists stepNum. split; [reflexivity|lia].
Qed.

Lemma validate_each (input : string) :
  validateCronExpression input = true ->
  forall i field fieldType,
    nth_error (fieldsOf input) i = Some field ->
    nth_error fieldTypes i = Some fieldType ->
    isValidCronField field (fst (bounds fieldType)) (snd (bounds fieldType))
      fieldType = true.
Proof.
  intros Hv.
  destruct (validate_five _ Hv) as (m & h & dom & mo & dow & Hf & H1 & H2 & H3 & H4 & H5).
  rewrite Hf. intros i field fieldType Hi Ht.
  destruct i as [|[|[|[|[|i]]]]]; simpl in Hi, Ht;
    try (injection Hi as <-; injection Ht as <-; assumption).
  destruct i; discriminate.
Qed.

(** The first file reads the step before the range: a field with a
    [/] that is not accepted on its name alone passes the validator
    only if what follows the first [/] parses as an integer above
    zero, whatever stands before it. *)
Lemma validate_needs_positive_step
    (input field : string) (i : nat) (fieldType : FieldType) :
  nth_error (fieldsOf input) i = Some field ->
  nth_error fieldTypes i = Some fieldType ->
  JS.includes "/" field = true ->
  acceptedByName field fieldType = false ->
  validateCronExpression input = true ->
  exists stepNum, JS.parseInt (stepOf field) = Some stepNum /\ (0 < stepNum)%Z.
Proof.
  intros Hi Ht Hs Hn Hv.
  eapply valid_step_positive; [exact Hs|exact Hn|].
  exact (validate_each _ Hv _ _ _ Hi Ht).
Qed.

Lemma validate_needs_positive_step_example :
  exists stepNum, JS.parseInt (stepOf "1-5/2") = Some stepNum /\ (0 < stepNum)%Z.
Proof.
  apply (validate_needs_positive_step "0/15 8-17 * * 1-5/2" "1-5/2" 4 dayOfWeek);
    reflexivity.
Qed.

(** The name patterns are tried before the step: a named day or month
    followed by a step of zero passes. *)
Lemma validate_accepts_zero_step_after_name :
  JS.parseInt (stepOf "MON/0") = Some 0%Z /\
  validateCronExpression "0 0 * * MON/0" = true /\
  validateCronExpression "0 0 * JAN/0 *" = true.
Proof. repeat apply conj; reflexivity. Qed.

(** ** Named days and months *)

Lemma letter_facts (a : ascii) :
  JS.isLetter a = true ->
  Ascii.eqb a "*" = false /\ Ascii.eqb a "/" = false /\
  Ascii.eqb a "-" = false /\ Ascii.eqb a "," = false /\
  JS.isWhiteSpace a = false.
Proof. each_ascii a; vm_compute; intros H; try discriminate H; tauto. Qed.

Lemma parseInt_letter (a : ascii) (s : string) :
  JS.isLetter a = true -> JS.parseInt (String a s) = None.
Proof.
  each_ascii a; vm_compute JS.isLetter; intros H; try discriminate H;
    reflexivity.
Qed.

Lemma upper_is_letter (x a : ascii) :
  JS.isUpper x = true -> Ascii.eqb (JS.toUpper x) (JS.toUpper a) = true ->
  JS.isLetter a = true.
Proof.
  intros Hx H. apply Ascii.eqb_eq in H.
  assert (Hu : JS.isUpper (JS.toUpper a) = true).
  { rewrite <- H. revert Hx. each_ascii x; vm_compute; congruence. }
  clear - Hu. revert Hu. each_ascii a; vm_compute; congruence.
Qed.

Lemma split_first (sep a : ascii) (s : string) :
  Ascii.eqb a sep = false ->
  JS.item 0 (JS.split sep (String a s))
  = String a (JS.item 0 (JS.split sep s)).
Proof.
  intros H. cbn [JS.split]. rewrite H.
  pose proof (split_not_nil sep s).
  destruct (JS.split sep s); [congruence|reflexivity].
Qed.

Lemma trim_first (a : ascii) (s : string) :
  JS.isWhiteSpace a = false -> exists t, JS.trim (String a s) = String a t.
Proof.
  intros H. unfold JS.trim. cbn [JS.trimStart]. rewrite H.
  cbn [JS.trimEnd]. rewrite H.
  destruct (JS.trimEnd s); eexists; reflexivity.
Qed.

Lemma validRange_letter (a : ascii) (s : string) (min max : Z) :
  JS.isLetter a = true -> validRange (String a s) min max = false.
Proof.
  intros H. unfold validRange.
  destruct (letter_facts _ H) as (_ & _ & Hm & _).
  now rewrite (split_first _ _ _ Hm), (parseInt_letter _ _ H).
Qed.

(** A field that starts with a letter passes only on its name. *)
Lemma rejects_letter_start (a : ascii) (s : string) (min max : Z)
    (fieldType : FieldType) :
  JS.isLetter a = true ->
  acceptedByName (String a s) fieldType = false ->
  isValidCronField (String a s) min max fieldType = false.
Proof.
  intros H Hn.
  destruct (letter_facts _ H) as (Hstar & Hslash & Hminus & Hcomma & Hws).
  unfold acceptedByName in Hn. apply orb_false_iff in Hn as [Hd Hm].
  unfold isValidCronField. rewrite Hd, Hm.
  replace (String.eqb (String a s) "*") with false
    by (simpl; now rewrite Hstar).
  destruct (isDayOfMonth fieldType && String.eqb (String a s) "L"); [reflexivity|].
  destruct (isDayOfMonth fieldType && JS.includes "W" (String a s)); [reflexivity|].
  destruct (isDayOfWeek fieldType && JS.includes "#" (String a s)); [reflexivity|].
  destruct (isDayOfWeek fieldType && JS.includes "L" (String a s)); [reflexivity|].
  destruct (JS.includes "/" (String a s)).
  - destruct (JS.parseInt (JS.item 1 _)) as [stepNum|]; [|reflexivity].
    destruct (stepNum <=? 0)%Z; [reflexivity|].
    rewrite (split_first _ _ _ Hslash).
    replace (String.eqb (String a (JS.item 0 (JS.split "/" s))) "*") with false
      by (simpl; now rewrite Hstar).
    rewrite (validRange_letter _ _ _ _ H), (parseInt_letter _ _ H).
    now destruct (JS.includes "-" _).
  - rewrite (validRange_letter _ _ _ _ H), (parseInt_letter _ _ H).
    destruct (JS.includes "-" _); [reflexivity|].
    destruct (JS.includes "," _); [|reflexivity].
    cbn [JS.split]. rewrite Hcomma.
    destruct (trim_first a) with (s := JS.item 0 (JS.split "," s)) as [t Ht]; [exact Hws|].
    pose proof (split_not_nil "," s).
    destruct (JS.split "," s) as [|p ps]; [congruence|].
    unfold JS.item in Ht. cbn [nth] in Ht. cbn [List.map forallb].
    now rewrite Ht, (parseInt_letter _ _ H).
Qed.

Lemma names_upper : Forall upperName dayNames /\ Forall upperName monthNames.
Proof. split; repeat constructor. Qed.

Lemma existsb_Forall {A : Type} (P : A -> Prop) (f : A -> bool) (xs : list A) :
  Forall P xs -> existsb f xs = true -> exists x, P x /\ In x xs /\ f x = true.
Proof.
  intros H He. apply existsb_exists in He as (x & Hin & Hx).
  exists x. rewrite Forall_forall in H. auto.
Qed.

(** A field that matches a name pattern starts with a letter. *)
Lemma named_starts_with_letter (names : list string) (field : string) :
  Forall upperName names ->
  matchesNamed names field = true ->
  exists a s, field = String a s /\ JS.isLetter a = true.
Proof.
  intros Hup H. unfold matchesNamed in H.
  apply andb_true_iff in H as [H _].
  destruct (existsb_Forall _ _ _ Hup H) as (name & Hn & _ & Hs).
  destruct name as [|x [|y [|z [|]]]]; try contradiction.
  destruct Hn as (Hx & _). destruct field as [|a s]; [discriminate|].
  exists a, s. split; [reflexivity|].
  cbn [JS.startsWithIgnoreCase] in Hs. apply andb_true_iff in Hs as [Hs _].
  exact (upper_is_letter _ _ Hx Hs).
Qed.

Lemma starts_key (name field : string) :
  String.length name = 3%nat ->
  JS.startsWithIgnoreCase name field = true ->
  JS.toUpperCase name = JS.toUpperCase (String.substring 0 3 field).
Proof.
  destruct name as [|x [|y [|z [|]]]]; try discriminate. intros _.
  destruct field as [|a [|b [|c rest]]]; cbn [JS.startsWithIgnoreCase];
    rewrite ?andb_false_r; try discriminate.
  intros H. apply andb_true_iff in H as [Ha H].
  apply andb_true_iff in H as [Hb H]. apply andb_true_iff in H as [Hc _].
  apply Ascii.eqb_eq in Ha, Hb, Hc.
  unfold JS.toUpperCase. cbn [String.substring JS.map].
  rewrite Ha, Hb, Hc. now destruct rest.
Qed.

Lemma names_length :
  Forall (fun name => String.length name = 3%nat) dayNames /\
  Forall (fun name => String.length name = 3%nat) monthNames.
Proof. split; repeat constructor. Qed.

Lemma named_key (names : list string) (field : string) :
  Forall (fun name => String.length name = 3%nat) names ->
  matchesNamed names field = true ->
  exists name, In name names /\
    JS.toUpperCase name = JS.toUpperCase (String.substring 0 3 field).
Proof.
  intros Hl H. unfold matchesNamed in H. apply andb_true_iff in H as [H _].
  destruct (existsb_Forall _ _ _ Hl H) as (name & Hn & Hin & Hs).
  exists name. split; [exact Hin|]. now apply starts_key.
Qed.

(** No field matches both the day pattern and the month pattern. *)
Lemma day_or_month (field : string) :
  matchesNamed dayNames field = true ->
  matchesNamed monthNames field = true -> False.
Proof.
  intros Hd Hm.
  destruct (named_key _ _ (proj1 names_length) Hd) as (d & Hind & Hkd).
  destruct (named_key _ _ (proj2 names_length) Hm) as (m & Hinm & Hkm).
  rewrite <- Hkm in Hkd. clear - Hind Hinm Hkd.
  simpl in Hind, Hinm.
  repeat (destruct Hind as [<-|Hind]); try contradiction;
    repeat (destruct Hinm as [<-|Hinm]); try contradiction;
    discriminate Hkd.
Qed.

Lemma valid_named_day (field : string) (min max : Z) :
  matchesNamed dayNames field = true ->
  isValidCronField field min max dayOfWeek
  = negb (JS.includes "#" field) && negb (JS.includes "L" field).
Proof.
  intros H.
  destruct (named_starts_with_letter _ _ (proj1 names_upper) H)
    as (a & s & -> & Ha).
  destruct (letter_facts _ Ha) as (Hstar & _).
  unfold isValidCronField. rewrite H.
  replace (String.eqb (String a s) "*") with false
    by (simpl; now rewrite Hstar).
  cbn [isDayOfMonth isDayOfWeek andb].
  destruct (JS.includes "#" _), (JS.includes "L" _); reflexivity.
Qed.

Lemma valid_named_month (field : string) (min max : Z) :
  matchesNamed monthNames field = true ->
  isValidCronField field min max month = true.
Proof.
  intros H.
  destruct (named_starts_with_letter _ _ (proj2 names_upper) H)
    as (a & s & -> & Ha).
  destruct (letter_facts _ Ha) as (Hstar & _).
  unfold isValidCronField. rewrite H.
  replace (String.eqb (String a s) "*") with false
    by (simpl; now rewrite Hstar).
  reflexivity.
Qed.

(** A named field in a place that does not take its names is refused. *)
Lemma valid_named_elsewhere (field : string) (min max : Z)
    (fieldType : FieldType) :
  (matchesNamed dayNames field = true /\ fieldType <> dayOfWeek) \/
  (matchesNamed monthNames field = true /\ fieldType <> month) ->
  isValidCronField field min max fieldType = false.
Proof.
  intros H.
  assert (Hl : exists a s, field = String a s /\ JS.isLetter a = true).
  { destruct H as [[H _]|[H _]].
    - exact (named_starts_with_letter _ _ (proj1 names_upper) H).
    - exact (named_starts_with_letter _ _ (proj2 names_upper) H). }
  destruct Hl as (a & s & -> & Ha).
  apply rejects_letter_start; [exact Ha|].
  unfold acceptedByName. apply orb_false_iff.
  destruct H as [[Hd Ht]|[Hm Ht]].
  - split; [destruct fieldType; try reflexivity; congruence|].
    destruct (matchesNamed monthNames (String a s)) eqn:Hm; [|apply andb_false_r].
    destruct (day_or_month _ Hd Hm).
  - split; [|destruct fieldType; try reflexivity; congruence].
    destruct (matchesNamed dayNames (String a s)) eqn:Hd; [|apply andb_false_r].
    destruct (day_or_month _ Hd Hm).
Qed.

(** ** Case of the letters *)

Lemma toLower_keepsCase : keepsCase JS.toLower.
Proof. intros c. each_ascii c; vm_compute; auto. Qed.

Lemma toUpper_keepsCase : keepsCase JS.toUpper.
Proof. intros c. each_ascii c; vm_compute; auto. Qed.

Section Case.

Variable g : ascii -> ascii.
Hypothesis g_keeps : keepsCase g.

Lemma startsWith_map (p s : string) :
  JS.startsWithIgnoreCase p (JS.map g s) = JS.startsWithIgnoreCase p s.
Proof.
  revert s. induction p as [|x p IH]; intros [|c s]; try reflexivity.
  cbn [JS.map JS.startsWithIgnoreCase].
  now rewrite IH, (proj1 (g_keeps c)).
Qed.

Lemma drop_map (n : nat) (s : string) :
  JS.drop n (JS.map g s) = JS.map g (JS.drop n s).
Proof.
  revert s. induction n as [|n IH]; intros [|c s]; try reflexivity.
  cbn [JS.map JS.drop]. apply IH.
Qed.

Lemma every_tail_map (s : string) :
  JS.every nameTailChar (JS.map g s) = JS.every nameTailChar s.
Proof.
  induction s as [|c s IH]; [reflexivity|].
  cbn [JS.map JS.every]. now rewrite IH, (proj1 (proj2 (g_keeps c))).
Qed.

Lemma matchesNamed_map (names : list string) (s : string) :
  matchesNamed names (JS.map g s) = matchesNamed names s.
Proof.
  unfold matchesNamed. rewrite drop_map, every_tail_map. f_equal.
  induction names as [|name names IH]; [reflexivity|].
  cbn [existsb]. now rewrite IH, startsWith_map.
Qed.

Lemma includes_hash_map (s : string) :
  JS.includes "#" (JS.map g s) = JS.includes "#" s.
Proof.
  induction s as [|c s IH]; [reflexivity|].
  cbn [JS.map JS.includes]. now rewrite IH, (proj2 (proj2 (g_keeps c))).
Qed.

End Case.

Lemma lower_has_no_L (s : string) : JS.includes "L" (JS.toLowerCase s) = false.
Proof.
  induction s as [|c s IH]; [reflexivity|].
  unfold JS.toLowerCase in *. cbn [JS.map JS.includes]. rewrite IH, orb_false_r.
  clear. each_ascii c; reflexivity.
Qed.

(** * The examples of the page and of the specification *)

(** The rows of the [examples] table whose day-of-week field is [*], a
    single digit or a comma list convert as the table says. *)
Lemma table_rows_that_agree :
  convertCronToEventBridge "15 12 * * *" = Returned "15 12 * * ? *" /\
  convertCronToEventBridge "0/15 * * * *" = Returned "0/15 * * * ? *" /\
  convertCronToEventBridge "30 14 * * 0" = Returned "30 14 ? * 1 *" /\
  convertCronToEventBridge "0 8 * * 1,3,5" = Returned "0 8 ? * 2,4,6 *" /\
  convertCronToEventBridge "0 12 * JAN,JUN,DEC *" = Returned "0 12 * JAN,JUN,DEC ? *" /\
  convertCronToEventBridge "0 9 * * 1" = Returned "0 9 ? * 2 *".
Proof. repeat apply conj; reflexivity. Qed.

(** The rows with a range in the day-of-week field do not: the table
    has [2-6] where the converter returns [3-7]; and with only the
    day-of-month given the day-of-week stays [*] where the table has
    [?]. *)
Lemma table_rows_that_differ :
  convertCronToEventBridge "0 8 1 * *" = Returned "0 8 1 * * *" /\
  convertCronToEventBridge "0 18 * * 1-5" = Returned "0 18 ? * 3-7 *" /\
  convertCronToEventBridge "0/10 * * * 1-5" = Returned "0/10 * ? * 3-7 *" /\
  convertCronToEventBridge "0/5 8-17 * * 1-5" = Returned "0/5 8-17 ? * 3-7 *".
Proof. repeat apply conj; reflexivity. Qed.

Lemma validator_examples :
  validateCronExpression "0 9 * * L" = false /\
  validateCronExpression "60 9 * * 1" = false /\
  validateCronExpression "MON 9 * * 1" = false /\
  validateCronExpression "0 9 * * MON" = true /\
  validateCronExpression "0 9 * * mon" = true /\
  validateCronExpression "0 9 * jan *" = true /\
  validateCronExpression "0 9 * * jan" = false /\
  validateCronExpression "*/0 * * * *" = false /\
  validateCronExpression "1-5/-2 * * * *" = false /\
  validateCronExpression "0 0 3W * *" = false /\
  validateCronExpression "0 0 L * *" = false /\
  validateCronExpression "0 0 * * 5#2" = false.
Proof. repeat apply conj; reflexivity. Qed.

(** How the other two files answer the same inputs: both shift a
    range of days twice or not at all in other places, the second file
    does not check the step after a number and takes day names in any
    field, and the page file neither resolves the two day fields nor
    keeps Sunday at 1. *)
Lemma other_files_examples :
  Unnamed2.convertCronToEventBridge "0 18 * * 1-5" = Returned "0 18 ? * 3-7 *" /\
  Unnamed2.convertCronToEventBridge "30 14 * * 0" = Returned "30 14 ? * 2 *" /\
  Unnamed2.convertCronToEventBridge "99 99 99 99 99" = Returned "99 99 99 99 ? *" /\
  Unnamed2.validateCronExpression "1/0 * * * *" = true /\
  Unnamed2.validateCronExpression "MON * * * *" = true /\
  Unnamed2.validateCronExpression "0 0 * * mon" = false /\
  IndexPage.convertCronToEventBridge "0 18 * * 1-5" = Returned "0 18 * * 2-6 *" /\
  IndexPage.convertCronToEventBridge "30 14 * * 0" = Returned "30 14 * * 7 *" /\
  IndexPage.convertCronToEventBridge "0 9 1 * 1" = Returned "0 9 1 * 2 *" /\
  IndexPage.convertCronToEventBridge "99 99 99 99 99" = Returned "99 99 99 99 99 *" /\
  IndexPage.validateCronExpression "99 99 99 99 99" = true.
Proof. repeat apply conj; reflexivity. Qed.

(** * Numerals *)

Lemma uint_all_digits (d : Decimal.uint) :
  JS.every JS.isDigit (NilEmpty.string_of_uint d) = true.
Proof. induction d; simpl; auto. Qed.

Lemma digits_acc (d : Decimal.uint) (acc : positive) :
  JS.digits 10 (Some (Zpos acc)) (NilEmpty.string_of_uint d)
  = Some (Zpos (Pos.of_uint_acc d acc)).
Proof.
  revert acc. induction d; intros acc; [reflexivity|..];
    cbn [NilEmpty.string_of_uint JS.digits Pos.of_uint_acc];
    (match goal with
     | |- context [JS.digitValue 10 ?c] =>
         change (JS.digitValue 10 c) with (Some (Z.of_N (JS.code c) - 48)%Z)
     end);
    cbn [JS.code N_of_ascii N_of_digits Z.of_N]; rewrite <- IHd; f_equal; f_equal;
    lia.
Qed.

Lemma digits_zero (d : Decimal.uint) :
  JS.digits 10 (Some 0%Z) (NilEmpty.string_of_uint d)
  = Some (Z.of_N (Pos.of_uint d)).
Proof.
  induction d; [reflexivity|..];
    cbn [NilEmpty.string_of_uint JS.digits Pos.of_uint];
    (match goal with
     | |- context [JS.digitValue 10 ?c] =>
         change (JS.digitValue 10 c) with (Some (Z.of_N (JS.code c) - 48)%Z)
     end);
    [exact IHd | apply (digits_acc d) ..].
Qed.

Lemma digits_start (d : Decimal.uint) :
  d <> Decimal.Nil ->
  JS.digits 10 None (NilEmpty.string_of_uint d)
  = Some (Z.of_N (Pos.of_uint d)).
Proof.
  destruct d; [congruence|..]; intros _;
    cbn [NilEmpty.string_of_uint JS.digits Pos.of_uint];
    (match goal with
     | |- context [JS.digitValue 10 ?c] =>
         change (JS.digitValue 10 c) with (Some (Z.of_N (JS.code c) - 48)%Z)
     end);
    [apply digits_zero | apply (digits_acc d) ..].
Qed.

Lemma option_map_one (x : option Z) : option_map (Z.mul 1) x = x.
Proof. destruct x as [n|]; simpl; [now destruct n|reflexivity]. Qed.

Ltac read_in_base_ten :=
  match goal with
  | |- JS.parseInt ?s = _ =>
      transitivity (option_map (Z.mul 1) (JS.digits 10 None s));
      [reflexivity | apply option_map_one]
  end.

(** On a string of digits [parseInt] reads the whole string in base
    ten: no white space, no sign, and no [0x] prefix. *)
Lemma parseInt_all_digits (s : string) :
  JS.every JS.isDigit s = true -> JS.parseInt s = JS.digits 10 None s.
Proof.
  destruct s as [|c s]; [reflexivity|]. simpl JS.every.
  intros H. apply andb_true_iff in H as [Hc Hs].
  apply digit_cases in Hc. simpl in Hc.
  destruct Hc as [<-|Hc].
  - destruct s as [|d s]; [reflexivity|].
    simpl in Hs. apply andb_true_iff in Hs as [Hd _].
    apply digit_cases in Hd. simpl in Hd.
    repeat (destruct Hd as [<-|Hd]; [read_in_base_ten|]). contradiction.
  - repeat (destruct Hc as [<-|Hc]; [read_in_base_ten|]). contradiction.
Qed.

Lemma numeral_of_positive (p : positive) :
  JS.numberToString (Zpos p) = NilEmpty.string_of_uint (Pos.to_uint p).
Proof.
  unfold JS.numberToString.
  cbn [Z.to_int NilZero.string_of_int]. unfold NilZero.string_of_uint.
  pose proof (DecimalPos.Unsigned.to_uint_nonnil p) as Hp.
  now destruct (Pos.to_uint p).
Qed.

Lemma numeral_digits (n : Z) :
  (0 <= n)%Z ->
  JS.every JS.isDigit (JS.numberToString n) = true /\ JS.numberToString n <> "".
Proof.
  intros Hn. split; [|apply numberToString_not_empty].
  destruct n as [|p|p]; [reflexivity| |lia].
  rewrite numeral_of_positive. apply uint_all_digits.
Qed.

(** Reading back a printed number. *)
Lemma parseInt_numeral (n : Z) :
  (0 <= n)%Z -> JS.parseInt (JS.numberToString n) = Some n.
Proof.
  intros Hn. rewrite parseInt_all_digits by (now apply numeral_digits).
  destruct n as [|p|p]; [reflexivity| |lia].
  rewrite numeral_of_positive.
  rewrite (digits_start _ (DecimalPos.Unsigned.to_uint_nonnil p)).
  now rewrite DecimalPos.Unsigned.of_to.
Qed.

(** * White space around and between the fields *)

Lemma append_empty (s : string) : s ++ "" = s.
Proof. induction s as [|c s IH]; simpl; [reflexivity|now rewrite IH]. Qed.

Lemma append_assoc (s t u : string) : (s ++ t) ++ u = s ++ t ++ u.
Proof. induction s as [|c s IH]; simpl; [reflexivity|now rewrite IH]. Qed.

Lemma splitWhiteSpace_never_nil (s : string) : JS.splitWhiteSpace s <> [].
Proof.
  induction s as [|c s IH]; simpl; [discriminate|].
  destruct (JS.isWhiteSpace c).
  - destruct s as [|c' s']; [discriminate|].
    destruct (JS.isWhiteSpace c'); [assumption|discriminate].
  - destruct (JS.splitWhiteSpace s); [congruence|discriminate].
Qed.

Lemma splitWhiteSpace_piece (t r : string) :
  JS.every notSpace t = true ->
  JS.splitWhiteSpace (t ++ r)
  = match JS.splitWhiteSpace r with
    | piece :: pieces => (t ++ piece) :: pieces
    | [] => [t]
    end.
Proof.
  pose proof (splitWhiteSpace_never_nil r) as Hr.
  induction t as [|c t IH]; intros H.
  - simpl. destruct (JS.splitWhiteSpace r); [congruence|reflexivity].
  - simpl in H. apply andb_true_iff in H as [Hc Ht].
    unfold notSpace in Hc. apply negb_true_iff in Hc.
    cbn [append JS.splitWhiteSpace]. rewrite Hc, (IH Ht).
    destruct (JS.splitWhiteSpace r); [congruence|reflexivity].
Qed.

Lemma splitWhiteSpace_space (c : ascii) (s : string) :
  JS.isWhiteSpace c = true ->
  JS.splitWhiteSpace (String c s)
  = match s with
    | String c' _ =>
        if JS.isWhiteSpace c' then JS.splitWhiteSpace s
        else "" :: JS.splitWhiteSpace s
    | "" => "" :: JS.splitWhiteSpace s
    end.
Proof. intros H. destruct s; cbn [JS.splitWhiteSpace]; now rewrite H. Qed.

Lemma splitWhiteSpace_run (w r : string) :
  w <> "" -> JS.every JS.isWhiteSpace w = true -> startsClean r = true ->
  JS.splitWhiteSpace (w ++ r) = "" :: JS.splitWhiteSpace r.
Proof.
  destruct r as [|d r]; [discriminate|]. intros Hne Hw Hr.
  simpl in Hr. unfold notSpace in Hr. apply negb_true_iff in Hr.
  induction w as [|c w IH]; [congruence|].
  simpl in Hw. apply andb_true_iff in Hw as [Hc Hw].
  cbn [append]. rewrite (splitWhiteSpace_space _ _ Hc).
  destruct w as [|c' w'].
  - cbn [append]. now rewrite Hr.
  - assert (Hc' : JS.isWhiteSpace c' = true)
      by (simpl in Hw; now apply andb_true_iff in Hw as [? _]).
    cbn [append]. rewrite Hc'. apply IH; [discriminate|exact Hw].
Qed.

Lemma token_starts_clean (t r : string) : Token t -> startsClean (t ++ r) = true.
Proof.
  intros [Hne H]. destruct t as [|c t]; [congruence|].
  simpl in H. now apply andb_true_iff in H as [? _].
Qed.

Lemma join_starts_clean (sep : string) (fs : list string) :
  fs <> [] -> Forall Token fs -> startsClean (JS.join sep fs) = true.
Proof.
  destruct fs as [|x [|y ys]]; [congruence|..]; intros _ H;
    inversion H; subst.
  - rewrite <- (append_empty x). now apply token_starts_clean.
  - now apply token_starts_clean.
Qed.

Lemma splitWhiteSpace_join (sep : string) (fs : list string) :
  sep <> "" -> JS.every JS.isWhiteSpace sep = true ->
  fs <> [] -> Forall Token fs ->
  JS.splitWhiteSpace (JS.join sep fs) = fs.
Proof.
  intros Hne Hsep. induction fs as [|x fs IH]; [congruence|].
  intros _ H. inversion H as [|? ? Hx Hfs]; subst.
  destruct fs as [|y ys].
  - simpl. rewrite <- (append_empty x) at 1.
    rewrite (splitWhiteSpace_piece _ _ (proj2 Hx)). simpl.
    now rewrite append_empty.
  - change (JS.join sep (x :: y :: ys)) with (x ++ sep ++ JS.join sep (y :: ys)).
    rewrite (splitWhiteSpace_piece _ _ (proj2 Hx)).
    rewrite (splitWhiteSpace_run _ _ Hne Hsep)
      by (apply join_starts_clean; [discriminate|assumption]).
    rewrite append_empty, IH; [reflexivity|discriminate|assumption].
Qed.

Lemma trimStart_run (w s : string) :
  JS.every JS.isWhiteSpace w = true -> JS.trimStart (w ++ s) = JS.trimStart s.
Proof.
  induction w as [|c w IH]; intros H; [reflexivity|].
  simpl in H. apply andb_true_iff in H as [Hc Hw].
  cbn [append JS.trimStart]. rewrite Hc. now apply IH.
Qed.

Lemma trimEnd_of_run (w : string) :
  JS.every JS.isWhiteSpace w = true -> JS.trimEnd w = "".
Proof.
  induction w as [|c w IH]; intros H; [reflexivity|].
  simpl in H. apply andb_true_iff in H as [Hc Hw].
  cbn [JS.trimEnd]. now rewrite (IH Hw), Hc.
Qed.

Lemma trimEnd_run (s w : string) :
  JS.every JS.isWhiteSpace w = true -> JS.trimEnd (s ++ w) = JS.trimEnd s.
Proof.
  intros H. induction s as [|c s IH]; [now apply trimEnd_of_run|].
  cbn [append JS.trimEnd]. now rewrite IH.
Qed.

Lemma trim_run_after (s w : string) :
  JS.every JS.isWhiteSpace w = true -> JS.trim (s ++ w) = JS.trim s.
Proof.
  intros H. unfold JS.trim. induction s as [|c s IH].
  - simpl. rewrite <- (append_empty w), (trimStart_run _ _ H). reflexivity.
  - cbn [append JS.trimStart]. destruct (JS.isWhiteSpace c); [exact IH|].
    change (String c (s ++ w)) with (String c s ++ w). now apply trimEnd_run.
Qed.

Lemma trim_runs (w1 s w2 : string) :
  JS.every JS.isWhiteSpace w1 = true -> JS.every JS.isWhiteSpace w2 = true ->
  JS.trim (w1 ++ s ++ w2) = JS.trim s.
Proof.
  intros H1 H2. rewrite <- (trim_run_after s w2 H2).
  unfold JS.trim. now rewrite trimStart_run.
Qed.

Lemma trimEnd_clean_id (s : string) : endsClean s = true -> JS.trimEnd s = s.
Proof.
  induction s as [|c s IH]; [discriminate|].
  destruct s as [|d s].
  - simpl. unfold notSpace. intros H. apply negb_true_iff in H. now rewrite H.
  - intros H. assert (H' : endsClean (String d s) = true) by exact H.
    cbn [JS.trimEnd] in *. rewrite (IH H'). reflexivity.
Qed.

Lemma trim_clean_id (s : string) :
  startsClean s = true -> endsClean s = true -> JS.trim s = s.
Proof.
  intros Hs He. unfold JS.trim.
  destruct s as [|c s]; [discriminate|].
  simpl in Hs. unfold notSpace in Hs. apply negb_true_iff in Hs.
  cbn [JS.trimStart]. rewrite Hs. now apply trimEnd_clean_id.
Qed.

Lemma endsClean_app (t r : string) :
  r <> "" -> endsClean (t ++ r) = endsClean r.
Proof.
  intros Hr. induction t as [|c t IH]; [reflexivity|].
  cbn [append]. destruct (t ++ r) eqn:E.
  - destruct t; [simpl in E; congruence|discriminate].
  - exact IH.
Qed.

Lemma token_ends_clean (t : string) : Token t -> endsClean t = true.
Proof.
  intros [Hne H]. induction t as [|c t IH]; [congruence|].
  simpl in H. apply andb_true_iff in H as [Hc Ht].
  destruct t as [|d t]; [exact Hc|]. apply IH; [discriminate|exact Ht].
Qed.

Lemma join_not_empty (sep : string) (fs : list string) :
  fs <> [] -> Forall Token fs -> JS.join sep fs <> "".
Proof.
  intros Hne H. pose proof (join_starts_clean sep fs Hne H) as Hs.
  destruct (JS.join sep fs); [discriminate|discriminate].
Qed.

Lemma join_ends_clean (sep : string) (fs : list string) :
  fs <> [] -> Forall Token fs -> endsClean (JS.join sep fs) = true.
Proof.
  induction fs as [|x fs IH]; [congruence|].
  intros _ H. inversion H as [|? ? Hx Hfs]; subst.
  destruct fs as [|y ys]; [now apply token_ends_clean|].
  change (JS.join sep (x :: y :: ys)) with (x ++ sep ++ JS.join sep (y :: ys)).
  assert (Hj : JS.join sep (y :: ys) <> "")
    by (apply join_not_empty; [discriminate|assumption]).
  rewrite endsClean_app, endsClean_app; auto.
  - apply IH; [discriminate|assumption].
  - destruct sep; [exact Hj|discriminate].
Qed.

(** Fields written with any run of white space between them and any
    white space around them are read back as they are. *)
Lemma fieldsOf_join (w1 sep w2 : string) (fs : list string) :
  JS.every JS.isWhiteSpace w1 = true ->
  JS.every JS.isWhiteSpace w2 = true ->
  sep <> "" -> JS.every JS.isWhiteSpace sep = true ->
  fs <> [] -> Forall Token fs ->
  fieldsOf (w1 ++ JS.join sep fs ++ w2) = fs.
Proof.
  intros H1 H2 Hne Hsep Hfs Ht. unfold fieldsOf.
  rewrite (trim_runs _ _ _ H1 H2).
  rewrite trim_clean_id
    by (apply join_starts_clean || apply join_ends_clean; assumption).
  now apply splitWhiteSpace_join.
Qed.

(** * The validator on numbers, ranges, lists and steps *)

Lemma numChar_facts (c : ascii) :
  numChar c = true ->
  JS.isLetter c = false /\ Ascii.eqb c "L" = false /\ Ascii.eqb c "W" = false /\
  Ascii.eqb c "#" = false /\ notSpace c = true.
Proof. each_ascii c; vm_compute; intros H; try discriminate H; tauto. Qed.

Lemma digit_is_numChar (c : ascii) : JS.isDigit c = true -> numChar c = true.
Proof. unfold numChar. now intros ->. Qed.

Lemma numeric_not_named (names : list string) (s : string) :
  Forall upperName names ->
  JS.every numChar s = true -> matchesNamed names s = false.
Proof.
  intros Hup H. destruct (matchesNamed names s) eqn:E; [|reflexivity].
  destruct (named_starts_with_letter _ _ Hup E) as (a & r & -> & Ha).
  simpl in H. apply andb_true_iff in H as [Hc _].
  destruct (numChar_facts _ Hc) as (Hl & _). congruence.
Qed.

Lemma every_excludes_numChar (c : ascii) (s : string) :
  numChar c = false -> JS.every numChar s = true -> JS.includes c s = false.
Proof. apply every_excludes. Qed.

(** An expression made of digits and the four signs goes through the
    numeric rules only, in every field. *)
Lemma valid_numeric (s : string) (min max : Z) (fieldType : FieldType) :
  JS.every numChar s = true -> s <> "*" ->
  isValidCronField s min max fieldType = numericRule s min max.
Proof.
  intros H Hs. unfold isValidCronField, numericRule.
  destruct (String.eqb_spec s "*") as [|_]; [contradiction|].
  rewrite (every_excludes_numChar "W" s eq_refl H),
          (every_excludes_numChar "#" s eq_refl H),
          (every_excludes_numChar "L" s eq_refl H),
          (numeric_not_named _ _ (proj1 names_upper) H),
          (numeric_not_named _ _ (proj2 names_upper) H).
  rewrite !andb_false_r.
  destruct (String.eqb_spec s "L") as [->|_]; [discriminate H|].
  now rewrite andb_false_r.
Qed.

Lemma numeral_numChar (n : Z) :
  (0 <= n)%Z -> JS.every numChar (JS.numberToString n) = true.
Proof.
  intros Hn. apply (every_weaken JS.isDigit); [exact digit_is_numChar|].
  now apply numeral_digits.
Qed.

Lemma numeral_excludes (c : ascii) (n : Z) :
  JS.isDigit c = false -> (0 <= n)%Z ->
  JS.includes c (JS.numberToString n) = false.
Proof.
  intros Hc Hn. apply (every_excludes JS.isDigit); [exact Hc|].
  now apply numeral_digits.
Qed.

Lemma numeral_not_star (n : Z) : (0 <= n)%Z -> JS.numberToString n <> "*".
Proof.
  intros Hn E. pose proof (proj1 (numeral_digits n Hn)) as H.
  rewrite E in H. discriminate H.
Qed.

Lemma numeral_token (n : Z) : (0 <= n)%Z -> Token (JS.numberToString n).
Proof.
  intros Hn. split; [apply numberToString_not_empty|].
  apply (every_weaken numChar); [|now apply numeral_numChar].
  intros c Hc. now destruct (numChar_facts _ Hc) as (_ & _ & _ & _ & ?).
Qed.

Lemma includes_app (c : ascii) (s t : string) :
  JS.includes c (s ++ t) = JS.includes c s || JS.includes c t.
Proof.
  induction s as [|d s IH]; [reflexivity|].
  simpl. now rewrite IH, orb_assoc.
Qed.

Lemma numericRule_number (n min max : Z) :
  (0 <= n)%Z ->
  numericRule (JS.numberToString n) min max = ((min <=? n) && (n <=? max))%Z.
Proof.
  intros Hn. unfold numericRule.
  rewrite !numeral_excludes by (reflexivity || assumption).
  now rewrite parseInt_numeral.
Qed.

Lemma validRange_numbers (a b min max : Z) :
  (0 <= a)%Z -> (0 <= b)%Z ->
  validRange (JS.numberToString a ++ "-" ++ JS.numberToString b) min max
  = ((min <=? a) && (b <=? max) && (a <=? b))%Z.
Proof.
  intros Ha Hb. unfold validRange.
  change (JS.numberToString a ++ "-" ++ JS.numberToString b)
    with (JS.numberToString a ++ String "-" (JS.numberToString b)).
  rewrite split_piece_then by (now apply numeral_excludes).
  rewrite split_single by (now apply numeral_excludes).
  unfold JS.item. cbn [nth]. now rewrite !parseInt_numeral.
Qed.

Lemma valid_number (n min max : Z) (fieldType : FieldType) :
  (0 <= n)%Z ->
  isValidCronField (JS.numberToString n) min max fieldType
  = ((min <=? n) && (n <=? max))%Z.
Proof.
  intros Hn.
  rewrite valid_numeric
    by (now apply numeral_numChar || now apply numeral_not_star).
  now apply numericRule_number.
Qed.

(** X1: with bounds below 2^53 in absolute value, a field that is a
    plain number is accepted exactly when the number lies within the
    bounds passed for the field, whatever the field type. *)
Theorem number_field_valid_iff_in_bounds
    (n min max : Z) (fieldType : FieldType) :
  safeBound min -> safeBound max ->
  (0 <= n)%Z ->
  isValidCronField (JS.numberToString n) min max fieldType
  = ((min <=? n) && (n <=? max))%Z.
Proof.
  intros _ _ Hn. pose proof (numeral_numChar n Hn) as Hc.
  rewrite (valid_numeric _ min max fieldType Hc (numeral_not_star n Hn)).
  unfold numericRule.
  rewrite !numeral_excludes by (reflexivity || assumption).
  now rewrite parseInt_numeral.
Qed.

Lemma number_field_valid_iff_in_bounds_witness :
  isValidCronField (JS.numberToString 59) 0 59 minute
  = ((0 <=? 59) && (59 <=? 59))%Z.
Proof.
  apply (number_field_valid_iff_in_bounds 59 0 59 minute);
    [exact eq_refl|exact eq_refl|lia].
Defined.

Lemma range_numChar (a b : Z) :
  (0 <= a)%Z -> (0 <= b)%Z ->
  JS.every numChar (JS.numberToString a ++ "-" ++ JS.numberToString b) = true.
Proof.
  intros Ha Hb. rewrite every_app, numeral_numChar by assumption.
  simpl. now apply numeral_numChar.
Qed.

Lemma starts_with_numeral_not_star (n : Z) (rest : string) :
  (0 <= n)%Z -> JS.numberToString n ++ rest <> "*".
Proof.
  intros Hn E. pose proof (numeral_digits n Hn) as [Hd Hne].
  destruct (JS.numberToString n) as [|c s]; [congruence|].
  simpl in E. injection E as -> _. discriminate Hd.
Qed.

(** X2: with bounds below 2^53 in absolute value, a range [a-b] of
    two numbers is accepted exactly when [min <= a], [b <= max] and
    [a <= b]. *)
Theorem range_field_valid_iff_ordered_in_bounds
    (a b min max : Z) (fieldType : FieldType) :
  safeBound min -> safeBound max ->
  (0 <= a)%Z -> (0 <= b)%Z ->
  isValidCronField (JS.numberToString a ++ "-" ++ JS.numberToString b)
    min max fieldType
  = ((min <=? a) && (b <=? max) && (a <=? b))%Z.
Proof.
  intros _ _ Ha Hb.
  rewrite valid_numeric
    by (now apply range_numChar || now apply starts_with_numeral_not_star).
  unfold numericRule.
  rewrite !includes_app, !numeral_excludes by (reflexivity || assumption).
  cbn [JS.includes Ascii.eqb Bool.eqb orb andb].
  now apply validRange_numbers.
Qed.

Lemma range_field_valid_iff_ordered_in_bounds_witness :
  isValidCronField (JS.numberToString 20 ++ "-" ++ JS.numberToString 2)
    0 23 hour
  = ((0 <=? 20) && (2 <=? 23) && (20 <=? 2))%Z.
Proof.
  apply (range_field_valid_iff_ordered_in_bounds 20 2 0 23 hour);
    first [exact eq_refl|lia].
Defined.

Lemma numerals_plain (ns : list Z) :
  Forall (fun n => (0 <= n)%Z) ns -> JS.every plainChar (dayList ns) = true.
Proof.
  assert (Hd : forall n, (0 <= n)%Z ->
                 JS.every plainChar (JS.numberToString n) = true).
  { intros n Hn. apply (every_weaken JS.isDigit); [|now apply numeral_digits].
    intros c Hc. unfold plainChar. now rewrite Hc. }
  induction ns as [|n ns IH]; intros H; [reflexivity|].
  inversion H as [|? ? Hn Hns]; subst.
  destruct ns as [|m ns]; [now apply Hd|].
  rewrite dayList_cons, every_app, (Hd n Hn). simpl. now apply IH.
Qed.

Lemma plain_is_numChar (c : ascii) : plainChar c = true -> numChar c = true.
Proof. each_ascii c; vm_compute; congruence. Qed.

Lemma trim_token (t : string) : Token t -> JS.trim t = t.
Proof.
  intros Ht. apply trim_clean_id; [|now apply token_ends_clean].
  rewrite <- (append_empty t). now apply token_starts_clean.
Qed.

Lemma forallb_numerals (ns : list Z) (min max : Z) :
  Forall (fun n => (0 <= n)%Z) ns ->
  forallb (fun val => within (JS.parseInt val) min max)
          (List.map JS.trim (List.map JS.numberToString ns))
  = forallb (fun n => ((min <=? n) && (n <=? max))%Z) ns.
Proof.
  induction 1 as [|n ns Hn Hns IH]; [reflexivity|].
  cbn [List.map forallb].
  now rewrite IH, (trim_token _ (numeral_token _ Hn)), parseInt_numeral.
Qed.

(** X3: with bounds below 2^53 in absolute value, a comma list of
    numbers is accepted exactly when every number lies within the
    bounds. *)
Theorem list_field_valid_iff_all_in_bounds
    (ns : list Z) (min max : Z) (fieldType : FieldType) :
  safeBound min -> safeBound max ->
  ns <> [] ->
  Forall (fun n => (0 <= n)%Z) ns ->
  isValidCronField (dayList ns) min max fieldType
  = forallb (fun n => ((min <=? n) && (n <=? max))%Z) ns.
Proof.
  intros _ _ Hne H. pose proof (numerals_plain _ H) as Hp.
  rewrite valid_numeric.
  2:{ apply (every_weaken plainChar); [exact plain_is_numChar|exact Hp]. }
  2:{ intros E. rewrite E in Hp. discriminate Hp. }
  unfold numericRule.
  rewrite (every_excludes plainChar "/" _ eq_refl Hp),
          (every_excludes plainChar "-" _ eq_refl Hp).
  destruct ns as [|n [|m ns]]; [congruence|..].
  - inversion H; subst. unfold dayList. cbn [List.map JS.join forallb].
    rewrite numeral_excludes, parseInt_numeral by (reflexivity || assumption).
    now rewrite andb_true_r.
  - assert (Hc : JS.includes "," (dayList (n :: m :: ns)) = true).
    { rewrite dayList_cons, includes_app. simpl. apply orb_true_r. }
    rewrite Hc. unfold dayList.
    rewrite (split_join "," (List.map JS.numberToString (n :: m :: ns)));
      [now apply forallb_numerals|discriminate|].
    clear - H. induction H; constructor; auto.
    now apply numeral_excludes.
Qed.

Lemma list_field_valid_iff_all_in_bounds_witness :
  isValidCronField (dayList [1; 15; 32]%Z) 1 31 dayOfMonth
  = forallb (fun n => ((1 <=? n) && (n <=? 31))%Z) [1; 15; 32]%Z.
Proof.
  apply (list_field_valid_iff_all_in_bounds [1; 15; 32]%Z 1 31 dayOfMonth).
  - exact eq_refl.
  - exact eq_refl.
  - discriminate.
  - repeat constructor; lia.
Defined.

Lemma step_pieces (x : string) (k : Z) :
  JS.includes "/" x = false -> (0 <= k)%Z ->
  JS.includes "/" (x ++ "/" ++ JS.numberToString k) = true /\
  JS.split "/" (x ++ "/" ++ JS.numberToString k) = [x; JS.numberToString k].
Proof.
  intros Hx Hk. split.
  - rewrite includes_app. simpl. apply orb_true_r.
  - change (x ++ "/" ++ JS.numberToString k)
      with (x ++ String "/" (JS.numberToString k)).
    rewrite (split_piece_then _ _ _ Hx), split_single;
      [reflexivity|now apply numeral_excludes].
Qed.

Lemma numericRule_step (x : string) (k min max : Z) :
  JS.includes "/" x = false -> (0 <= k)%Z ->
  numericRule (x ++ "/" ++ JS.numberToString k) min max
  = (0 <? k)%Z
    && (String.eqb x "*"
        || (if JS.includes "-" x then validRange x min max
            else within (JS.parseInt x) min max)).
Proof.
  intros Hx Hk. unfold numericRule.
  destruct (step_pieces x k Hx Hk) as [-> ->].
  unfold JS.item. cbn [nth]. rewrite (parseInt_numeral _ Hk).
  destruct (Z.leb_spec k 0), (Z.ltb_spec 0 k); try lia; reflexivity.
Qed.

(** X4: three shapes of step field, with a plain number [k] as the
    step and bounds below 2^53 in absolute value: [*/k] is accepted
    exactly when [k] is above zero; [n/k], for a plain number [n],
    exactly when [k] is above zero and [n] lies within the bounds;
    [a-b/k], for plain numbers [a] and [b], exactly when [k] is above
    zero and [min <= a <= b <= max]. *)
Theorem step_field_valid_iff
    (a b n k min max : Z) (fieldType : FieldType) :
  safeBound min -> safeBound max ->
  (0 <= a)%Z -> (0 <= b)%Z -> (0 <= n)%Z -> (0 <= k)%Z ->
  isValidCronField ("*" ++ "/" ++ JS.numberToString k) min max fieldType
  = (0 <? k)%Z /\
  isValidCronField (JS.numberToString n ++ "/" ++ JS.numberToString k)
    min max fieldType
  = ((0 <? k) && ((min <=? n) && (n <=? max)))%Z /\
  isValidCronField
    ((JS.numberToString a ++ "-" ++ JS.numberToString b)
       ++ "/" ++ JS.numberToString k) min max fieldType
  = ((0 <? k) && ((min <=? a) && (b <=? max) && (a <=? b)))%Z.
Proof.
  intros _ _ Ha Hb Hn Hk.
  pose proof (numeral_numChar k Hk) as Hkc.
  repeat apply conj.
  - rewrite valid_numeric; [|simpl; exact Hkc|discriminate].
    rewrite numericRule_step by (reflexivity || assumption).
    apply andb_true_r.
  - rewrite valid_numeric.
    + rewrite numericRule_step by (now apply numeral_excludes || assumption).
      rewrite numeral_excludes, parseInt_numeral by (reflexivity || assumption).
      destruct (String.eqb_spec (JS.numberToString n) "*") as [E|_];
        [now apply numeral_not_star in E|reflexivity].
    + rewrite every_app, numeral_numChar by assumption. exact Hkc.
    + now apply starts_with_numeral_not_star.
  - rewrite valid_numeric.
    + rewrite numericRule_step; [|idtac|assumption].
      * rewrite includes_app, numeral_excludes by (reflexivity || assumption).
        cbn [JS.includes Ascii.eqb Bool.eqb orb].
        rewrite validRange_numbers by assumption.
        destruct (String.eqb_spec
                    (JS.numberToString a ++ "-" ++ JS.numberToString b) "*")
          as [E|_]; [now apply starts_with_numeral_not_star in E|reflexivity].
      * rewrite !includes_app, !numeral_excludes by (reflexivity || assumption).
        reflexivity.
    + rewrite every_app, range_numChar by assumption. exact Hkc.
    + rewrite append_assoc. now apply starts_with_numeral_not_star.
Qed.

Lemma step_field_valid_iff_witness :
  isValidCronField ("*" ++ "/" ++ JS.numberToString 15) 0 59 minute
  = (0 <? 15)%Z /\
  isValidCronField (JS.numberToString 0 ++ "/" ++ JS.numberToString 15)
    0 59 minute
  = ((0 <? 15) && ((0 <=? 0) && (0 <=? 59)))%Z /\
  isValidCronField
    ((JS.numberToString 8 ++ "-" ++ JS.numberToString 17)
       ++ "/" ++ JS.numberToString 15) 0 59 minute
  = ((0 <? 15) && ((0 <=? 8) && (17 <=? 59) && (8 <=? 17)))%Z.
Proof. apply (step_field_valid_iff 8 17 0 15); first [exact eq_refl|lia]. Defined.

Lemma fieldsOf_blank_join (fs : list string) :
  fs <> [] -> Forall Token fs -> fieldsOf (JS.join " " fs) = fs.
Proof.
  intros Hne H.
  pose proof (fieldsOf_join "" " " "" fs eq_refl eq_refl) as Hj.
  cbn [append] in Hj. rewrite append_empty in Hj.
  apply Hj; [discriminate|reflexivity|exact Hne|exact H].
Qed.

(** X5: five plain numbers separated by blanks are accepted exactly
    when minute is 0..59, hour 0..23, day-of-month 1..31, month 1..12
    and day-of-week 0..7. *)
Theorem five_numbers_valid_iff_in_range (mi h d mo w : Z) :
  Forall (fun n => (0 <= n)%Z) [mi; h; d; mo; w] ->
  validateCronExpression
    (JS.join " " (List.map JS.numberToString [mi; h; d; mo; w]))
  = ((mi <=? 59) && (h <=? 23) && ((1 <=? d) && (d <=? 31))
     && ((1 <=? mo) && (mo <=? 12)) && (w <=? 7))%Z.
Proof.
  intros H.
  assert (Ht : Forall Token (List.map JS.numberToString [mi; h; d; mo; w])).
  { clear - H. induction H; constructor; auto using numeral_token. }
  assert (Hf : fieldsOf (JS.join " " (List.map JS.numberToString [mi; h; d; mo; w]))
               = List.map JS.numberToString [mi; h; d; mo; w])
    by (apply fieldsOf_blank_join; [discriminate|exact Ht]).
  rewrite (validate_fields _ _ _ _ _ _ Hf).
  inversion H as [|? ? H1 H']; subst. inversion H' as [|? ? H2 H'']; subst.
  inversion H'' as [|? ? H3 H4']; subst. inversion H4' as [|? ? H4 H5']; subst.
  inversion H5' as [|? ? H5 _]; subst.
  rewrite !valid_number by assumption.
  destruct (Z.leb_spec 0 mi), (Z.leb_spec 0 h), (Z.leb_spec 0 w); try lia;
    reflexivity.
Qed.

Lemma five_numbers_valid_iff_in_range_witness :
  validateCronExpression
    (JS.join " " (List.map JS.numberToString [60; 9; 1; 1; 1]%Z))
  = ((60 <=? 59) && (9 <=? 23) && ((1 <=? 1) && (1 <=? 31))
     && ((1 <=? 1) && (1 <=? 12)) && (1 <=? 7))%Z.
Proof.
  apply (five_numbers_valid_iff_in_range 60 9 1 1 1).
  repeat constructor; lia.
Defined.

(** * Spacing, and feeding a result back *)

Lemma spaced_starts_clean (first : string) (rest : list (string * string)) :
  Token first -> startsClean (spaced first rest) = true.
Proof.
  intros H. destruct rest as [|[gap field] rest]; cbn [spaced].
  - rewrite <- (append_empty first). now apply token_starts_clean.
  - now apply token_starts_clean.
Qed.

Lemma spaced_not_empty (first : string) (rest : list (string * string)) :
  Token first -> spaced first rest <> "".
Proof.
  intros H. pose proof (spaced_starts_clean first rest H) as Hs.
  destruct (spaced first rest); discriminate.
Qed.

Lemma spaced_ends_clean (first : string) (rest : list (string * string)) :
  Token first -> Forall gapBefore rest -> endsClean (spaced first rest) = true.
Proof.
  intros Hf H. revert first Hf.
  induction H as [|[gap field] rest (_ & _ & Ht) _ IH]; intros first Hf;
    cbn [spaced]; [now apply token_ends_clean|].
  simpl in Ht. pose proof (spaced_not_empty field rest Ht) as Hne.
  rewrite endsClean_app, endsClean_app; auto.
  destruct gap; [exact Hne|discriminate].
Qed.

Lemma splitWhiteSpace_spaced (first : string) (rest : list (string * string)) :
  Token first -> Forall gapBefore rest ->
  JS.splitWhiteSpace (spaced first rest) = first :: List.map snd rest.
Proof.
  intros Hf H. revert first Hf.
  induction H as [|[gap field] rest (Hne & Hw & Ht) _ IH]; intros first Hf;
    cbn [spaced List.map snd].
  - rewrite <- (append_empty first) at 1.
    rewrite (splitWhiteSpace_piece _ _ (proj2 Hf)). simpl.
    now rewrite append_empty.
  - simpl in Hne, Hw, Ht.
    rewrite (splitWhiteSpace_piece _ _ (proj2 Hf)).
    rewrite (splitWhiteSpace_run _ _ Hne Hw (spaced_starts_clean _ _ Ht)).
    now rewrite append_empty, (IH _ Ht).
Qed.

(** Fields written with a run of white space of its own in every gap
    and any white space around them are read back as they are. *)
Lemma fieldsOf_spaced (w1 w2 first : string) (rest : list (string * string)) :
  JS.every JS.isWhiteSpace w1 = true ->
  JS.every JS.isWhiteSpace w2 = true ->
  Token first -> Forall gapBefore rest ->
  fieldsOf (w1 ++ spaced first rest ++ w2) = first :: List.map snd rest.
Proof.
  intros H1 H2 Hf H. unfold fieldsOf.
  rewrite (trim_runs _ _ _ H1 H2).
  rewrite trim_clean_id
    by (now apply spaced_starts_clean || now apply spaced_ends_clean).
  now apply splitWhiteSpace_spaced.
Qed.

(** X6: only the five fields count: with a run of white space of its
    own in each of the four gaps between the fields, and any white
    space before the first and after the last, the conversion and the
    verdict are those of the fields joined by single blanks. *)
Theorem spacing_is_ignored (w1 g1 g2 g3 g4 w2 m h dom mo dow : string) :
  JS.every JS.isWhiteSpace w1 = true ->
  JS.every JS.isWhiteSpace w2 = true ->
  Forall (fun g => g <> "" /\ JS.every JS.isWhiteSpace g = true)
         [g1; g2; g3; g4] ->
  Forall Token [m; h; dom; mo; dow] ->
  convertCronToEventBridge
    (w1 ++ spaced m [(g1, h); (g2, dom); (g3, mo); (g4, dow)] ++ w2)
  = Returned (JS.join " " (convertFields m h dom mo dow)) /\
  convertCronToEventBridge
    (w1 ++ spaced m [(g1, h); (g2, dom); (g3, mo); (g4, dow)] ++ w2)
  = convertCronToEventBridge (JS.join " " [m; h; dom; mo; dow]) /\
  validateCronExpression
    (w1 ++ spaced m [(g1, h); (g2, dom); (g3, mo); (g4, dow)] ++ w2)
  = validateCronExpression (JS.join " " [m; h; dom; mo; dow]).
Proof.
  intros H1 H2 Hg Ht.
  inversion Hg as [|? ? [N1 W1] Hg1]; subst.
  inversion Hg1 as [|? ? [N2 W2] Hg2]; subst.
  inversion Hg2 as [|? ? [N3 W3] Hg3]; subst.
  inversion Hg3 as [|? ? [N4 W4] _]; subst.
  inversion Ht as [|? ? Tm Ht1]; subst.
  inversion Ht1 as [|? ? Th Ht2]; subst.
  inversion Ht2 as [|? ? Tdom Ht3]; subst.
  inversion Ht3 as [|? ? Tmo Ht4]; subst.
  inversion Ht4 as [|? ? Tdow _]; subst.
  assert (Hf : fieldsOf (w1 ++ spaced m [(g1, h); (g2, dom); (g3, mo); (g4, dow)]
                            ++ w2)
               = [m; h; dom; mo; dow]).
  { apply (fieldsOf_spaced w1 w2 m [(g1, h); (g2, dom); (g3, mo); (g4, dow)]);
      try assumption.
    repeat (apply Forall_cons; [unfold gapBefore; simpl; auto|]).
    apply Forall_nil. }
  assert (Hb : fieldsOf (JS.join " " [m; h; dom; mo; dow]) = [m; h; dom; mo; dow])
    by (apply fieldsOf_blank_join; [discriminate|assumption]).
  repeat apply conj.
  - now apply convert_five.
  - now rewrite (convert_five _ _ _ _ _ _ Hf), (convert_five _ _ _ _ _ _ Hb).
  - now rewrite (validate_fields _ _ _ _ _ _ Hf), (validate_fields _ _ _ _ _ _ Hb).
Qed.

Lemma spacing_is_ignored_witness :
  convertCronToEventBridge
    ("  " ++ spaced "0" [("  ", "9"); (" ", "*"); ("   ", "*"); (" ", "1")]
          ++ " ")
  = Returned (JS.join " " (convertFields "0" "9" "*" "*" "1")) /\
  convertCronToEventBridge
    ("  " ++ spaced "0" [("  ", "9"); (" ", "*"); ("   ", "*"); (" ", "1")]
          ++ " ")
  = convertCronToEventBridge (JS.join " " ["0"; "9"; "*"; "*"; "1"]) /\
  validateCronExpression
    ("  " ++ spaced "0" [("  ", "9"); (" ", "*"); ("   ", "*"); (" ", "1")]
          ++ " ")
  = validateCronExpression (JS.join " " ["0"; "9"; "*"; "*"; "1"]).
Proof.
  apply (spacing_is_ignored "  " "  " " " "   " " " " " "0" "9" "*" "*" "1");
    try reflexivity.
  - repeat constructor; discriminate.
  - repeat constructor; discriminate.
Defined.

Lemma result_fields (input out : string) :
  convertCronToEventBridge input = Returned out ->
  exists fields,
    List.length fields = 6%nat /\ Forall Token fields /\
    out = JS.join " " fields /\ fieldsOf out = fields.
Proof.
  intros Hout.
  destruct (Nat.eq_dec (List.length (fieldsOf input)) 5) as [Hlen|Hlen].
  2:{ rewrite (convert_throws _ Hlen) in Hout. discriminate. }
  destruct (five_fields _ Hlen) as (m & h & dom & mo & dow & Hf).
  destruct (convert_shape _ _ _ _ _ _ Hf) as (dom' & dow' & _ & Hc & _ & Ht).
  rewrite Hc in Hout. injection Hout as <-.
  exists [m; h; dom'; mo; dow'; "*"].
  split; [reflexivity|]. split; [exact Ht|]. split; [reflexivity|].
  apply (fieldsOf_blank_join [m; h; dom'; mo; dow'; "*"]);
    [discriminate|exact Ht].
Qed.

(** X7: a result of the converter has six fields, so it is never
    itself an input: the validator refuses it and converting it again
    throws the field-count error. *)
Theorem result_is_not_an_input (input out : string) :
  convertCronToEventBridge input = Returned out ->
  List.length (fieldsOf out) = 6%nat /\
  validateCronExpression out = false /\
  convertCronToEventBridge out = Thrown fieldCountMessage.
Proof.
  intros Hout.
  destruct (result_fields _ _ Hout) as (fields & Hlen & _ & _ & Hf).
  assert (H6 : List.length (fieldsOf out) = 6%nat) by now rewrite Hf.
  repeat apply conj.
  - exact H6.
  - destruct (validateCronExpression out) eqn:Hv; [|reflexivity].
    destruct (validate_five _ Hv) as (m & h & dom & mo & dow & Hf' & _).
    rewrite Hf' in H6. discriminate H6.
  - apply convert_throws. rewrite H6. discriminate.
Qed.

Lemma result_is_not_an_input_witness :
  List.length (fieldsOf "0 9 ? * 2 *") = 6%nat /\
  validateCronExpression "0 9 ? * 2 *" = false /\
  convertCronToEventBridge "0 9 ? * 2 *" = Thrown fieldCountMessage.
Proof.
  apply (result_is_not_an_input "0 9 * * 1" "0 9 ? * 2 *"). reflexivity.
Defined.

Lemma result_not_empty (input out : string) :
  convertCronToEventBridge input = Returned out -> out <> "".
Proof.
  intros Hout.
  destruct (result_fields _ _ Hout) as (fields & Hlen & Ht & -> & _).
  apply join_not_empty; [|exact Ht]. destruct fields; [discriminate|discriminate].
Qed.

Lemma valid_converts (input : string) :
  validateCronExpression input = true ->
  exists out, convertCronToEventBridge input = Returned out.
Proof.
  intros Hv. destruct (validate_five _ Hv) as (m & h & dom & mo & dow & Hf & _).
  eexists. exact (convert_five _ _ _ _ _ _ Hf).
Qed.

Lemma valid_not_blank (input : string) :
  validateCronExpression input = true -> JS.trim input <> "".
Proof.
  intros Hv E. unfold validateCronExpression in Hv. rewrite E in Hv.
  discriminate Hv.
Qed.

(** X8: the page's update ends in one of three states: cleared (blank
    input), a result with no error (the validator accepts, and the
    result is the converter's), or the validator's message with no
    result.  The converter's own field-count message is never shown. *)
Theorem update_states (input : string) :
  (JS.trim input = "" ->
   update input = {| eventBridgeCron := ""; isValid := true; error := "" |}) /\
  (JS.trim input <> "" -> validateCronExpression input = false ->
   update input
   = {| eventBridgeCron := ""; isValid := false; error := invalidMessage |}) /\
  (validateCronExpression input = true ->
   exists out,
     out <> "" /\ convertCronToEventBridge input = Returned out /\
     update input = {| eventBridgeCron := out; isValid := true; error := "" |}) /\
  error (update input) <> fieldCountMessage.
Proof.
  assert (Hok : validateCronExpression input = true ->
    exists out,
      out <> "" /\ convertCronToEventBridge input = Returned out /\
      update input = {| eventBridgeCron := out; isValid := true; error := "" |}).
  { intros Hv. destruct (valid_converts _ Hv) as [out Hc].
    exists out. split; [exact (result_not_empty _ _ Hc)|]. split; [exact Hc|].
    unfold update. rewrite Hv, Hc.
    destruct (String.eqb_spec (JS.trim input) "") as [E|_]; [|reflexivity].
    now apply valid_not_blank in E. }
  repeat apply conj.
  - intros E. unfold update. now rewrite E.
  - intros Hne Hv. unfold update. rewrite Hv.
    destruct (String.eqb_spec (JS.trim input) "") as [E|_]; [contradiction|].
    reflexivity.
  - exact Hok.
  - destruct (String.eqb_spec (JS.trim input) "") as [E|Hne].
    + unfold update. rewrite E. discriminate.
    + destruct (validateCronExpression input) eqn:Hv.
      * destruct (Hok eq_refl) as (out & _ & _ & ->). discriminate.
      * unfold update. rewrite Hv.
        destruct (String.eqb_spec (JS.trim input) "") as [E|_]; [contradiction|].
        discriminate.
Qed.

Lemma update_states_witness :
  exists out,
    out <> "" /\ convertCronToEventBridge "0 9 * * 1" = Returned out /\
    update "0 9 * * 1" = {| eventBridgeCron := out; isValid := true; error := "" |}.
Proof.
  apply (proj1 (proj2 (proj2 (update_states "0 9 * * 1")))). reflexivity.
Defined.

(** * A day name in the day-of-week field *)

Lemma case_variants (x a : ascii) :
  JS.isUpper x = true -> JS.toUpper a = x -> a = x \/ a = JS.toLower x.
Proof.
  intros Hx <-. revert Hx. each_ascii a; vm_compute; intros H;
    try discriminate H; tauto.
Qed.

Ltac each_case H :=
  apply case_variants in H; [destruct H as [->| ->]|reflexivity].

Lemma one_day_name (field : string) :
  (JS.toUpperCase field = "SUN" -> convertDayOfWeek field = "2") /\
  (JS.toUpperCase field = "MON" -> convertDayOfWeek field = "3") /\
  (JS.toUpperCase field = "TUE" -> convertDayOfWeek field = "4") /\
  (JS.toUpperCase field = "WED" -> convertDayOfWeek field = "5") /\
  (JS.toUpperCase field = "THU" -> convertDayOfWeek field = "6") /\
  (JS.toUpperCase field = "FRI" -> convertDayOfWeek field = "7") /\
  (JS.toUpperCase field = "SAT" -> convertDayOfWeek field = "7").
Proof.
  unfold JS.toUpperCase.
  repeat apply conj; intros H;
    destruct field as [|a [|b [|c [|d r]]]]; try discriminate H;
    cbn [JS.map] in H; injection H as Ha Hb Hc;
    each_case Ha; each_case Hb; each_case Hc; reflexivity.
Qed.

Lemma day_name_table (field : string) :
  In (JS.toUpperCase field) dayNames ->
  In (JS.toUpperCase field, convertDayOfWeek field)
     [("SUN", "2"); ("MON", "3"); ("TUE", "4"); ("WED", "5");
      ("THU", "6"); ("FRI", "7"); ("SAT", "7")].
Proof.
  intros Hup.
  destruct (one_day_name field) as (H1 & H2 & H3 & H4 & H5 & H6 & H7).
  simpl in Hup. simpl.
  destruct Hup as [E|[E|[E|[E|[E|[E|[E|[]]]]]]]]; symmetry in E.
  - rewrite (H1 E), E. tauto.
  - rewrite (H2 E), E. tauto.
  - rewrite (H3 E), E. tauto.
  - rewrite (H4 E), E. tauto.
  - rewrite (H5 E), E. tauto.
  - rewrite (H6 E), E. tauto.
  - rewrite (H7 E), E. tauto.
Qed.

Lemma day_name_valid (field : string) (min max : Z) :
  In (JS.toUpperCase field) dayNames ->
  isValidCronField field min max dayOfWeek = true.
Proof.
  intros Hup.
  assert (Hm : matchesNamed dayNames (JS.toUpperCase field) = true).
  { simpl in Hup.
    repeat (destruct Hup as [<-|Hup]; [reflexivity|]). contradiction. }
  unfold JS.toUpperCase in Hm.
  rewrite (matchesNamed_map _ toUpper_keepsCase) in Hm.
  rewrite (valid_named_day _ _ _ Hm).
  assert (Hh : JS.includes "#" field = false).
  { rewrite <- (includes_hash_map _ toUpper_keepsCase).
    simpl in Hup. fold JS.toUpperCase.
    repeat (destruct Hup as [<-|Hup]; [reflexivity|]). contradiction. }
  rewrite Hh. cbn [negb andb].
  assert (HL : JS.includes "L" field = false).
  { clear - Hup. unfold JS.toUpperCase in Hup. simpl in Hup.
    repeat (destruct Hup as [Hup|Hup];
      [destruct field as [|a [|b [|c [|d r]]]]; try discriminate Hup;
       cbn [JS.map] in Hup; injection Hup as Ha Hb Hc;
       symmetry in Ha, Hb, Hc;
       each_case Ha; each_case Hb; each_case Hc; reflexivity|]).
    contradiction. }
  now rewrite HL.
Qed.

(** X9: a day-of-week field that is one day name, in any case of its
    letters, is accepted by the validator and converted to a digit:
    the name is replaced by its number counted from SUN = 1 and the
    single-digit pass that follows adds one to 1..6, so SUN gives 2,
    MON 3, TUE 4, WED 5, THU 6, and FRI and SAT both give 7. *)
Theorem day_name_becomes_digit (input m h mo field : string) :
  fieldsOf input = [m; h; "*"; mo; field] ->
  In (JS.toUpperCase field) dayNames ->
  isValidCronField field 0 7 dayOfWeek = true /\
  In (JS.toUpperCase field, convertDayOfWeek field)
     [("SUN", "2"); ("MON", "3"); ("TUE", "4"); ("WED", "5");
      ("THU", "6"); ("FRI", "7"); ("SAT", "7")] /\
  convertCronToEventBridge input
  = Returned (m ++ " " ++ h ++ " ? " ++ mo ++ " " ++ convertDayOfWeek field ++ " *").
Proof.
  intros Hf Hup. pose proof (day_name_table _ Hup) as Hin.
  split; [now apply day_name_valid|]. split; [exact Hin|].
  rewrite (convert_five _ _ _ _ _ _ Hf).
  unfold convertFields, resolveDays.
  destruct (String.eqb_spec (convertDayOfWeek field) "*") as [E|_];
    [|reflexivity].
  simpl in Hin. rewrite E in Hin.
  repeat (destruct Hin as [Hin|Hin]; [discriminate Hin|]). contradiction.
Qed.

Lemma day_name_becomes_digit_witness :
  isValidCronField "Mon" 0 7 dayOfWeek = true /\
  In (JS.toUpperCase "Mon", convertDayOfWeek "Mon")
     [("SUN", "2"); ("MON", "3"); ("TUE", "4"); ("WED", "5");
      ("THU", "6"); ("FRI", "7"); ("SAT", "7")] /\
  convertCronToEventBridge "0 9 * * Mon"
  = Returned ("0" ++ " " ++ "9" ++ " ? " ++ "*" ++ " " ++ convertDayOfWeek "Mon" ++ " *").
Proof.
  apply (day_name_becomes_digit "0 9 * * Mon" "0" "9" "*" "Mon").
  - reflexivity.
  - right. left. reflexivity.
Defined.

(** * The digit passes on separated day numbers *)

Lemma numeral_of_weekDay (d : Z) :
  weekDay d -> JS.numberToString d = String (digitChar d) "".
Proof. intros H. each_weekDay H; reflexivity. Qed.

Lemma sep_facts (c : ascii) :
  sepChar c = true ->
  JS.boundary (Some c) = true /\ Ascii.eqb c "0" = false /\
  JS.inRange 49 54 c = false /\ JS.isDigit c = false /\ notSpace c = true.
Proof. each_ascii c; vm_compute; intros H; try discriminate H; tauto. Qed.

Lemma digitChar_is_word (d : Z) :
  weekDay d -> JS.isDigit (digitChar d) = true.
Proof. intros H. each_weekDay H; reflexivity. Qed.

Section DigitPasses.

Variable m : JS.Matcher.
Variable f : Z -> Z.
Hypothesis m_pass : DigitPass m f.

Lemma pass_digit (d : Z) (prev : option ascii) (rest : string) :
  weekDay d -> JS.boundary prev = true -> JS.boundary (JS.head rest) = true ->
  JS.replaceFrom m 0 prev (String (digitChar d) rest)
  = JS.numberToString (f d) ++ JS.replaceFrom m 0 (Some (digitChar d)) rest.
Proof.
  intros Hd Hp Hr. cbn [JS.replaceFrom].
  destruct (proj1 m_pass d prev rest Hd Hp Hr) as [->|[-> E]].
  - reflexivity.
  - now rewrite E, (numeral_of_weekDay _ Hd).
Qed.

Lemma pass_sepList (rest : list (ascii * Z)) :
  forall d prev,
    JS.boundary prev = true -> weekDay d -> dayTail rest ->
    JS.replaceFrom m 0 prev (sepList d rest)
    = sepList (f d) (mapDays f rest).
Proof.
  induction rest as [|[sep e] rest IH]; intros d prev Hp Hd Hrest.
  - cbn [sepList mapDays List.map]. rewrite (numeral_of_weekDay _ Hd).
    rewrite (pass_digit d prev "" Hd Hp eq_refl). apply append_empty.
  - inversion Hrest as [|? ? [Hs He] Hrest']; subst. simpl in Hs, He.
    destruct (sep_facts _ Hs) as (Hb & _).
    cbn [sepList mapDays List.map fst snd].
    rewrite (numeral_of_weekDay _ Hd). cbn [append].
    rewrite (pass_digit d prev (String sep (sepList e rest)) Hd Hp Hb). f_equal.
    cbn [JS.replaceFrom]. rewrite (proj2 m_pass _ _ _ Hs).
    f_equal. now apply IH.
Qed.

End DigitPasses.

Lemma zeroDigit_pass (k : Z) :
  DigitPass (zeroDigit (JS.numberToString k)) (zeroTo k).
Proof.
  split.
  - intros d prev rest Hd Hp Hr. unfold zeroDigit. rewrite Hp, Hr.
    each_weekDay Hd; cbn; tauto.
  - intros prev c rest Hs. unfold zeroDigit.
    destruct (sep_facts _ Hs) as (_ & -> & _). reflexivity.
Qed.

Lemma lowDigit_pass : DigitPass lowDigit lowUp.
Proof.
  split.
  - intros d prev rest Hd Hp Hr. unfold lowDigit. rewrite Hp, Hr.
    each_weekDay Hd; cbn; tauto.
  - intros prev c rest Hs. unfold lowDigit.
    destruct (sep_facts _ Hs) as (_ & _ & -> & _). reflexivity.
Qed.

Lemma zeroTo_weekDay (k d : Z) : weekDay k -> weekDay d -> weekDay (zeroTo k d).
Proof. unfold zeroTo. now destruct (d =? 0)%Z. Qed.

Lemma mapDays_tail (f : Z -> Z) (rest : list (ascii * Z)) :
  (forall d, weekDay d -> weekDay (f d)) -> dayTail rest ->
  dayTail (mapDays f rest).
Proof.
  intros Hf H. induction H as [|[sep e] rest [Hs He] _ IH]; constructor; auto.
  split; [exact Hs|now apply Hf].
Qed.

Lemma mapDays_twice (f g h : Z -> Z) (rest : list (ascii * Z)) :
  (forall d, weekDay d -> g (f d) = h d) -> dayTail rest ->
  mapDays g (mapDays f rest) = mapDays h rest.
Proof.
  intros Hh H. induction H as [|[sep e] rest [Hs He] _ IH]; [reflexivity|].
  unfold mapDays in *. cbn [List.map fst snd] in *. now rewrite IH, (Hh _ He).
Qed.

Lemma page_passes (d : Z) : weekDay d -> lowUp (zeroTo 7 d) = remapPage d.
Proof. intros H. each_weekDay H; reflexivity. Qed.

Lemma second_passes (d : Z) : weekDay d -> lowUp (zeroTo 1 d) = remapSecond d.
Proof. intros H. each_weekDay H; reflexivity. Qed.

(** The two passes of the page file on separated day numbers. *)
Lemma page_passes_sepList (d : Z) (rest : list (ascii * Z)) :
  weekDay d -> dayTail rest ->
  JS.replaceAll lowDigit (JS.replaceAll (zeroDigit "7") (sepList d rest))
  = sepList (remapPage d) (mapDays remapPage rest).
Proof.
  intros Hd Hrest. unfold JS.replaceAll.
  change (zeroDigit "7") with (zeroDigit (JS.numberToString 7)).
  rewrite (pass_sepList _ _ (zeroDigit_pass 7) rest d None eq_refl Hd Hrest).
  rewrite (pass_sepList _ _ lowDigit_pass).
  - rewrite (page_passes _ Hd). f_equal.
    apply mapDays_twice; [exact page_passes|exact Hrest].
  - reflexivity.
  - apply zeroTo_weekDay; [unfold weekDay; lia|exact Hd].
  - apply mapDays_tail; [|exact Hrest].
    intros e He. apply zeroTo_weekDay; [unfold weekDay; lia|exact He].
Qed.

Lemma sepList_starts_with_digit (d : Z) (rest : list (ascii * Z)) :
  weekDay d -> exists r, sepList d rest = String (digitChar d) r.
Proof.
  intros Hd. destruct rest as [|[sep e] rest]; cbn [sepList];
    rewrite (numeral_of_weekDay _ Hd); eexists; reflexivity.
Qed.

Lemma sepList_not_wildcard (d : Z) (rest : list (ascii * Z)) :
  weekDay d ->
  String.eqb (sepList d rest) "*" = false /\
  String.eqb (sepList d rest) "?" = false.
Proof.
  intros Hd. destruct (sepList_starts_with_digit d rest Hd) as [r ->].
  each_weekDay Hd; split; reflexivity.
Qed.

(** X10: in the page file a day-of-week field of day numbers 0..7
    separated by commas, dashes or slashes has every number renumbered
    exactly once, 0 to 7, 1..6 to the next number, 7 kept; the other
    four fields are copied, and the year [*] is appended. *)
Theorem page_file_renumbers_each_day_once
    (input m h dom mo : string) (d : Z) (rest : list (ascii * Z)) :
  fieldsOf input = [m; h; dom; mo; sepList d rest] ->
  weekDay d -> dayTail rest ->
  IndexPage.convertCronToEventBridge input
  = Returned (JS.join " "
                [m; h; dom; mo;
                 sepList (remapPage d) (mapDays remapPage rest); "*"]).
Proof.
  intros Hf Hd Hrest. unfold IndexPage.convertCronToEventBridge.
  change (JS.splitWhiteSpace (JS.trim input)) with (fieldsOf input).
  rewrite Hf, (page_passes_sepList _ _ Hd Hrest).
  destruct (sepList_not_wildcard d rest Hd) as [-> ->]. reflexivity.
Qed.

Lemma page_file_renumbers_each_day_once_witness :
  IndexPage.convertCronToEventBridge "0 18 1 * 0,1-5/6"
  = Returned (JS.join " "
                ["0"; "18"; "1"; "*";
                 sepList (remapPage 0)
                   (mapDays remapPage
                      [(","%char, 1%Z); ("-"%char, 5%Z); ("/"%char, 6%Z)]);
                 "*"]).
Proof.
  apply (page_file_renumbers_each_day_once "0 18 1 * 0,1-5/6" "0" "18" "1" "*"
           0 [(","%char, 1%Z); ("-"%char, 5%Z); ("/"%char, 6%Z)]).
  - reflexivity.
  - unfold weekDay. lia.
  - repeat constructor; simpl; lia.
Defined.

(** * The page file *)

Lemma zeroDigit_benign (digit : string) :
  Benign digit -> BenignMatcher (zeroDigit digit).
Proof.
  intros Hd prev s n r. unfold zeroDigit.
  destruct s as [|d rest]; [discriminate|].
  destruct (Ascii.eqb d "0" && JS.boundary prev && JS.boundary (JS.head rest));
    [|discriminate].
  intros H. now injection H as _ <-.
Qed.

Lemma low_cases (c : ascii) :
  JS.inRange 49 54 c = true -> In c ["1"; "2"; "3"; "4"; "5"; "6"]%char.
Proof. each_ascii c; vm_compute; intros H; try discriminate H; tauto. Qed.

Lemma lowDigit_benign : BenignMatcher lowDigit.
Proof.
  intros prev s n r. unfold lowDigit.
  destruct s as [|d rest]; [discriminate|].
  destruct (JS.inRange 49 54 d) eqn:Hd; [|discriminate].
  destruct (JS.boundary prev); [|discriminate].
  destruct (JS.boundary (JS.head rest)); [|discriminate].
  cbn [andb]. intros H. injection H as _ <-.
  apply low_cases in Hd. simpl in Hd.
  repeat (destruct Hd as [<-|Hd]; [split; reflexivity|]). contradiction.
Qed.

Lemma seven_benign : Benign "7".
Proof. split; reflexivity. Qed.

Lemma one_benign : Benign "1".
Proof. split; reflexivity. Qed.

Lemma benign_cronChar (c : ascii) :
  benignChar c = true -> IndexPage.cronChar c = true.
Proof. each_ascii c; vm_compute; congruence. Qed.

Lemma cronChar_notSpace (c : ascii) :
  IndexPage.cronChar c = true -> notSpace c = true.
Proof. each_ascii c; vm_compute; congruence. Qed.

Lemma page_five (input m h dom mo dow : string) :
  fieldsOf input = [m; h; dom; mo; dow] ->
  IndexPage.convertCronToEventBridge input
  = Returned (JS.join " "
      [m; h; dom; mo;
       if negb (String.eqb dow "*") && negb (String.eqb dow "?")
       then JS.replaceAll lowDigit (JS.replaceAll (zeroDigit "7") dow)
       else dow;
       "*"]).
Proof.
  unfold IndexPage.convertCronToEventBridge, fieldsOf. now intros ->.
Qed.

Lemma page_day_token (dow : string) :
  Token dow ->
  Token (if negb (String.eqb dow "*") && negb (String.eqb dow "?")
         then JS.replaceAll lowDigit (JS.replaceAll (zeroDigit "7") dow)
         else dow).
Proof.
  intros H. destruct (negb _ && negb _); [|exact H].
  apply replaceAll_token; [exact lowDigit_benign|].
  apply replaceAll_token; [exact (zeroDigit_benign _ seven_benign)|exact H].
Qed.

Lemma five_tokens (input m h dom mo dow : string) :
  fieldsOf input = [m; h; dom; mo; dow] ->
  Token m /\ Token h /\ Token dom /\ Token mo /\ Token dow.
Proof.
  intros Hf.
  assert (Htok : Forall Token [m; h; dom; mo; dow]).
  { rewrite <- Hf. apply fieldsOf_tokens. rewrite Hf. simpl. lia. }
  inversion Htok as [|? ? Hm H1]; subst. inversion H1 as [|? ? Hh H2]; subst.
  inversion H2 as [|? ? Hdom H3]; subst. inversion H3 as [|? ? Hmo H4]; subst.
  inversion H4 as [|? ? Hdow _]; subst. tauto.
Qed.

Lemma tokens_split (fs : list string) :
  fs <> [] -> Forall Token fs -> JS.split " " (JS.join " " fs) = fs.
Proof.
  intros Hne H. apply split_join; [exact Hne|].
  eapply Forall_impl; [|exact H]. exact token_no_blank.
Qed.



Lemma page_validate_five (input : string) :
  IndexPage.validateCronExpression input = true ->
  exists m h dom mo dow,
    fieldsOf input = [m; h; dom; mo; dow] /\
    Forall (fun part => part <> "" /\ JS.every IndexPage.cronChar part = true)
           [m; h; dom; mo; dow].
Proof.
  unfold IndexPage.validateCronExpression, fieldsOf.
  destruct (JS.splitWhiteSpace (JS.trim input))
    as [|m [|h [|dom [|mo [|dow [|x xs]]]]]]; try discriminate.
  intros H. exists m, h, dom, mo, dow. split; [reflexivity|].
  rewrite forallb_forall in H. apply Forall_forall. intros part Hin.
  specialize (H part Hin). apply andb_true_iff in H as [H1 H2].
  split; [|exact H2]. intros ->. discriminate H1.
Qed.

(** X12: on an input the page file's validator accepts, its converter
    returns six fields that are again made of the characters the
    validator allows (digits and the signs of cron); the result,
    having six fields, is itself refused by the validator. *)
Theorem page_file_result_stays_in_alphabet (input : string) :
  IndexPage.validateCronExpression input = true ->
  exists fields,
    IndexPage.convertCronToEventBridge input = Returned (JS.join " " fields) /\
    List.length fields = 6%nat /\
    Forall (fun part => part <> "" /\ JS.every IndexPage.cronChar part = true)
           fields /\
    IndexPage.validateCronExpression (JS.join " " fields) = false.
Proof.
  intros Hv.
  destruct (page_validate_five _ Hv) as (m & h & dom & mo & dow & Hf & Hc).
  destruct (five_tokens _ _ _ _ _ _ Hf) as (Hm & Hh & Hdom & Hmo & Hdow).
  inversion Hc as [|? ? Cm C1]; subst. inversion C1 as [|? ? Ch C2]; subst.
  inversion C2 as [|? ? Cdom C3]; subst. inversion C3 as [|? ? Cmo C4]; subst.
  inversion C4 as [|? ? Cdow _]; subst.
  pose proof (page_day_token _ Hdow) as Hd'.
  set (dow' := if negb (String.eqb dow "*") && negb (String.eqb dow "?")
               then JS.replaceAll lowDigit (JS.replaceAll (zeroDigit "7") dow)
               else dow) in *.
  assert (Cd' : JS.every IndexPage.cronChar dow' = true).
  { subst dow'. destruct (negb _ && negb _); [|apply Cdow].
    unfold JS.replaceAll.
    apply (replaceFrom_every _ lowDigit_benign _ benign_cronChar).
    apply (replaceFrom_every _ (zeroDigit_benign _ seven_benign) _ benign_cronChar).
    apply Cdow. }
  exists [m; h; dom; mo; dow'; "*"].
  split; [exact (page_five _ _ _ _ _ _ Hf)|]. split; [reflexivity|].
  split.
  - repeat constructor; try assumption; try discriminate;
      first [apply Cm|apply Ch|apply Cdom|apply Cmo|apply Hd'].
  - assert (H6 : fieldsOf (JS.join " " [m; h; dom; mo; dow'; "*"])
                 = [m; h; dom; mo; dow'; "*"]).
    { apply fieldsOf_blank_join; [discriminate|].
      repeat constructor; try assumption; try discriminate;
        first [apply Hm|apply Hh|apply Hdom|apply Hmo|apply Hd']. }
    unfold IndexPage.validateCronExpression.
    change (JS.splitWhiteSpace (JS.trim (JS.join " " [m; h; dom; mo; dow'; "*"])))
      with (fieldsOf (JS.join " " [m; h; dom; mo; dow'; "*"])).
    now rewrite H6.
Qed.

Lemma page_file_result_stays_in_alphabet_witness :
  exists fields,
    IndexPage.convertCronToEventBridge "*/15 0-6 ? * 0,6"
    = Returned (JS.join " " fields) /\
    List.length fields = 6%nat /\
    Forall (fun part => part <> "" /\ JS.every IndexPage.cronChar part = true)
           fields /\
    IndexPage.validateCronExpression (JS.join " " fields) = false.
Proof.
  apply (page_file_result_stays_in_alphabet "*/15 0-6 ? * 0,6"). reflexivity.
Defined.

Lemma page_valid_converts (input : string) :
  IndexPage.validateCronExpression input = true ->
  exists out,
    out <> "" /\ IndexPage.convertCronToEventBridge input = Returned out.
Proof.
  intros Hv.
  destruct (page_validate_five _ Hv) as (m & h & dom & mo & dow & Hf & _).
  destruct (five_tokens _ _ _ _ _ _ Hf) as (Hm & _).
  eexists. split; [|exact (page_five _ _ _ _ _ _ Hf)].
  cbn [JS.join]. now apply app_not_empty, Hm.
Qed.

Lemma page_valid_not_blank (input : string) :
  IndexPage.validateCronExpression input = true -> JS.trim input <> "".
Proof.
  intros Hv E. unfold IndexPage.validateCronExpression in Hv.
  rewrite E in Hv. discriminate Hv.
Qed.

(** X13: the page file's update ends in one of three states: cleared
    on blank input, a non-empty result with no error when its
    validator accepts, or the fixed message and no result when it does
    not; the converter's field-count message is never shown. *)
Theorem page_file_update_states (input : string) :
  (JS.trim input = "" ->
   IndexPage.update input
   = {| eventBridgeCron := ""; isValid := true; error := "" |}) /\
  (JS.trim input <> "" -> IndexPage.validateCronExpression input = false ->
   IndexPage.update input
   = {| eventBridgeCron := ""; isValid := false;
        error := IndexPage.invalidMessage |}) /\
  (IndexPage.validateCronExpression input = true ->
   exists out,
     out <> "" /\ IndexPage.convertCronToEventBridge input = Returned out /\
     IndexPage.update input
     = {| eventBridgeCron := out; isValid := true; error := "" |}) /\
  error (IndexPage.update input) <> IndexPage.fieldCountMessage.
Proof.
  assert (Hok : IndexPage.validateCronExpression input = true ->
    exists out,
      out <> "" /\ IndexPage.convertCronToEventBridge input = Returned out /\
      IndexPage.update input
      = {| eventBridgeCron := out; isValid := true; error := "" |}).
  { intros Hv. destruct (page_valid_converts _ Hv) as (out & Hne & Hc).
    exists out. split; [exact Hne|]. split; [exact Hc|].
    unfold IndexPage.update. rewrite Hv, Hc.
    destruct (String.eqb_spec (JS.trim input) "") as [E|_]; [|reflexivity].
    now apply page_valid_not_blank in E. }
  repeat apply conj.
  - intros E. unfold IndexPage.update. now rewrite E.
  - intros Hne Hv. unfold IndexPage.update. rewrite Hv.
    destruct (String.eqb_spec (JS.trim input) "") as [E|_]; [contradiction|].
    reflexivity.
  - exact Hok.
  - destruct (String.eqb_spec (JS.trim input) "") as [E|Hne].
    + unfold IndexPage.update. rewrite E. discriminate.
    + destruct (IndexPage.validateCronExpression input) eqn:Hv.
      * destruct (Hok eq_refl) as (out & _ & _ & ->). discriminate.
      * unfold IndexPage.update. rewrite Hv.
        destruct (String.eqb_spec (JS.trim input) "") as [E|_]; [contradiction|].
        discriminate.
Qed.

Lemma page_file_update_states_witness :
  IndexPage.update "0 9 * * MON"
  = {| eventBridgeCron := ""; isValid := false;
       error := IndexPage.invalidMessage |}.
Proof.
  apply (proj1 (proj2 (page_file_update_states "0 9 * * MON")));
    [discriminate|reflexivity].
Defined.

(** * The second file *)

Lemma second_dayName_benign (name digit : string) :
  Benign digit -> BenignMatcher (Unnamed2.dayName name digit).
Proof.
  intros Hd prev s n r. unfold Unnamed2.dayName.
  destruct (String.prefix name s); [|discriminate].
  intros H. now injection H as _ <-.
Qed.

Lemma second_dayNames_benign :
  BenignMatcher (Unnamed2.dayName "SUN" "1") /\
  BenignMatcher (Unnamed2.dayName "MON" "2") /\
  BenignMatcher (Unnamed2.dayName "TUE" "3") /\
  BenignMatcher (Unnamed2.dayName "WED" "4") /\
  BenignMatcher (Unnamed2.dayName "THU" "5") /\
  BenignMatcher (Unnamed2.dayName "FRI" "6") /\
  BenignMatcher (Unnamed2.dayName "SAT" "7").
Proof.
  repeat apply conj; apply second_dayName_benign; now apply digit_benign.
Qed.

Lemma second_day_token (d : string) :
  Token d -> Token (Unnamed2.convertDayOfWeek d).
Proof.
  intros H. unfold Unnamed2.convertDayOfWeek.
  destruct (String.eqb d "*"); [exact H|].
  destruct (negb _ && _).
  - unfold Unnamed2.replaceDayNames.
    destruct second_dayNames_benign as (H1 & H2 & H3 & H4 & H5 & H6 & H7).
    repeat (apply replaceAll_token; [assumption|]). exact H.
  - apply replaceAll_token; [exact lowDigit_benign|].
    apply replaceAll_token; [exact dayRange_benign|].
    apply replaceAll_token; [exact (zeroDigit_benign _ one_benign)|exact H].
Qed.

Lemma second_day_star (d : string) :
  Unnamed2.convertDayOfWeek d = "*" <-> d = "*".
Proof.
  split; [|now intros ->].
  unfold Unnamed2.convertDayOfWeek.
  destruct (String.eqb_spec d "*"); [trivial|].
  destruct (negb _ && _); intros H.
  - unfold Unnamed2.replaceDayNames in H.
    destruct second_dayNames_benign as (H1 & H2 & H3 & H4 & H5 & H6 & H7).
    apply (replaceAll_star _ H7) in H. apply (replaceAll_star _ H6) in H.
    apply (replaceAll_star _ H5) in H. apply (replaceAll_star _ H4) in H.
    apply (replaceAll_star _ H3) in H. apply (replaceAll_star _ H2) in H.
    now apply (replaceAll_star _ H1) in H.
  - apply (replaceAll_star _ lowDigit_benign) in H.
    apply (replaceAll_star _ dayRange_benign) in H.
    now apply (replaceAll_star _ (zeroDigit_benign _ one_benign)) in H.
Qed.

Lemma second_five (input m h dom mo dow : string) :
  fieldsOf input = [m; h; dom; mo; dow] ->
  Unnamed2.convertCronToEventBridge input
  = Returned (JS.join " "
      [m; h; fst (resolveDays dom (Unnamed2.convertDayOfWeek dow)); mo;
       snd (resolveDays dom (Unnamed2.convertDayOfWeek dow)); "*"]).
Proof.
  unfold Unnamed2.convertCronToEventBridge, fieldsOf. intros ->.
  now destruct (resolveDays dom (Unnamed2.convertDayOfWeek dow)).
Qed.

Lemma second_shape (input m h dom mo dow : string) :
  fieldsOf input = [m; h; dom; mo; dow] ->
  exists dom' dow',
    resolveDays dom (Unnamed2.convertDayOfWeek dow) = (dom', dow') /\
    Unnamed2.convertCronToEventBridge input
    = Returned (JS.join " " [m; h; dom'; mo; dow'; "*"]) /\
    Forall Token [m; h; dom'; mo; dow'; "*"].
Proof.
  intros Hf.
  destruct (five_tokens _ _ _ _ _ _ Hf) as (Hm & Hh & Hdom & Hmo & Hdow).
  pose proof (resolveDays_tokens dom (Unnamed2.convertDayOfWeek dow) Hdom
                (second_day_token _ Hdow)) as [H1 H2].
  pose proof (second_five _ _ _ _ _ _ Hf) as Hc.
  destruct (resolveDays dom (Unnamed2.convertDayOfWeek dow)) as [dom' dow'].
  simpl in H1, H2, Hc. exists dom', dow'.
  split; [reflexivity|]. split; [exact Hc|].
  repeat constructor; try assumption; try discriminate;
    first [apply Hm|apply Hh|apply H1|apply Hmo|apply H2].
Qed.

(** X14: the second file's converter returns, for five fields, six
    fields joined by single blanks in which the two day fields are
    never both specific: day-of-week becomes [?] when both are given
    or both are [*], day-of-month becomes [?] when only day-of-week is
    given, and both stay when only day-of-month is given; it throws
    exactly when the input does not have five fields. *)
Theorem second_file_resolves_days (input : string) :
  (forall m h dom mo dow,
     fieldsOf input = [m; h; dom; mo; dow] ->
     exists dom' dow',
       Unnamed2.convertCronToEventBridge input
       = Returned (JS.join " " [m; h; dom'; mo; dow'; "*"]) /\
       JS.split " " (JS.join " " [m; h; dom'; mo; dow'; "*"])
       = [m; h; dom'; mo; dow'; "*"] /\
       specific dom' && specific dow' = false /\
       (dom <> "*" -> dow <> "*" -> dom' = dom /\ dow' = "?") /\
       (dom = "*" -> dow = "*" -> dom' = "*" /\ dow' = "?") /\
       (dom = "*" -> dow <> "*" ->
        dom' = "?" /\ dow' = Unnamed2.convertDayOfWeek dow) /\
       (dom <> "*" -> dow = "*" -> dom' = dom /\ dow' = "*")) /\
  (List.length (fieldsOf input) <> 5%nat ->
   Unnamed2.convertCronToEventBridge input = Thrown fieldCountMessage).
Proof.
  split.
  - intros m h dom mo dow Hf.
    destruct (second_shape _ _ _ _ _ _ Hf) as (dom' & dow' & Hr & Hc & Ht).
    exists dom', dow'. split; [exact Hc|].
    split; [apply tokens_split; [discriminate|exact Ht]|].
    unfold resolveDays in Hr.
    pose proof (second_day_star dow) as Hstar.
    destruct (String.eqb_spec dom "*") as [Hd|Hd];
      destruct (String.eqb_spec (Unnamed2.convertDayOfWeek dow) "*") as [Hw|Hw];
      simpl in Hr; injection Hr as <- <-.
    + apply Hstar in Hw. subst.
      repeat apply conj; solve [reflexivity | intros; congruence | auto].
    + assert (dow <> "*") by (intros E; apply Hw, Hstar, E). subst.
      repeat apply conj; solve [reflexivity | intros; congruence | auto].
    + apply Hstar in Hw. rewrite Hw.
      repeat apply conj;
        solve [apply andb_false_r | intros; congruence | auto].
    + assert (dow <> "*") by (intros E; apply Hw, Hstar, E).
      repeat apply conj;
        solve [apply andb_false_r | intros; congruence | auto].
  - unfold Unnamed2.convertCronToEventBridge, fieldsOf.
    destruct (JS.splitWhiteSpace (JS.trim input))
      as [|m [|h [|dom [|mo [|dow [|x xs]]]]]]; simpl; intros H;
      try reflexivity.
    now contradiction H.
Qed.

Lemma second_file_resolves_days_witness :
  exists dom' dow',
    Unnamed2.convertCronToEventBridge "0 9 1-7 * MON"
    = Returned (JS.join " " ["0"; "9"; dom'; "*"; dow'; "*"]) /\
    JS.split " " (JS.join " " ["0"; "9"; dom'; "*"; dow'; "*"])
    = ["0"; "9"; dom'; "*"; dow'; "*"] /\
    specific dom' && specific dow' = false /\
    ("1-7" <> "*" -> "MON" <> "*" -> dom' = "1-7" /\ dow' = "?") /\
    ("1-7" = "*" -> "MON" = "*" -> dom' = "*" /\ dow' = "?") /\
    ("1-7" = "*" -> "MON" <> "*" ->
     dom' = "?" /\ dow' = Unnamed2.convertDayOfWeek "MON") /\
    ("1-7" <> "*" -> "MON" = "*" -> dom' = "1-7" /\ dow' = "*").
Proof.
  apply (proj1 (second_file_resolves_days "0 9 1-7 * MON")). reflexivity.
Defined.

Lemma not_upper_differs (c x : ascii) :
  JS.isUpper c = false -> JS.isUpper x = true -> Ascii.eqb c x = false.
Proof.
  intros Hc Hx. destruct (Ascii.eqb_spec c x) as [->|]; congruence.
Qed.

Lemma second_not_named (c : ascii) (r : string) :
  JS.isUpper c = false -> Unnamed2.matchesDayNames (String c r) = false.
Proof.
  intros Hc. unfold Unnamed2.matchesDayNames.
  destruct r as [|b [|d r']]; try reflexivity.
  unfold Unnamed2.isDayName.
  cbn [existsb dayNames String.eqb].
  now rewrite (not_upper_differs c "S" Hc eq_refl),
              (not_upper_differs c "M" Hc eq_refl),
              (not_upper_differs c "T" Hc eq_refl),
              (not_upper_differs c "W" Hc eq_refl),
              (not_upper_differs c "F" Hc eq_refl).
Qed.

Lemma digit_not_upper (c : ascii) : JS.isDigit c = true -> JS.isUpper c = false.
Proof. each_ascii c; vm_compute; congruence. Qed.

Lemma second_numeral_not_named (n : Z) (rest : string) :
  (0 <= n)%Z ->
  Unnamed2.matchesDayNames (JS.numberToString n ++ rest) = false.
Proof.
  intros Hn. destruct (numeral_digits n Hn) as [Hd Hne].
  destruct (JS.numberToString n) as [|c s]; [congruence|].
  simpl in Hd. apply andb_true_iff in Hd as [Hc _].
  cbn [append]. now apply second_not_named, digit_not_upper.
Qed.

Lemma eqb_false (s t : string) : s <> t -> String.eqb s t = false.
Proof. intros H. now destruct (String.eqb_spec s t). Qed.

(** X15: in the second file, with bounds below 2^53 in absolute
    value, a plain number is accepted exactly when it lies within the
    bounds; a number followed by a slash is accepted on the number
    alone, whatever follows the slash; after [*] the step must be
    above zero. *)
Theorem second_file_checks_step_only_after_star
    (n k min max : Z) (step : string) :
  safeBound min -> safeBound max ->
  (0 <= n)%Z -> (0 <= k)%Z ->
  Unnamed2.isValidCronField (JS.numberToString n) min max
  = ((min <=? n) && (n <=? max))%Z /\
  Unnamed2.isValidCronField (JS.numberToString n ++ "/" ++ step) min max
  = ((min <=? n) && (n <=? max))%Z /\
  Unnamed2.isValidCronField ("*" ++ "/" ++ JS.numberToString k) min max
  = (0 <? k)%Z.
Proof.
  intros _ _ Hn Hk. repeat apply conj.
  - unfold Unnamed2.isValidCronField.
    rewrite (eqb_false _ _ (numeral_not_star n Hn)).
    rewrite <- (append_empty (JS.numberToString n)) at 1.
    rewrite (second_numeral_not_named n "" Hn).
    rewrite !numeral_excludes by (reflexivity || assumption).
    now rewrite parseInt_numeral.
  - unfold Unnamed2.isValidCronField.
    rewrite (eqb_false _ _ (starts_with_numeral_not_star n _ Hn)).
    rewrite (second_numeral_not_named n _ Hn).
    assert (Hi : JS.includes "/" (JS.numberToString n ++ "/" ++ step) = true).
    { rewrite includes_app. simpl. apply orb_true_r. }
    rewrite Hi.
    change (JS.numberToString n ++ "/" ++ step)
      with (JS.numberToString n ++ String "/" step).
    rewrite split_piece_then by (now apply numeral_excludes).
    unfold JS.item. cbn [nth].
    rewrite (eqb_false _ _ (numeral_not_star n Hn)).
    rewrite numeral_excludes by (reflexivity || assumption).
    now rewrite parseInt_numeral.
  - unfold Unnamed2.isValidCronField.
    cbn [append String.eqb Ascii.eqb Bool.eqb andb].
    rewrite (second_not_named "*" _ eq_refl).
    cbn [JS.includes Ascii.eqb Bool.eqb orb JS.split].
    rewrite split_single by (now apply numeral_excludes).
    unfold JS.item. cbn [nth String.eqb Ascii.eqb Bool.eqb andb].
    now rewrite parseInt_numeral.
Qed.

Lemma second_file_checks_step_only_after_star_witness :
  Unnamed2.isValidCronField (JS.numberToString 1) 0 59
  = ((0 <=? 1) && (1 <=? 59))%Z /\
  Unnamed2.isValidCronField (JS.numberToString 1 ++ "/" ++ "0") 0 59
  = ((0 <=? 1) && (1 <=? 59))%Z /\
  Unnamed2.isValidCronField ("*" ++ "/" ++ JS.numberToString 0) 0 59
  = (0 <? 0)%Z.
Proof.
  apply (second_file_checks_step_only_after_star 1 0 0 59 "0");
    first [exact eq_refl|lia].
Defined.

Lemma second_validate_five (input : string) :
  Unnamed2.validateCronExpression input = true ->
  exists m h dom mo dow, fieldsOf input = [m; h; dom; mo; dow].
Proof.
  unfold Unnamed2.validateCronExpression, fieldsOf.
  destruct (JS.splitWhiteSpace (JS.trim input))
    as [|m [|h [|dom [|mo [|dow [|x xs]]]]]]; try discriminate.
  intros _. now exists m, h, dom, mo, dow.
Qed.

Lemma second_valid_converts (input : string) :
  Unnamed2.validateCronExpression input = true ->
  exists out,
    out <> "" /\ Unnamed2.convertCronToEventBridge input = Returned out.
Proof.
  intros Hv.
  destruct (second_validate_five _ Hv) as (m & h & dom & mo & dow & Hf).
  destruct (second_shape _ _ _ _ _ _ Hf) as (dom' & dow' & _ & Hc & Ht).
  eexists. split; [|exact Hc].
  apply join_not_empty; [discriminate|exact Ht].
Qed.

Lemma second_valid_not_blank (input : string) :
  Unnamed2.validateCronExpression input = true -> JS.trim input <> "".
Proof.
  intros Hv E. unfold Unnamed2.validateCronExpression in Hv.
  rewrite E in Hv. discriminate Hv.
Qed.

(** X16: the second file's update ends in one of three states: cleared
    on blank input, a non-empty result with no error when its
    validator accepts, or the fixed message and no result when it does
    not; the converter's field-count message is never shown. *)
Theorem second_file_update_states (input : string) :
  (JS.trim input = "" ->
   Unnamed2.update input
   = {| eventBridgeCron := ""; isValid := true; error := "" |}) /\
  (JS.trim input <> "" -> Unnamed2.validateCronExpression input = false ->
   Unnamed2.update input
   = {| eventBridgeCron := ""; isValid := false;
        error := Unnamed2.invalidMessage |}) /\
  (Unnamed2.validateCronExpression input = true ->
   exists out,
     out <> "" /\ Unnamed2.convertCronToEventBridge input = Returned out /\
     Unnamed2.update input
     = {| eventBridgeCron := out; isValid := true; error := "" |}) /\
  error (Unnamed2.update input) <> fieldCountMessage.
Proof.
  assert (Hok : Unnamed2.validateCronExpression input = true ->
    exists out,
      out <> "" /\ Unnamed2.convertCronToEventBridge input = Returned out /\
      Unnamed2.update input
      = {| eventBridgeCron := out; isValid := true; error := "" |}).
  { intros Hv. destruct (second_valid_converts _ Hv) as (out & Hne & Hc).
    exists out. split; [exact Hne|]. split; [exact Hc|].
    unfold Unnamed2.update. rewrite Hv, Hc.
    destruct (String.eqb_spec (JS.trim input) "") as [E|_]; [|reflexivity].
    now apply second_valid_not_blank in E. }
  repeat apply conj.
  - intros E. unfold Unnamed2.update. now rewrite E.
  - intros Hne Hv. unfold Unnamed2.update. rewrite Hv.
    destruct (String.eqb_spec (JS.trim input) "") as [E|_]; [contradiction|].
    reflexivity.
  - exact Hok.
  - destruct (String.eqb_spec (JS.trim input) "") as [E|Hne].
    + unfold Unnamed2.update. rewrite E. discriminate.
    + destruct (Unnamed2.validateCronExpression input) eqn:Hv.
      * destruct (Hok eq_refl) as (out & _ & _ & ->). discriminate.
      * unfold Unnamed2.update. rewrite Hv.
        destruct (String.eqb_spec (JS.trim input) "") as [E|_]; [contradiction|].
        discriminate.
Qed.

Lemma second_file_update_states_witness :
  Unnamed2.update "0/30 20-2 * * 1-5"
  = {| eventBridgeCron := ""; isValid := false;
       error := Unnamed2.invalidMessage |}.
Proof.
  apply (proj1 (proj2 (second_file_update_states "0/30 20-2 * * 1-5")));
    [discriminate|reflexivity].
Defined.

Lemma dayList_as_sepList (ds : list Z) (d : Z) :
  dayList (d :: ds) = sepList d (List.map (fun e => (","%char, e)) ds).
Proof.
  revert d. induction ds as [|e ds IH]; intros d; [reflexivity|].
  rewrite dayList_cons, IH. reflexivity.
Qed.

Lemma comma_tail (ds : list Z) :
  Forall weekDay ds -> dayTail (List.map (fun e => (","%char, e)) ds).
Proof.
  induction 1; constructor; [split; [reflexivity|assumption]|assumption].
Qed.

Lemma mapDays_commas (f : Z -> Z) (ds : list Z) :
  mapDays f (List.map (fun e => (","%char, e)) ds)
  = List.map (fun e => (","%char, e)) (List.map f ds).
Proof.
  unfold mapDays. induction ds as [|e ds IH]; [reflexivity|].
  cbn [List.map fst snd]. now rewrite IH.
Qed.

(** A digit pass on a comma list of day numbers. *)
Lemma pass_dayList (m : JS.Matcher) (f : Z -> Z) (ds : list Z) :
  DigitPass m f -> ds <> [] -> Forall weekDay ds ->
  JS.replaceAll m (dayList ds) = dayList (List.map f ds).
Proof.
  intros Hm Hne H. destruct ds as [|d ds]; [congruence|].
  inversion H as [|? ? Hd Hds]; subst.
  unfold JS.replaceAll. rewrite dayList_as_sepList.
  rewrite (pass_sepList _ _ Hm _ _ None eq_refl Hd (comma_tail _ Hds)).
  rewrite mapDays_commas. cbn [List.map]. now rewrite dayList_as_sepList.
Qed.

Lemma map_weekDay (f : Z -> Z) (ds : list Z) :
  (forall d, weekDay d -> weekDay (f d)) ->
  Forall weekDay ds -> Forall weekDay (List.map f ds).
Proof. intros Hf. induction 1; constructor; auto. Qed.

Lemma second_passes_list (ds : list Z) :
  Forall weekDay ds ->
  List.map lowUp (List.map (zeroTo 1) ds) = List.map remapSecond ds.
Proof.
  induction 1 as [|d ds Hd _ IH]; [reflexivity|].
  cbn [List.map]. now rewrite IH, (second_passes _ Hd).
Qed.

Lemma second_day_list (ds : list Z) :
  ds <> [] -> Forall weekDay ds ->
  Unnamed2.convertDayOfWeek (dayList ds) = dayList (List.map remapSecond ds).
Proof.
  intros Hne H.
  assert (H1 : Forall weekDay (List.map (zeroTo 1) ds)).
  { apply map_weekDay; [|exact H].
    intros d Hd. apply zeroTo_weekDay; [unfold weekDay; lia|exact Hd]. }
  pose proof (dayList_plain _ H) as Hp.
  unfold Unnamed2.convertDayOfWeek.
  destruct (String.eqb_spec (dayList ds) "*") as [E|_].
  { rewrite E in Hp. discriminate Hp. }
  assert (Hs : Unnamed2.startsWithDigit (dayList ds) = true).
  { destruct ds as [|d ds]; [congruence|]. inversion H; subst.
    rewrite dayList_as_sepList.
    destruct (sepList_starts_with_digit d
                (List.map (fun e => (","%char, e)) ds)) as [r ->]; [assumption|].
    now apply digitChar_is_word. }
  rewrite Hs. cbn [negb andb].
  change (zeroDigit "1") with (zeroDigit (JS.numberToString 1)).
  rewrite (pass_dayList _ _ ds (zeroDigit_pass 1) Hne H).
  unfold JS.replaceAll at 2.
  rewrite (replaceFrom_no_match _ dayRange_no_match _ _ (dayList_plain _ H1)).
  rewrite (pass_dayList _ _ _ lowDigit_pass); [|destruct ds; [congruence|discriminate]|exact H1].
  now rewrite second_passes_list.
Qed.

Lemma remapSecond_weekDay (d : Z) : weekDay d -> weekDay (remapSecond d).
Proof. intros H. each_weekDay H; vm_compute; intuition discriminate. Qed.

(** X17: in the second file a day-of-week field that is a single digit
    0..7 or a comma list of such digits is renumbered digit by digit,
    0 to 2 (the zero pass writes 1 and the digit pass that follows
    adds one), 1..6 to the next number, and 7 kept; with day-of-month
    [*] the result carries the renumbered list. *)
Theorem second_file_renumbers_day_list
    (input m h mo : string) (ds : list Z) :
  fieldsOf input = [m; h; "*"; mo; dayList ds] ->
  ds <> [] -> Forall weekDay ds ->
  Unnamed2.convertCronToEventBridge input
  = Returned (m ++ " " ++ h ++ " ? " ++ mo ++ " "
                ++ dayList (List.map remapSecond ds) ++ " *").
Proof.
  intros Hf Hne H.
  rewrite (second_five _ _ _ _ _ _ Hf), (second_day_list _ Hne H).
  unfold resolveDays.
  destruct (String.eqb_spec (dayList (List.map remapSecond ds)) "*") as [E|_].
  - pose proof (dayList_plain _ (map_weekDay _ _ remapSecond_weekDay H)) as Hp.
    rewrite E in Hp. discriminate Hp.
  - reflexivity.
Qed.

Lemma second_file_renumbers_day_list_witness :
  Unnamed2.convertCronToEventBridge "30 14 * * 0,1,6"
  = Returned ("30" ++ " " ++ "14" ++ " ? " ++ "*" ++ " "
                ++ dayList (List.map remapSecond [0; 1; 6]%Z) ++ " *").
Proof.
  apply (second_file_renumbers_day_list "30 14 * * 0,1,6" "30" "14" "*"
           [0; 1; 6]%Z).
  - reflexivity.
  - discriminate.
  - repeat constructor; unfold weekDay; lia.
Defined.

(** * Letters after a number *)

Lemma lower_facts (c : ascii) :
  JS.isLower c = true ->
  JS.digitValue 10 c = None /\ JS.isDigit c = false /\ numChar c = false /\
  JS.isLetter c = true /\ JS.isWhiteSpace c = false.
Proof. each_ascii c; vm_compute; intros H; try discriminate H; tauto. Qed.

Lemma digits_stop (s junk : string) (acc : option Z) :
  JS.every JS.isDigit s = true -> JS.every JS.isLower junk = true ->
  JS.digits 10 acc (s ++ junk) = JS.digits 10 acc s.
Proof.
  intros Hs Hj. revert acc. induction s as [|c s IH]; intros acc.
  - destruct junk as [|j r]; [reflexivity|].
    simpl in Hj. apply andb_true_iff in Hj as [Hj _].
    cbn [append JS.digits]. now rewrite (proj1 (lower_facts _ Hj)).
  - simpl in Hs. apply andb_true_iff in Hs as [_ Hs].
    cbn [append JS.digits]. destruct (JS.digitValue 10 c); [|reflexivity].
    now apply IH.
Qed.

Lemma lower_cases (c : ascii) :
  JS.isLower c = true ->
  In c ["a"; "b"; "c"; "d"; "e"; "f"; "g"; "h"; "i"; "j"; "k"; "l"; "m";
        "n"; "o"; "p"; "q"; "r"; "s"; "t"; "u"; "v"; "w"; "x"; "y"; "z"]%char.
Proof.
  each_ascii c; vm_compute; intros H; try discriminate H;
    repeat (first [left; reflexivity | right]).
Qed.

(** With letters after the digits [parseInt] still reads the digits in
    base ten, unless the letters turn a leading zero into [0x]. *)
Lemma parseInt_digits_then_letters (s junk : string) :
  JS.every JS.isDigit s = true -> s <> "" ->
  JS.every JS.isLower junk = true -> JS.head junk <> Some "x"%char ->
  JS.parseInt (s ++ junk) = JS.digits 10 None s.
Proof.
  intros Hs Hne Hj Hx. rewrite <- (digits_stop s junk None Hs Hj).
  destruct s as [|c s]; [congruence|]. simpl in Hs.
  apply andb_true_iff in Hs as [Hc Hs].
  apply digit_cases in Hc. simpl in Hc. cbn [append].
  destruct Hc as [<-|Hc].
  - destruct s as [|d s].
    + cbn [append]. destruct junk as [|j r]; [reflexivity|].
      simpl in Hj. apply andb_true_iff in Hj as [Hj _].
      apply lower_cases in Hj. simpl in Hj, Hx.
      repeat (destruct Hj as [<-|Hj];
              [first [read_in_base_ten | now contradiction Hx]|]).
      contradiction.
    + simpl in Hs. apply andb_true_iff in Hs as [Hd _].
      apply digit_cases in Hd. simpl in Hd. cbn [append].
      repeat (destruct Hd as [<-|Hd]; [read_in_base_ten|]). contradiction.
  - repeat (destruct Hc as [<-|Hc]; [read_in_base_ten|]). contradiction.
Qed.

Lemma digits_numeral (n : Z) :
  (0 <= n)%Z -> JS.digits 10 None (JS.numberToString n) = Some n.
Proof.
  intros Hn. rewrite <- parseInt_all_digits by (now apply numeral_digits).
  now apply parseInt_numeral.
Qed.

Lemma every_or (p q : ascii -> bool) (s : string) :
  JS.every p s = true -> JS.every (fun c => p c || q c) s = true.
Proof.
  apply every_weaken. intros c ->. reflexivity.
Qed.

Lemma numeral_then_letters (n : Z) (junk : string) :
  (0 <= n)%Z -> JS.every JS.isLower junk = true ->
  JS.every (fun c => JS.isDigit c || JS.isLower c)
           (JS.numberToString n ++ junk) = true.
Proof.
  intros Hn Hj. rewrite every_app, every_or by (now apply numeral_digits).
  apply (every_weaken JS.isLower); [|exact Hj].
  intros c ->. apply orb_true_r.
Qed.

(** X18: with bounds below 2^53 in absolute value, the validator
    reads a field that is a number followed by lower-case letters as
    the number alone: it is accepted exactly when the number lies
    within the bounds (the one exception being a zero followed by
    [x], which [parseInt] reads as hexadecimal). *)
Theorem letters_after_number_are_ignored
    (n min max : Z) (junk : string) (fieldType : FieldType) :
  safeBound min -> safeBound max ->
  (0 <= n)%Z ->
  JS.every JS.isLower junk = true ->
  JS.head junk <> Some "x"%char ->
  isValidCronField (JS.numberToString n ++ junk) min max fieldType
  = ((min <=? n) && (n <=? max))%Z.
Proof.
  intros _ _ Hn Hj Hx.
  pose proof (numeral_then_letters n junk Hn Hj) as Hall.
  assert (Hex : forall c, JS.isDigit c || JS.isLower c = false ->
                  JS.includes c (JS.numberToString n ++ junk) = false).
  { intros c Hc.
    exact (every_excludes (fun c => JS.isDigit c || JS.isLower c) c _ Hc Hall). }
  assert (Hnamed : forall names, Forall upperName names ->
            matchesNamed names (JS.numberToString n ++ junk) = false).
  { intros names Hup.
    destruct (matchesNamed names _) eqn:E; [|reflexivity].
    destruct (named_starts_with_letter _ _ Hup E) as (a & r & Ea & Ha).
    destruct (numeral_digits n Hn) as [Hd Hne].
    destruct (JS.numberToString n) as [|c s]; [congruence|].
    cbn [append] in Ea. injection Ea as <- _.
    simpl in Hd. apply andb_true_iff in Hd as [Hc _].
    apply digit_is_numChar in Hc.
    destruct (numChar_facts _ Hc) as (Hl & _). congruence. }
  unfold isValidCronField.
  rewrite (eqb_false _ _ (starts_with_numeral_not_star n junk Hn)).
  rewrite (Hex "W"%char eq_refl), (Hex "#"%char eq_refl),
          (Hex "L"%char eq_refl), (Hex "/"%char eq_refl),
          (Hex "-"%char eq_refl), (Hex ","%char eq_refl).
  rewrite (Hnamed _ (proj1 names_upper)), (Hnamed _ (proj2 names_upper)).
  rewrite !andb_false_r.
  assert (HL : String.eqb (JS.numberToString n ++ junk) "L" = false).
  { apply eqb_false. intros E. pose proof (Hex "L"%char eq_refl) as H.
    rewrite E in H. discriminate H. }
  rewrite HL, andb_false_r.
  rewrite parseInt_digits_then_letters;
    try assumption; try (now apply numeral_digits).
  now rewrite digits_numeral.
Qed.

Lemma letters_after_number_are_ignored_witness :
  isValidCronField (JS.numberToString 5 ++ "abc") 0 59 minute
  = ((0 <=? 5) && (5 <=? 59))%Z.
Proof.
  apply (letters_after_number_are_ignored 5 0 59 "abc" minute);
    [exact eq_refl|exact eq_refl|lia|reflexivity|discriminate].
Defined.

(** * Claims that cite more than one file *)

Lemma second_throws (input : string) :
  List.length (fieldsOf input) <> 5%nat ->
  Unnamed2.convertCronToEventBridge input = Thrown fieldCountMessage.
Proof.
  unfold Unnamed2.convertCronToEventBridge, fieldsOf.
  destruct (JS.splitWhiteSpace (JS.trim input))
    as [|m [|h [|dom [|mo [|dow [|x xs]]]]]]; simpl; intros H;
    try reflexivity.
  now contradiction H.
Qed.

Lemma remapSecond_from_one (ds : list Z) :
  Forall weekDay ds -> Forall (fun d => (1 <= d)%Z) ds ->
  List.map remapSecond ds = List.map remapDay ds.
Proof.
  induction 1 as [|d ds Hd _ IH]; intros H1; [reflexivity|].
  inversion H1 as [|? ? Hone Hrest]; subst.
  cbn [List.map]. rewrite (IH Hrest). f_equal.
  each_weekDay Hd; try reflexivity. lia.
Qed.

(** C1, as the code has it, in both files of [part_000]: for a
    day-of-week field that is a single digit or a comma list of
    digits, every digit is renumbered exactly once, 1..6 to the next
    number and 7 kept; the first file does so for the digits 0..7 and
    sends 0 to 1, the second file for the digits 1..7.  With
    day-of-month [*] the result carries the renumbered list. *)
Theorem day_list_renumbered_once (input m h dom mo : string) (ds : list Z) :
  fieldsOf input = [m; h; dom; mo; dayList ds] ->
  ds <> [] ->
  Forall weekDay ds ->
  (forall n, (0 <= n <= 6)%Z -> remapDay n = if (n =? 0)%Z then 1%Z else (n + 1)%Z) /\
  remapDay 7 = 7%Z /\
  convertDayOfWeek (dayList ds) = dayList (List.map remapDay ds) /\
  (dom = "*" ->
   convertCronToEventBridge input
   = Returned (m ++ " " ++ h ++ " ? " ++ mo ++ " "
                 ++ dayList (List.map remapDay ds) ++ " *")) /\
  (Forall (fun d => (1 <= d)%Z) ds ->
   Unnamed2.convertDayOfWeek (dayList ds) = dayList (List.map remapDay ds) /\
   (dom = "*" ->
    Unnamed2.convertCronToEventBridge input
    = Returned (m ++ " " ++ h ++ " ? " ++ mo ++ " "
                  ++ dayList (List.map remapDay ds) ++ " *"))).
Proof.
  intros Hf Hne Hds. repeat apply conj.
  - intros n Hn. unfold remapDay.
    destruct (Z.eqb_spec n 0); [reflexivity|].
    destruct (Z.leb_spec 1 n), (Z.leb_spec n 6); simpl; try reflexivity; lia.
  - reflexivity.
  - now apply convertDayOfWeek_list.
  - intros ->. now apply convert_day_list.
  - intros Hone.
    pose proof (remapSecond_from_one _ Hds Hone) as Hsame.
    split; [now rewrite (second_day_list _ Hne Hds), Hsame|].
    intros ->.
    rewrite (second_five _ _ _ _ _ _ Hf), (second_day_list _ Hne Hds), Hsame.
    unfold resolveDays.
    destruct (String.eqb_spec (dayList (List.map remapDay ds)) "*") as [E|_].
    + pose proof (dayList_plain _ (remapDay_all _ Hds)) as Hp.
      rewrite E in Hp. discriminate Hp.
    + reflexivity.
Qed.

Lemma day_list_renumbered_once_witness :
  (forall n, (0 <= n <= 6)%Z -> remapDay n = if (n =? 0)%Z then 1%Z else (n + 1)%Z) /\
  remapDay 7 = 7%Z /\
  convertDayOfWeek (dayList [1; 3; 7]%Z) = dayList (List.map remapDay [1; 3; 7]%Z) /\
  ("*" = "*" ->
   convertCronToEventBridge "0 8 * * 1,3,7"
   = Returned ("0" ++ " " ++ "8" ++ " ? " ++ "*" ++ " "
                 ++ dayList (List.map remapDay [1; 3; 7]%Z) ++ " *")) /\
  (Forall (fun d => (1 <= d)%Z) [1; 3; 7]%Z ->
   Unnamed2.convertDayOfWeek (dayList [1; 3; 7]%Z)
   = dayList (List.map remapDay [1; 3; 7]%Z) /\
   ("*" = "*" ->
    Unnamed2.convertCronToEventBridge "0 8 * * 1,3,7"
    = Returned ("0" ++ " " ++ "8" ++ " ? " ++ "*" ++ " "
                  ++ dayList (List.map remapDay [1; 3; 7]%Z) ++ " *"))).
Proof.
  apply (day_list_renumbered_once "0 8 * * 1,3,7" "0" "8" "*" "*" [1; 3; 7]%Z).
  - reflexivity.
  - discriminate.
  - repeat constructor; unfold weekDay; lia.
Defined.

(** C2, as the code has it, in both files of [part_000]: whenever the
    converter returns, the result splits on single blanks into six
    fields of which day-of-month and day-of-week are not both
    specific, and the two follow the table: both given: day-of-week is
    [?]; both [*]: day-of-week is [?]; only day-of-week given:
    day-of-month is [?] and day-of-week keeps its renumbered value;
    only day-of-month given: both stay. *)
Theorem days_never_both_specific (input out : string) :
  (convertCronToEventBridge input = Returned out ->
   exists m h dom mo dow dom' dow',
     fieldsOf input = [m; h; dom; mo; dow] /\
     JS.split " " out = [m; h; dom'; mo; dow'; "*"] /\
     specific dom' && specific dow' = false /\
     (dom <> "*" -> dow <> "*" -> dom' = dom /\ dow' = "?") /\
     (dom = "*" -> dow = "*" -> dom' = "*" /\ dow' = "?") /\
     (dom = "*" -> dow <> "*" -> dom' = "?" /\ dow' = convertDayOfWeek dow) /\
     (dom <> "*" -> dow = "*" -> dom' = dom /\ dow' = "*")) /\
  (Unnamed2.convertCronToEventBridge input = Returned out ->
   exists m h dom mo dow dom' dow',
     fieldsOf input = [m; h; dom; mo; dow] /\
     JS.split " " out = [m; h; dom'; mo; dow'; "*"] /\
     specific dom' && specific dow' = false /\
     (dom <> "*" -> dow <> "*" -> dom' = dom /\ dow' = "?") /\
     (dom = "*" -> dow = "*" -> dom' = "*" /\ dow' = "?") /\
     (dom = "*" -> dow <> "*" ->
      dom' = "?" /\ dow' = Unnamed2.convertDayOfWeek dow) /\
     (dom <> "*" -> dow = "*" -> dom' = dom /\ dow' = "*")).
Proof.
  split; intros Hout;
    (destruct (Nat.eq_dec (List.length (fieldsOf input)) 5) as [Hlen|Hlen];
     [destruct (five_fields _ Hlen) as (m & h & dom & mo & dow & Hf)|]).
  - destruct (convert_shape _ _ _ _ _ _ Hf) as (dom' & dow' & Hr & Hc & Hs & _).
    rewrite Hc in Hout. injection Hout as <-.
    exists m, h, dom, mo, dow, dom', dow'.
    split; [exact Hf|]. split; [exact Hs|].
    exact (resolveDays_table _ _ _ _ _ (convertDayOfWeek_star dow) Hr).
  - rewrite (convert_throws _ Hlen) in Hout. discriminate.
  - destruct (second_shape _ _ _ _ _ _ Hf) as (dom' & dow' & Hr & Hc & Ht).
    assert (E : out = JS.join " " [m; h; dom'; mo; dow'; "*"]) by congruence.
    exists m, h, dom, mo, dow, dom', dow'.
    split; [exact Hf|].
    split; [rewrite E; apply tokens_split; [discriminate|exact Ht]|].
    exact (resolveDays_table _ _ _ _ _ (second_day_star dow) Hr).
  - rewrite (second_throws _ Hlen) in Hout. discriminate.
Qed.

Lemma days_never_both_specific_witness :
  (exists m h dom mo dow dom' dow',
     fieldsOf "0 9 1-7 * 1" = [m; h; dom; mo; dow] /\
     JS.split " " "0 9 1-7 * ? *" = [m; h; dom'; mo; dow'; "*"] /\
     specific dom' && specific dow' = false /\
     (dom <> "*" -> dow <> "*" -> dom' = dom /\ dow' = "?") /\
     (dom = "*" -> dow = "*" -> dom' = "*" /\ dow' = "?") /\
     (dom = "*" -> dow <> "*" -> dom' = "?" /\ dow' = convertDayOfWeek dow) /\
     (dom <> "*" -> dow = "*" -> dom' = dom /\ dow' = "*")) /\
  (exists m h dom mo dow dom' dow',
     fieldsOf "0 9 1-7 * 1" = [m; h; dom; mo; dow] /\
     JS.split " " "0 9 1-7 * ? *" = [m; h; dom'; mo; dow'; "*"] /\
     specific dom' && specific dow' = false /\
     (dom <> "*" -> dow <> "*" -> dom' = dom /\ dow' = "?") /\
     (dom = "*" -> dow = "*" -> dom' = "*" /\ dow' = "?") /\
     (dom = "*" -> dow <> "*" ->
      dom' = "?" /\ dow' = Unnamed2.convertDayOfWeek dow) /\
     (dom <> "*" -> dow = "*" -> dom' = dom /\ dow' = "*")).
Proof.
  split.
  - apply (proj1 (days_never_both_specific "0 9 1-7 * 1" "0 9 1-7 * ? *")).
    reflexivity.
  - apply (proj2 (days_never_both_specific "0 9 1-7 * 1" "0 9 1-7 * ? *")).
    reflexivity.
Defined.

(** C2 as stated fails in the page file: its converter has no
    resolution of the two day fields, and on a validated input with
    both given the result has both specific. *)
Lemma page_file_keeps_both_days :
  IndexPage.validateCronExpression "0 9 1 * 1" = true /\
  IndexPage.convertCronToEventBridge "0 9 1 * 1" = Returned "0 9 1 * 2 *" /\
  JS.split " " "0 9 1 * 2 *" = ["0"; "9"; "1"; "*"; "2"; "*"] /\
  specific "1" && specific "2" = true.
Proof. repeat apply conj; reflexivity. Qed.

(** C7: the code at a failing input.  The second file reads the step
    only behind [*]: behind a number or a range a step of zero passes,
    where the branch for [*] of the same function and the first file
    refuse it. *)
Theorem second_file_accepts_zero_step :
  Unnamed2.isValidCronField "1/0" 0 59 = true /\
  Unnamed2.validateCronExpression "1/0 * * * *" = true /\
  Unnamed2.validateCronExpression "1-5/0 * * * *" = true /\
  Unnamed2.validateCronExpression "*/0 * * * *" = false /\
  validateCronExpression "1/0 * * * *" = false /\
  validateCronExpression "1-5/0 * * * *" = false /\
  validateCronExpression "*/0 * * * *" = false.
Proof. repeat apply conj; reflexivity. Qed.

Lemma second_accepts_day_names (field : string) (min max : Z) :
  Unnamed2.matchesDayNames field = true ->
  Unnamed2.isValidCronField field min max = true.
Proof.
  intros H. unfold Unnamed2.isValidCronField. rewrite H.
  now destruct (String.eqb field "*").
Qed.

Lemma second_refuses_other_case (field : string) (min max : Z) :
  In (JS.toUpperCase field) dayNames -> field <> JS.toUpperCase field ->
  Unnamed2.isValidCronField field min max = false.
Proof.
  intros Hup Hne. unfold JS.toUpperCase in Hup, Hne. simpl in Hup.
  repeat (destruct Hup as [Hup|Hup];
    [destruct field as [|a [|b [|c [|d r]]]]; try discriminate Hup;
     cbn [JS.map] in Hup, Hne; injection Hup as Ha Hb Hc;
     symmetry in Ha, Hb, Hc;
     each_case Ha; each_case Hb; each_case Hc;
     first [reflexivity | exfalso; apply Hne; reflexivity]|]).
  contradiction.
Qed.

Lemma second_refuses_month_names (field : string) (min max : Z) :
  In (JS.toUpperCase field) monthNames ->
  Unnamed2.isValidCronField field min max = false.
Proof.
  intros Hup. unfold JS.toUpperCase in Hup. simpl in Hup.
  repeat (destruct Hup as [Hup|Hup];
    [destruct field as [|a [|b [|c [|d r]]]]; try discriminate Hup;
     cbn [JS.map] in Hup; injection Hup as Ha Hb Hc;
     symmetry in Ha, Hb, Hc;
     each_case Ha; each_case Hb; each_case Hc; reflexivity|]).
  contradiction.
Qed.

(** C8, as the code has it.  In the first file a field that matches
    the day-name pattern passes the validator only as the day-of-week
    field and one that matches the month-name pattern only as the
    month field; the patterns do not look at the case of the letters,
    and the lower-case form of a named field passes wherever its
    upper-case form does.  In the second file a field that matches
    the day-name pattern passes in every field, whatever the bounds;
    the pattern is in upper case only, so a day name written with a
    lower-case letter is refused; and there are no month names: a
    month name is refused in every field. *)
Theorem named_fields_have_their_place
    (input field : string) (i : nat) (fieldType : FieldType) :
  nth_error (fieldsOf input) i = Some field ->
  nth_error fieldTypes i = Some fieldType ->
  matchesNamed dayNames field = true \/ matchesNamed monthNames field = true ->
  ((validateCronExpression input = true ->
    (matchesNamed dayNames field = true /\ fieldType = dayOfWeek) \/
    (matchesNamed monthNames field = true /\ fieldType = month)) /\
   (forall names,
      matchesNamed names (JS.toLowerCase field) = matchesNamed names field /\
      matchesNamed names (JS.toUpperCase field) = matchesNamed names field) /\
   (forall min max,
      isValidCronField (JS.toUpperCase field) min max fieldType = true ->
      isValidCronField (JS.toLowerCase field) min max fieldType = true)) /\
  (forall f min max,
     Unnamed2.matchesDayNames f = true ->
     Unnamed2.isValidCronField f min max = true) /\
  (forall f min max,
     In (JS.toUpperCase f) dayNames -> f <> JS.toUpperCase f ->
     Unnamed2.isValidCronField f min max = false) /\
  (forall f min max,
     In (JS.toUpperCase f) monthNames ->
     Unnamed2.isValidCronField f min max = false).
Proof.
  intros Hi Ht Hnamed. split; [|repeat apply conj].
  - assert (Hcase : forall names,
       matchesNamed names (JS.toLowerCase field) = matchesNamed names field /\
       matchesNamed names (JS.toUpperCase field) = matchesNamed names field).
    { intros names. split.
      + apply (matchesNamed_map _ toLower_keepsCase).
      + apply (matchesNamed_map _ toUpper_keepsCase). }
    assert (Hplace : forall f min max,
       matchesNamed dayNames f = true \/ matchesNamed monthNames f = true ->
       isValidCronField f min max fieldType = true ->
       (matchesNamed dayNames f = true /\ fieldType = dayOfWeek) \/
       (matchesNamed monthNames f = true /\ fieldType = month)).
    { intros f min max [Hd|Hm] Hv.
      + left. split; [exact Hd|].
        destruct fieldType; try reflexivity;
          rewrite valid_named_elsewhere in Hv by (left; split; [exact Hd|discriminate]);
          discriminate Hv.
      + right. split; [exact Hm|].
        destruct fieldType; try reflexivity;
          rewrite valid_named_elsewhere in Hv by (right; split; [exact Hm|discriminate]);
          discriminate Hv. }
    repeat apply conj.
    + intros Hv.
      exact (Hplace field _ _ Hnamed (validate_each _ Hv _ _ _ Hi Ht)).
    + exact Hcase.
    + intros min max Hv.
      assert (Hup : matchesNamed dayNames (JS.toUpperCase field) = true \/
                    matchesNamed monthNames (JS.toUpperCase field) = true).
      { now rewrite !(proj2 (Hcase _)). }
      destruct (Hplace _ _ _ Hup Hv) as [[Hd ->]|[Hm ->]].
      * rewrite valid_named_day in Hv by exact Hd.
        rewrite valid_named_day
          by (now rewrite (proj1 (Hcase _)), <- (proj2 (Hcase dayNames))).
        rewrite lower_has_no_L. unfold JS.toLowerCase.
        rewrite (includes_hash_map _ toLower_keepsCase).
        unfold JS.toUpperCase in Hv.
        rewrite (includes_hash_map _ toUpper_keepsCase) in Hv.
        apply andb_true_iff in Hv as [Hv _]. now rewrite Hv.
      * apply valid_named_month.
        now rewrite (proj1 (Hcase _)), <- (proj2 (Hcase monthNames)).
  - exact second_accepts_day_names.
  - exact second_refuses_other_case.
  - exact second_refuses_month_names.
Qed.

Lemma named_fields_have_their_place_witness :
  ((validateCronExpression "0 9 * * mon-fri" = true ->
    (matchesNamed dayNames "mon-fri" = true /\ dayOfWeek = dayOfWeek) \/
    (matchesNamed monthNames "mon-fri" = true /\ dayOfWeek = month)) /\
   (forall names,
      matchesNamed names (JS.toLowerCase "mon-fri") = matchesNamed names "mon-fri" /\
      matchesNamed names (JS.toUpperCase "mon-fri") = matchesNamed names "mon-fri") /\
   (forall min max,
      isValidCronField (JS.toUpperCase "mon-fri") min max dayOfWeek = true ->
      isValidCronField (JS.toLowerCase "mon-fri") min max dayOfWeek = true)) /\
  (forall f min max,
     Unnamed2.matchesDayNames f = true ->
     Unnamed2.isValidCronField f min max = true) /\
  (forall f min max,
     In (JS.toUpperCase f) dayNames -> f <> JS.toUpperCase f ->
     Unnamed2.isValidCronField f min max = false) /\
  (forall f min max,
     In (JS.toUpperCase f) monthNames ->
     Unnamed2.isValidCronField f min max = false).
Proof.
  apply (named_fields_have_their_place "0 9 * * mon-fri" "mon-fri" 4 dayOfWeek).
  - reflexivity.
  - reflexivity.
  - left. reflexivity.
Defined.

(** C8 as stated fails in the second file: a day name passes as the
    minute field, and in the day-of-week field the upper-case form
    passes where the lower-case form is refused. *)
Lemma second_file_names_anywhere :
  Unnamed2.validateCronExpression "MON * * * *" = true /\
  Unnamed2.validateCronExpression "0 0 * * MON" = true /\
  Unnamed2.validateCronExpression "0 0 * * mon" = false /\
  Unnamed2.validateCronExpression "0 0 * JAN *" = false.
Proof. repeat apply conj; reflexivity. Qed.
